(** * Garmin sync: normalisation and upsert engine

    A shallow embedding of [johnny/parsers.py] and of the persist phase of
    [johnny/sync_to_db.py], with the properties of the specification that
    concern them.

    JSON payloads are untyped Python values ([pyval]); Python exceptions are
    the [Raise] results of a small error monad; the SQLAlchemy session is a
    state record with a committed store, the transaction's working copy and
    the list of pending (not yet flushed) objects. *)

From Stdlib Require Import ZArith QArith String List Bool Lia.
From Stdlib Require Import Floats.SpecFloat.
From stdpp Require Import gmap strings list fin_maps.

Local Open Scope string_scope.
Local Open Scope Z_scope.
Local Open Scope list_scope.
Set Warnings "-register-all".

(** ** Python values *)

(** What [json.loads] produces.  A mapping is kept as the list of its
    items; [dict_get] reads the first item with the key, so a list holds a
    key once as far as the program can see. *)
Inductive pyval : Type :=
| PNone
| PBool (b : bool)
| PInt (n : Z)
| PFloat (f : spec_float)
| PStr (s : string)
| PList (l : list pyval)
| PDict (d : list (string * pyval)).

(** The exception classes the modelled code can meet.  [DBError] stands for
    any [sqlalchemy.exc.SQLAlchemyError]. *)
Inductive pyexc : Type :=
| KeyError (key : string)
| AttributeError
| TypeError
| ValueError
| OverflowError
| OSError
| DBError.

Inductive result (A : Type) : Type :=
| Ok (a : A)
| Raise (e : pyexc).
Arguments Ok {A} a.
Arguments Raise {A} e.

Definition rbind {A B} (m : result A) (k : A -> result B) : result B :=
  match m with
  | Ok a => k a
  | Raise e => Raise e
  end.

Declare Scope py_scope.
Delimit Scope py_scope with py.
Notation "x <- m ;; k" := (rbind m (fun x => k))
  (at level 100, m at next level, right associativity) : py_scope.

(** [bool(v)] *)
Definition truthy (v : pyval) : bool :=
  match v with
  | PNone => false
  | PBool b => b
  | PInt n => negb (n =? 0)
  | PFloat (S754_zero _) => false
  | PFloat _ => true
  | PStr s => negb (String.eqb s "")
  | PList l => match l with [] => false | _ => true end
  | PDict d => match d with [] => false | _ => true end
  end.

(** [a or b] *)
Definition py_or (a b : pyval) : pyval := if truthy a then a else b.

(** [isinstance(v, (int, float))]: [bool] is a subclass of [int]. *)
Definition is_int_or_float (v : pyval) : bool :=
  match v with
  | PBool _ | PInt _ | PFloat _ => true
  | _ => false
  end.

(** [isinstance(v, dict)] and [isinstance(v, list)] *)
Definition is_dict (v : pyval) : bool :=
  match v with PDict _ => true | _ => false end.
Definition is_list (v : pyval) : bool :=
  match v with PList _ => true | _ => false end.

(** [f == k] for a float [f] and an int [k]: Python compares the exact
    values.  A finite float is [(-1)^s * m * 2^e]. *)
Definition float_eq_int (f : spec_float) (k : Z) : bool :=
  match f with
  | S754_zero _ => k =? 0
  | S754_finite s m e =>
      let sm := if s then Z.neg m else Z.pos m in
      if 0 <=? e then sm * 2 ^ e =? k else sm =? k * 2 ^ (- e)
  | S754_infinity _ | S754_nan => false
  end.

(** [v == k] for a number [v] and an int literal [k]. *)
Definition num_eq_int (v : pyval) (k : Z) : bool :=
  match v with
  | PBool b => Z.b2z b =? k
  | PInt n => n =? k
  | PFloat f => float_eq_int f k
  | _ => false
  end.

(** [d.get(k)] on a mapping's items *)
Fixpoint dict_get (d : list (string * pyval)) (k : string) : pyval :=
  match d with
  | [] => PNone
  | (k', v) :: d' => if String.eqb k' k then v else dict_get d' k
  end.

(** [k in d] *)
Fixpoint dict_has (d : list (string * pyval)) (k : string) : bool :=
  match d with
  | [] => false
  | (k', _) :: d' => String.eqb k' k || dict_has d' k
  end.

(** [v.get(k)]: only a mapping has the method. *)
Definition py_get (v : pyval) (k : string) : result pyval :=
  match v with
  | PDict d => Ok (dict_get d k)
  | _ => Raise AttributeError
  end.

(** [v[k]] with a string key: [KeyError] on a mapping without the key,
    [TypeError] on every other JSON value. *)
Definition py_getitem (v : pyval) (k : string) : result pyval :=
  match v with
  | PDict d => if dict_has d k then Ok (dict_get d k) else Raise (KeyError k)
  | _ => Raise TypeError
  end.

(** ** parsers.py: the sentinel normaliser *)

(** [_sentinel(val, *, allow_zero=True)].  The keyword is accepted and
    never read. *)
Definition _sentinel_kw (allow_zero : bool) (val : pyval) : pyval :=
  match val with
  | PNone => PNone
  | _ =>
      if is_int_or_float val && (num_eq_int val (-1) || num_eq_int val (-2))
      then PNone
      else val
  end.

Definition _sentinel (val : pyval) : pyval := _sentinel_kw true val.

(** ** Dates *)

(** [datetime.date] and [datetime.datetime] (naive). *)
Record date : Type := mkdate {
  date_year : Z;
  date_month : Z;
  date_day : Z
}.

Record datetime : Type := mkdatetime {
  dt_date : date;
  dt_hour : Z;
  dt_minute : Z;
  dt_second : Z;
  dt_microsecond : Z
}.

#[global] Instance date_eq_dec : EqDecision date.
Proof. solve_decision. Defined.

#[global] Instance date_countable : Countable date.
Proof.
  refine (inj_countable'
            (fun d => (date_year d, date_month d, date_day d))
            (fun t => mkdate t.1.1 t.1.2 t.2) _).
  intros []; reflexivity.
Defined.

(** The functions of Python's standard library that the parsers call.
    They are parameters of the development: [None] stands for the
    [ValueError] each raises on a string it rejects.
    - [lib_date_fromisoformat s] is [date.fromisoformat(s)];
    - [lib_strptime s fmt] is [datetime.strptime(s, fmt)];
    - [lib_int_of_str s] is [int(s)];
    - [lib_fromtimestamp_ms n] is [datetime.fromtimestamp(n / 1000)] for
      an int [n], in the machine's local time zone. *)
Record pylib : Type := mkpylib {
  lib_date_fromisoformat : string -> option date;
  lib_strptime : string -> string -> option datetime;
  lib_int_of_str : string -> option Z;
  lib_fromtimestamp_ms : Z -> result datetime
}.

(** ** models.py *)

(** [class DailySummary]: table [daily_summary] *)
Module DailySummary.
Record t : Type := mk {
  calendar_date : date;
  total_steps : pyval;
  total_distance_meters : pyval;
  daily_step_goal : pyval;
  total_kilocalories : pyval;
  active_kilocalories : pyval;
  bmr_kilocalories : pyval;
  highly_active_seconds : pyval;
  active_seconds : pyval;
  sedentary_seconds : pyval;
  sleeping_seconds : pyval;
  moderate_intensity_minutes : pyval;
  vigorous_intensity_minutes : pyval;
  floors_ascended : pyval;
  floors_descended : pyval;
  min_heart_rate : pyval;
  max_heart_rate : pyval;
  resting_heart_rate : pyval;
  last_7d_avg_resting_hr : pyval;
  average_stress_level : pyval;
  max_stress_level : pyval;
  stress_duration : pyval;
  rest_stress_duration : pyval;
  low_stress_duration : pyval;
  medium_stress_duration : pyval;
  high_stress_duration : pyval;
  body_battery_charged : pyval;
  body_battery_drained : pyval;
  body_battery_highest : pyval;
  body_battery_lowest : pyval;
  body_battery_most_recent : pyval;
  body_battery_at_wake : pyval;
  body_battery_during_sleep : pyval;
  average_spo2 : pyval;
  lowest_spo2 : pyval;
  avg_waking_respiration : pyval;
  highest_respiration : pyval;
  lowest_respiration : pyval;
  weight : pyval;
  bmi : pyval;
  body_fat : pyval;
  body_water : pyval;
  bone_mass : pyval;
  muscle_mass : pyval;
  visceral_fat : pyval;
  metabolic_age : pyval;
  hydration_value_ml : pyval;
  hydration_goal_ml : pyval
}.
End DailySummary.

(** [class DailySleep]: table [daily_sleep] *)
Module DailySleep.
Record t : Type := mk {
  calendar_date : date;
  sleep_start_timestamp_local : option datetime;
  sleep_end_timestamp_local : option datetime;
  sleep_time_seconds : pyval;
  nap_time_seconds : pyval;
  deep_sleep_seconds : pyval;
  light_sleep_seconds : pyval;
  rem_sleep_seconds : pyval;
  awake_sleep_seconds : pyval;
  awake_count : pyval;
  avg_sleep_stress : pyval;
  avg_heart_rate : pyval;
  average_respiration : pyval;
  lowest_respiration : pyval;
  highest_respiration : pyval;
  sleep_score_overall : pyval;
  sleep_score_qualifier : pyval;
  rem_percentage : pyval;
  light_percentage : pyval;
  deep_percentage : pyval;
  sleep_need_baseline_minutes : pyval;
  sleep_need_actual_minutes : pyval;
  body_battery_change : pyval;
  resting_heart_rate : pyval;
  avg_overnight_hrv : pyval
}.
End DailySleep.

(** [class DailyHrv]: table [daily_hrv] *)
Module DailyHrv.
Record t : Type := mk {
  calendar_date : date;
  weekly_avg : pyval;
  last_night_avg : pyval;
  last_night_5min_high : pyval;
  baseline_low_upper : pyval;
  baseline_balanced_low : pyval;
  baseline_balanced_upper : pyval;
  status : pyval
}.
End DailyHrv.

(** [class ActivitySplitSummary]: table [activity_split_summaries] *)
Module ActivitySplitSummary.
Record t : Type := mk {
  id : option Z;
  activity_id : pyval;
  split_type : pyval;
  no_of_splits : pyval;
  duration_seconds : pyval;
  distance_meters : pyval;
  average_speed : pyval;
  max_speed : pyval;
  total_ascent : pyval;
  elevation_loss : pyval
}.
End ActivitySplitSummary.

(** [class Activity]: table [activities] *)
Module Activity.
Record t : Type := mk {
  activity_id : pyval;
  calendar_date : date;
  activity_name : pyval;
  activity_type_key : pyval;
  activity_type_id : pyval;
  start_time_local : option datetime;
  start_time_gmt : option datetime;
  distance_meters : pyval;
  duration_seconds : pyval;
  elapsed_duration_seconds : pyval;
  moving_duration_seconds : pyval;
  elevation_gain : pyval;
  elevation_loss : pyval;
  average_speed : pyval;
  max_speed : pyval;
  start_latitude : pyval;
  start_longitude : pyval;
  calories : pyval;
  bmr_calories : pyval;
  average_hr : pyval;
  max_hr : pyval;
  average_cadence : pyval;
  max_cadence : pyval;
  steps : pyval;
  avg_power : pyval;
  max_power : pyval;
  norm_power : pyval;
  aerobic_training_effect : pyval;
  anaerobic_training_effect : pyval;
  vo2_max : pyval;
  avg_vertical_oscillation : pyval;
  avg_ground_contact_time : pyval;
  avg_stride_length : pyval;
  avg_vertical_ratio : pyval;
  min_temperature : pyval;
  max_temperature : pyval;
  training_effect_label : pyval;
  activity_training_load : pyval;
  fastest_split_1000 : pyval;
  fastest_split_1609 : pyval;
  fastest_split_5000 : pyval;
  fastest_split_10000 : pyval;
  hr_time_in_zone_1 : pyval;
  hr_time_in_zone_2 : pyval;
  hr_time_in_zone_3 : pyval;
  hr_time_in_zone_4 : pyval;
  hr_time_in_zone_5 : pyval;
  difference_body_battery : pyval;
  split_summaries : list ActivitySplitSummary.t
}.
(** [a.split_summaries = l] *)
Definition with_split_summaries (a : t) (l : list ActivitySplitSummary.t) : t := {|
  activity_id := activity_id a;
  calendar_date := calendar_date a;
  activity_name := activity_name a;
  activity_type_key := activity_type_key a;
  activity_type_id := activity_type_id a;
  start_time_local := start_time_local a;
  start_time_gmt := start_time_gmt a;
  distance_meters := distance_meters a;
  duration_seconds := duration_seconds a;
  elapsed_duration_seconds := elapsed_duration_seconds a;
  moving_duration_seconds := moving_duration_seconds a;
  elevation_gain := elevation_gain a;
  elevation_loss := elevation_loss a;
  average_speed := average_speed a;
  max_speed := max_speed a;
  start_latitude := start_latitude a;
  start_longitude := start_longitude a;
  calories := calories a;
  bmr_calories := bmr_calories a;
  average_hr := average_hr a;
  max_hr := max_hr a;
  average_cadence := average_cadence a;
  max_cadence := max_cadence a;
  steps := steps a;
  avg_power := avg_power a;
  max_power := max_power a;
  norm_power := norm_power a;
  aerobic_training_effect := aerobic_training_effect a;
  anaerobic_training_effect := anaerobic_training_effect a;
  vo2_max := vo2_max a;
  avg_vertical_oscillation := avg_vertical_oscillation a;
  avg_ground_contact_time := avg_ground_contact_time a;
  avg_stride_length := avg_stride_length a;
  avg_vertical_ratio := avg_vertical_ratio a;
  min_temperature := min_temperature a;
  max_temperature := max_temperature a;
  training_effect_label := training_effect_label a;
  activity_training_load := activity_training_load a;
  fastest_split_1000 := fastest_split_1000 a;
  fastest_split_1609 := fastest_split_1609 a;
  fastest_split_5000 := fastest_split_5000 a;
  fastest_split_10000 := fastest_split_10000 a;
  hr_time_in_zone_1 := hr_time_in_zone_1 a;
  hr_time_in_zone_2 := hr_time_in_zone_2 a;
  hr_time_in_zone_3 := hr_time_in_zone_3 a;
  hr_time_in_zone_4 := hr_time_in_zone_4 a;
  hr_time_in_zone_5 := hr_time_in_zone_5 a;
  difference_body_battery := difference_body_battery a;
  split_summaries := l
|}.

(** [a.split_summaries.append(x)] for each [x] of [l] *)
Definition append_splits (a : t) (l : list ActivitySplitSummary.t) : t :=
  with_split_summaries a (split_summaries a ++ l).
End Activity.

(** ** parsers.py *)

(** [int(f)] for a float: truncation towards zero. *)
Definition float_trunc (f : spec_float) : result Z :=
  match f with
  | S754_zero _ => Ok 0
  | S754_infinity _ => Raise OverflowError
  | S754_nan => Raise ValueError
  | S754_finite s m e =>
      let sm := if s then Z.neg m else Z.pos m in
      Ok (if 0 <=? e then sm * 2 ^ e else Z.quot sm (2 ^ (- e)))
  end.

(** [for x in v]: the items a loop over [v] visits. *)
Definition py_iter (v : pyval) : result (list pyval) :=
  match v with
  | PList l => Ok l
  | PDict d => Ok (map (fun kv => PStr (fst kv)) d)
  | PStr s => Ok (map (fun c => PStr (String c EmptyString)) (list_ascii_of_string s))
  | PNone | PBool _ | PInt _ | PFloat _ => Raise TypeError
  end.

Fixpoint mapM {A B} (f : A -> result B) (l : list A) : result (list B) :=
  match l with
  | [] => Ok []
  | x :: l' =>
      (y <- f x ;;
       ys <- mapM f l' ;;
       Ok (y :: ys))%py
  end.

Section Parsers.

Variable L : pylib.

Local Open Scope py_scope.

(** [int(v)] *)
Definition py_int (v : pyval) : result Z :=
  match v with
  | PBool b => Ok (Z.b2z b)
  | PInt n => Ok n
  | PFloat f => float_trunc f
  | PStr s =>
      match lib_int_of_str L s with
      | Some n => Ok n
      | None => Raise ValueError
      end
  | PNone | PList _ | PDict _ => Raise TypeError
  end.

(** [date.fromisoformat(v)] *)
Definition py_fromisoformat (v : pyval) : result date :=
  match v with
  | PStr s =>
      match lib_date_fromisoformat L s with
      | Some d => Ok d
      | None => Raise ValueError
      end
  | _ => Raise TypeError
  end.

(** [datetime.strptime(v, fmt)] *)
Definition py_strptime (v : pyval) (fmt : string) : result datetime :=
  match v with
  | PStr s =>
      match lib_strptime L s fmt with
      | Some d => Ok d
      | None => Raise ValueError
      end
  | _ => Raise TypeError
  end.

(** [_epoch_ms_to_datetime(epoch_ms)] *)
Definition _epoch_ms_to_datetime (epoch_ms : pyval) : result (option datetime) :=
  match epoch_ms with
  | PNone => Ok None
  | _ =>
      match (n <- py_int epoch_ms ;; lib_fromtimestamp_ms L n) with
      | Ok d => Ok (Some d)
      | Raise OSError | Raise OverflowError | Raise ValueError => Ok None
      | Raise e => Raise e
      end
  end.

(** [parse_daily_summary(stats_body, hydration)] *)
Definition parse_daily_summary (stats_body hydration : pyval)
  : result DailySummary.t :=
  let s := stats_body in
  let h := py_or hydration (PDict []) in
  r_cal_date <- py_getitem s "calendarDate" ;;
  cal_date <- py_fromisoformat r_cal_date ;;
  v_total_steps <- py_get s "totalSteps" ;;
  v_total_distance_meters <- py_get s "totalDistanceMeters" ;;
  v_daily_step_goal <- py_get s "dailyStepGoal" ;;
  v_total_kilocalories <- py_get s "totalKilocalories" ;;
  v_active_kilocalories <- py_get s "activeKilocalories" ;;
  v_bmr_kilocalories <- py_get s "bmrKilocalories" ;;
  v_highly_active_seconds <- py_get s "highlyActiveSeconds" ;;
  v_active_seconds <- py_get s "activeSeconds" ;;
  v_sedentary_seconds <- py_get s "sedentarySeconds" ;;
  v_sleeping_seconds <- py_get s "sleepingSeconds" ;;
  v_moderate_intensity_minutes <- py_get s "moderateIntensityMinutes" ;;
  v_vigorous_intensity_minutes <- py_get s "vigorousIntensityMinutes" ;;
  v_floors_ascended <- py_get s "floorsAscended" ;;
  v_floors_descended <- py_get s "floorsDescended" ;;
  v_min_heart_rate <- py_get s "minHeartRate" ;;
  v_max_heart_rate <- py_get s "maxHeartRate" ;;
  v_resting_heart_rate <- py_get s "restingHeartRate" ;;
  v_last_7d_avg_resting_hr <- py_get s "lastSevenDaysAvgRestingHeartRate" ;;
  v_average_stress_level <- py_get s "averageStressLevel" ;;
  v_max_stress_level <- py_get s "maxStressLevel" ;;
  v_stress_duration <- py_get s "stressDuration" ;;
  v_rest_stress_duration <- py_get s "restStressDuration" ;;
  v_low_stress_duration <- py_get s "lowStressDuration" ;;
  v_medium_stress_duration <- py_get s "mediumStressDuration" ;;
  v_high_stress_duration <- py_get s "highStressDuration" ;;
  v_body_battery_charged <- py_get s "bodyBatteryChargedValue" ;;
  v_body_battery_drained <- py_get s "bodyBatteryDrainedValue" ;;
  v_body_battery_highest <- py_get s "bodyBatteryHighestValue" ;;
  v_body_battery_lowest <- py_get s "bodyBatteryLowestValue" ;;
  v_body_battery_most_recent <- py_get s "bodyBatteryMostRecentValue" ;;
  v_body_battery_at_wake <- py_get s "bodyBatteryAtWakeTime" ;;
  v_body_battery_during_sleep <- py_get s "bodyBatteryDuringSleep" ;;
  v_average_spo2 <- py_get s "averageSpo2" ;;
  v_lowest_spo2 <- py_get s "lowestSpo2" ;;
  v_avg_waking_respiration <- py_get s "avgWakingRespirationValue" ;;
  v_highest_respiration <- py_get s "highestRespirationValue" ;;
  v_lowest_respiration <- py_get s "lowestRespirationValue" ;;
  v_weight <- py_get s "weight" ;;
  v_bmi <- py_get s "bmi" ;;
  v_body_fat <- py_get s "bodyFat" ;;
  v_body_water <- py_get s "bodyWater" ;;
  v_bone_mass <- py_get s "boneMass" ;;
  v_muscle_mass <- py_get s "muscleMass" ;;
  v_visceral_fat <- py_get s "visceralFat" ;;
  v_metabolic_age <- py_get s "metabolicAge" ;;
  v_hydration_value_ml <- py_get h "valueInML" ;;
  v_hydration_goal_ml <- py_get h "goalInML" ;;
  Ok {|
    DailySummary.calendar_date := cal_date;
    DailySummary.total_steps := _sentinel v_total_steps;
    DailySummary.total_distance_meters := _sentinel v_total_distance_meters;
    DailySummary.daily_step_goal := _sentinel v_daily_step_goal;
    DailySummary.total_kilocalories := _sentinel v_total_kilocalories;
    DailySummary.active_kilocalories := _sentinel v_active_kilocalories;
    DailySummary.bmr_kilocalories := _sentinel v_bmr_kilocalories;
    DailySummary.highly_active_seconds := _sentinel v_highly_active_seconds;
    DailySummary.active_seconds := _sentinel v_active_seconds;
    DailySummary.sedentary_seconds := _sentinel v_sedentary_seconds;
    DailySummary.sleeping_seconds := _sentinel v_sleeping_seconds;
    DailySummary.moderate_intensity_minutes := _sentinel v_moderate_intensity_minutes;
    DailySummary.vigorous_intensity_minutes := _sentinel v_vigorous_intensity_minutes;
    DailySummary.floors_ascended := _sentinel v_floors_ascended;
    DailySummary.floors_descended := _sentinel v_floors_descended;
    DailySummary.min_heart_rate := _sentinel v_min_heart_rate;
    DailySummary.max_heart_rate := _sentinel v_max_heart_rate;
    DailySummary.resting_heart_rate := _sentinel v_resting_heart_rate;
    DailySummary.last_7d_avg_resting_hr := _sentinel v_last_7d_avg_resting_hr;
    DailySummary.average_stress_level := _sentinel v_average_stress_level;
    DailySummary.max_stress_level := _sentinel v_max_stress_level;
    DailySummary.stress_duration := _sentinel v_stress_duration;
    DailySummary.rest_stress_duration := _sentinel v_rest_stress_duration;
    DailySummary.low_stress_duration := _sentinel v_low_stress_duration;
    DailySummary.medium_stress_duration := _sentinel v_medium_stress_duration;
    DailySummary.high_stress_duration := _sentinel v_high_stress_duration;
    DailySummary.body_battery_charged := _sentinel v_body_battery_charged;
    DailySummary.body_battery_drained := _sentinel v_body_battery_drained;
    DailySummary.body_battery_highest := _sentinel v_body_battery_highest;
    DailySummary.body_battery_lowest := _sentinel v_body_battery_lowest;
    DailySummary.body_battery_most_recent := _sentinel v_body_battery_most_recent;
    DailySummary.body_battery_at_wake := _sentinel v_body_battery_at_wake;
    DailySummary.body_battery_during_sleep := _sentinel v_body_battery_during_sleep;
    DailySummary.average_spo2 := _sentinel v_average_spo2;
    DailySummary.lowest_spo2 := _sentinel v_lowest_spo2;
    DailySummary.avg_waking_respiration := _sentinel v_avg_waking_respiration;
    DailySummary.highest_respiration := _sentinel v_highest_respiration;
    DailySummary.lowest_respiration := _sentinel v_lowest_respiration;
    DailySummary.weight := _sentinel v_weight;
    DailySummary.bmi := _sentinel v_bmi;
    DailySummary.body_fat := _sentinel v_body_fat;
    DailySummary.body_water := _sentinel v_body_water;
    DailySummary.bone_mass := _sentinel v_bone_mass;
    DailySummary.muscle_mass := _sentinel v_muscle_mass;
    DailySummary.visceral_fat := _sentinel v_visceral_fat;
    DailySummary.metabolic_age := _sentinel v_metabolic_age;
    DailySummary.hydration_value_ml := _sentinel v_hydration_value_ml;
    DailySummary.hydration_goal_ml := _sentinel v_hydration_goal_ml
  |}.

(** [parse_daily_sleep(sleep_data)] *)
Definition parse_daily_sleep (sleep_data : pyval)
  : result (option DailySleep.t) :=
  r_dto <- py_get sleep_data "dailySleepDTO" ;;
  let dto := py_or r_dto (PDict []) in
  if negb (truthy dto) then Ok None else
  cal_date_str <- py_get dto "calendarDate" ;;
  if negb (truthy cal_date_str) then Ok None else
  cal_date <- py_fromisoformat cal_date_str ;;
  r_scores <- py_get dto "sleepScores" ;;
  let scores := py_or r_scores (PDict []) in
  r_overall <- py_get scores "overall" ;;
  let overall := py_or r_overall (PDict []) in
  r_rem_pct <- py_get scores "remPercentage" ;;
  let rem_pct := py_or r_rem_pct (PDict []) in
  r_light_pct <- py_get scores "lightPercentage" ;;
  let light_pct := py_or r_light_pct (PDict []) in
  r_deep_pct <- py_get scores "deepPercentage" ;;
  let deep_pct := py_or r_deep_pct (PDict []) in
  r_sleep_need <- py_get dto "sleepNeed" ;;
  let sleep_need := py_or r_sleep_need (PDict []) in
  r_sleep_start_timestamp_local <- py_get dto "sleepStartTimestampGMT" ;;
  v_sleep_start_timestamp_local <- _epoch_ms_to_datetime r_sleep_start_timestamp_local ;;
  r_sleep_end_timestamp_local <- py_get dto "sleepEndTimestampGMT" ;;
  v_sleep_end_timestamp_local <- _epoch_ms_to_datetime r_sleep_end_timestamp_local ;;
  v_sleep_time_seconds <- py_get dto "sleepTimeSeconds" ;;
  v_nap_time_seconds <- py_get dto "napTimeSeconds" ;;
  v_deep_sleep_seconds <- py_get dto "deepSleepSeconds" ;;
  v_light_sleep_seconds <- py_get dto "lightSleepSeconds" ;;
  v_rem_sleep_seconds <- py_get dto "remSleepSeconds" ;;
  v_awake_sleep_seconds <- py_get dto "awakeSleepSeconds" ;;
  v_awake_count <- py_get dto "awakeCount" ;;
  v_avg_sleep_stress <- py_get dto "avgSleepStress" ;;
  v_avg_heart_rate <- py_get dto "avgHeartRate" ;;
  v_average_respiration <- py_get dto "averageRespirationValue" ;;
  v_lowest_respiration <- py_get dto "lowestRespirationValue" ;;
  v_highest_respiration <- py_get dto "highestRespirationValue" ;;
  v_sleep_score_overall <- py_get overall "value" ;;
  v_sleep_score_qualifier <- py_get overall "qualifierKey" ;;
  v_rem_percentage <- py_get rem_pct "value" ;;
  v_light_percentage <- py_get light_pct "value" ;;
  v_deep_percentage <- py_get deep_pct "value" ;;
  v_sleep_need_baseline_minutes <- py_get sleep_need "baseline" ;;
  v_sleep_need_actual_minutes <- py_get sleep_need "actual" ;;
  v_body_battery_change <- py_get sleep_data "bodyBatteryChange" ;;
  v_resting_heart_rate <- py_get sleep_data "restingHeartRate" ;;
  v_avg_overnight_hrv <- py_get sleep_data "avgOvernightHrv" ;;
  Ok (Some {|
    DailySleep.calendar_date := cal_date;
    DailySleep.sleep_start_timestamp_local := v_sleep_start_timestamp_local;
    DailySleep.sleep_end_timestamp_local := v_sleep_end_timestamp_local;
    DailySleep.sleep_time_seconds := _sentinel v_sleep_time_seconds;
    DailySleep.nap_time_seconds := _sentinel v_nap_time_seconds;
    DailySleep.deep_sleep_seconds := _sentinel v_deep_sleep_seconds;
    DailySleep.light_sleep_seconds := _sentinel v_light_sleep_seconds;
    DailySleep.rem_sleep_seconds := _sentinel v_rem_sleep_seconds;
    DailySleep.awake_sleep_seconds := _sentinel v_awake_sleep_seconds;
    DailySleep.awake_count := _sentinel v_awake_count;
    DailySleep.avg_sleep_stress := _sentinel v_avg_sleep_stress;
    DailySleep.avg_heart_rate := _sentinel v_avg_heart_rate;
    DailySleep.average_respiration := _sentinel v_average_respiration;
    DailySleep.lowest_respiration := _sentinel v_lowest_respiration;
    DailySleep.highest_respiration := _sentinel v_highest_respiration;
    DailySleep.sleep_score_overall := _sentinel v_sleep_score_overall;
    DailySleep.sleep_score_qualifier := v_sleep_score_qualifier;
    DailySleep.rem_percentage := _sentinel v_rem_percentage;
    DailySleep.light_percentage := _sentinel v_light_percentage;
    DailySleep.deep_percentage := _sentinel v_deep_percentage;
    DailySleep.sleep_need_baseline_minutes := _sentinel v_sleep_need_baseline_minutes;
    DailySleep.sleep_need_actual_minutes := _sentinel v_sleep_need_actual_minutes;
    DailySleep.body_battery_change := _sentinel v_body_battery_change;
    DailySleep.resting_heart_rate := _sentinel v_resting_heart_rate;
    DailySleep.avg_overnight_hrv := _sentinel v_avg_overnight_hrv
  |}).

(** The three baseline fields of [parse_daily_hrv]:
    [_sentinel(baseline.get(key)) if isinstance(baseline, dict) else None] *)
Definition baseline_field (baseline : pyval) (key : string) : result pyval :=
  if is_dict baseline
  then v <- py_get baseline key ;; Ok (_sentinel v)
  else Ok PNone.

(** [parse_daily_hrv(hrv_data)] *)
Definition parse_daily_hrv (hrv_data : pyval) : result (option DailyHrv.t) :=
  r_summary <- py_get hrv_data "hrvSummary" ;;
  let summary := py_or r_summary (PDict []) in
  if negb (truthy summary) then Ok None else
  cal_date_str <- py_get summary "calendarDate" ;;
  if negb (truthy cal_date_str) then Ok None else
  cal_date <- py_fromisoformat cal_date_str ;;
  r_baseline <- py_get summary "baseline" ;;
  let baseline := py_or r_baseline (PDict []) in
  v_weekly_avg <- py_get summary "weeklyAvg" ;;
  v_last_night_avg <- py_get summary "lastNightAvg" ;;
  v_last_night_5min_high <- py_get summary "lastNight5MinHigh" ;;
  v_baseline_low_upper <- baseline_field baseline "lowUpper" ;;
  v_baseline_balanced_low <- baseline_field baseline "balancedLow" ;;
  v_baseline_balanced_upper <- baseline_field baseline "balancedUpper" ;;
  v_status <- py_get summary "status" ;;
  Ok (Some {|
    DailyHrv.calendar_date := cal_date;
    DailyHrv.weekly_avg := _sentinel v_weekly_avg;
    DailyHrv.last_night_avg := _sentinel v_last_night_avg;
    DailyHrv.last_night_5min_high := _sentinel v_last_night_5min_high;
    DailyHrv.baseline_low_upper := v_baseline_low_upper;
    DailyHrv.baseline_balanced_low := v_baseline_balanced_low;
    DailyHrv.baseline_balanced_upper := v_baseline_balanced_upper;
    DailyHrv.status := v_status
  |}).

(** The closure [_parse_dt(s)] of [parse_activities] *)
Definition _parse_dt (s : pyval) : result (option datetime) :=
  if negb (truthy s) then Ok None else
  match py_strptime s "%Y-%m-%d %H:%M:%S" with
  | Ok d => Ok (Some d)
  | Raise ValueError => Ok None
  | Raise e => Raise e
  end.

(** One [ActivitySplitSummary(...)] of the inner loop: [id] and
    [activity_id] are not given, so they are [None] on the new object. *)
Definition parse_split (sp : pyval) : result ActivitySplitSummary.t :=
  v_split_type <- py_get sp "splitType" ;;
  v_no_of_splits <- py_get sp "noOfSplits" ;;
  v_duration_seconds <- py_get sp "duration" ;;
  v_distance_meters <- py_get sp "distance" ;;
  v_average_speed <- py_get sp "averageSpeed" ;;
  v_max_speed <- py_get sp "maxSpeed" ;;
  v_total_ascent <- py_get sp "totalAscent" ;;
  v_elevation_loss <- py_get sp "elevationLoss" ;;
  Ok {|
    ActivitySplitSummary.id := None;
    ActivitySplitSummary.activity_id := PNone;
    ActivitySplitSummary.split_type := v_split_type;
    ActivitySplitSummary.no_of_splits := _sentinel v_no_of_splits;
    ActivitySplitSummary.duration_seconds := _sentinel v_duration_seconds;
    ActivitySplitSummary.distance_meters := _sentinel v_distance_meters;
    ActivitySplitSummary.average_speed := _sentinel v_average_speed;
    ActivitySplitSummary.max_speed := _sentinel v_max_speed;
    ActivitySplitSummary.total_ascent := _sentinel v_total_ascent;
    ActivitySplitSummary.elevation_loss := _sentinel v_elevation_loss
  |}.

(** The body of the loop of [parse_activities] for one entry [a]. *)
Definition parse_activity (target_date : string) (a : pyval)
  : result Activity.t :=
  r_act_type <- py_get a "activityType" ;;
  let act_type := py_or r_act_type (PDict []) in
  v_activity_id <- py_getitem a "activityId" ;;
  cal_date <- py_fromisoformat (PStr target_date) ;;
  v_activity_name <- py_get a "activityName" ;;
  v_activity_type_key <- py_get act_type "typeKey" ;;
  v_activity_type_id <- py_get act_type "typeId" ;;
  r_start_time_local <- py_get a "startTimeLocal" ;;
  v_start_time_local <- _parse_dt r_start_time_local ;;
  r_start_time_gmt <- py_get a "startTimeGMT" ;;
  v_start_time_gmt <- _parse_dt r_start_time_gmt ;;
  v_distance_meters <- py_get a "distance" ;;
  v_duration_seconds <- py_get a "duration" ;;
  v_elapsed_duration_seconds <- py_get a "elapsedDuration" ;;
  v_moving_duration_seconds <- py_get a "movingDuration" ;;
  v_elevation_gain <- py_get a "elevationGain" ;;
  v_elevation_loss <- py_get a "elevationLoss" ;;
  v_average_speed <- py_get a "averageSpeed" ;;
  v_max_speed <- py_get a "maxSpeed" ;;
  v_start_latitude <- py_get a "startLatitude" ;;
  v_start_longitude <- py_get a "startLongitude" ;;
  v_calories <- py_get a "calories" ;;
  v_bmr_calories <- py_get a "bmrCalories" ;;
  v_average_hr <- py_get a "averageHR" ;;
  v_max_hr <- py_get a "maxHR" ;;
  v_average_cadence <- py_get a "averageRunningCadenceInStepsPerMinute" ;;
  v_max_cadence <- py_get a "maxRunningCadenceInStepsPerMinute" ;;
  v_steps <- py_get a "steps" ;;
  v_avg_power <- py_get a "avgPower" ;;
  v_max_power <- py_get a "maxPower" ;;
  v_norm_power <- py_get a "normPower" ;;
  v_aerobic_training_effect <- py_get a "aerobicTrainingEffect" ;;
  v_anaerobic_training_effect <- py_get a "anaerobicTrainingEffect" ;;
  v_vo2_max <- py_get a "vO2MaxValue" ;;
  v_avg_vertical_oscillation <- py_get a "avgVerticalOscillation" ;;
  v_avg_ground_contact_time <- py_get a "avgGroundContactTime" ;;
  v_avg_stride_length <- py_get a "avgStrideLength" ;;
  v_avg_vertical_ratio <- py_get a "avgVerticalRatio" ;;
  v_min_temperature <- py_get a "minTemperature" ;;
  v_max_temperature <- py_get a "maxTemperature" ;;
  v_training_effect_label <- py_get a "trainingEffectLabel" ;;
  v_activity_training_load <- py_get a "activityTrainingLoad" ;;
  v_fastest_split_1000 <- py_get a "fastestSplit_1000" ;;
  v_fastest_split_1609 <- py_get a "fastestSplit_1609" ;;
  v_fastest_split_5000 <- py_get a "fastestSplit_5000" ;;
  v_fastest_split_10000 <- py_get a "fastestSplit_10000" ;;
  v_hr_time_in_zone_1 <- py_get a "hrTimeInZone_1" ;;
  v_hr_time_in_zone_2 <- py_get a "hrTimeInZone_2" ;;
  v_hr_time_in_zone_3 <- py_get a "hrTimeInZone_3" ;;
  v_hr_time_in_zone_4 <- py_get a "hrTimeInZone_4" ;;
  v_hr_time_in_zone_5 <- py_get a "hrTimeInZone_5" ;;
  v_difference_body_battery <- py_get a "differenceBodyBattery" ;;
  let activity := {|
    Activity.activity_id := v_activity_id;
    Activity.calendar_date := cal_date;
    Activity.activity_name := v_activity_name;
    Activity.activity_type_key := v_activity_type_key;
    Activity.activity_type_id := v_activity_type_id;
    Activity.start_time_local := v_start_time_local;
    Activity.start_time_gmt := v_start_time_gmt;
    Activity.distance_meters := _sentinel v_distance_meters;
    Activity.duration_seconds := _sentinel v_duration_seconds;
    Activity.elapsed_duration_seconds := _sentinel v_elapsed_duration_seconds;
    Activity.moving_duration_seconds := _sentinel v_moving_duration_seconds;
    Activity.elevation_gain := _sentinel v_elevation_gain;
    Activity.elevation_loss := _sentinel v_elevation_loss;
    Activity.average_speed := _sentinel v_average_speed;
    Activity.max_speed := _sentinel v_max_speed;
    Activity.start_latitude := _sentinel v_start_latitude;
    Activity.start_longitude := _sentinel v_start_longitude;
    Activity.calories := _sentinel v_calories;
    Activity.bmr_calories := _sentinel v_bmr_calories;
    Activity.average_hr := _sentinel v_average_hr;
    Activity.max_hr := _sentinel v_max_hr;
    Activity.average_cadence := _sentinel v_average_cadence;
    Activity.max_cadence := _sentinel v_max_cadence;
    Activity.steps := _sentinel v_steps;
    Activity.avg_power := _sentinel v_avg_power;
    Activity.max_power := _sentinel v_max_power;
    Activity.norm_power := _sentinel v_norm_power;
    Activity.aerobic_training_effect := _sentinel v_aerobic_training_effect;
    Activity.anaerobic_training_effect := _sentinel v_anaerobic_training_effect;
    Activity.vo2_max := _sentinel v_vo2_max;
    Activity.avg_vertical_oscillation := _sentinel v_avg_vertical_oscillation;
    Activity.avg_ground_contact_time := _sentinel v_avg_ground_contact_time;
    Activity.avg_stride_length := _sentinel v_avg_stride_length;
    Activity.avg_vertical_ratio := _sentinel v_avg_vertical_ratio;
    Activity.min_temperature := _sentinel v_min_temperature;
    Activity.max_temperature := _sentinel v_max_temperature;
    Activity.training_effect_label := v_training_effect_label;
    Activity.activity_training_load := _sentinel v_activity_training_load;
    Activity.fastest_split_1000 := _sentinel v_fastest_split_1000;
    Activity.fastest_split_1609 := _sentinel v_fastest_split_1609;
    Activity.fastest_split_5000 := _sentinel v_fastest_split_5000;
    Activity.fastest_split_10000 := _sentinel v_fastest_split_10000;
    Activity.hr_time_in_zone_1 := _sentinel v_hr_time_in_zone_1;
    Activity.hr_time_in_zone_2 := _sentinel v_hr_time_in_zone_2;
    Activity.hr_time_in_zone_3 := _sentinel v_hr_time_in_zone_3;
    Activity.hr_time_in_zone_4 := _sentinel v_hr_time_in_zone_4;
    Activity.hr_time_in_zone_5 := _sentinel v_hr_time_in_zone_5;
    Activity.difference_body_battery := _sentinel v_difference_body_battery;
    Activity.split_summaries := []
  |} in
  r_splits <- py_get a "splitSummaries" ;;
  sps <- py_iter (py_or r_splits (PList [])) ;;
  split_summaries <- mapM parse_split sps ;;
  Ok (Activity.append_splits activity split_summaries).

(** [parse_activities(activities_by_date, target_date)] *)
Definition parse_activities (activities_by_date : list pyval)
  (target_date : string) : result (list Activity.t) :=
  mapM (parse_activity target_date) activities_by_date.

End Parsers.

(** ** The relational store and the SQLAlchemy session *)

(** One table per model class.  The daily tables and [activities] are
    keyed by their primary key; [activity_split_summaries] keeps its rows
    in insertion order, each with the surrogate [id] it was given. *)
Record store : Type := mkstore {
  tbl_daily_summary : gmap date DailySummary.t;
  tbl_daily_sleep : gmap date DailySleep.t;
  tbl_daily_hrv : gmap date DailyHrv.t;
  tbl_activities : gmap Z Activity.t;
  tbl_activity_split_summaries : list ActivitySplitSummary.t
}.

(** The database: the committed rows and the AUTO_INCREMENT counter of
    the split table, which a rollback does not restore. *)
Record database : Type := mkdatabase {
  db_rows : store;
  db_autoinc : Z
}.

(** A value of the [rows] dict of [main]. *)
Inductive daily_row : Type :=
| RowSummary (r : DailySummary.t)
| RowSleep (r : DailySleep.t)
| RowHrv (r : DailyHrv.t).

(** An entry of [split_dicts] in [main]. *)
Record split_dict : Type := mksplit_dict {
  sd_split_type : pyval;
  sd_no_of_splits : pyval;
  sd_duration_seconds : pyval;
  sd_distance_meters : pyval;
  sd_average_speed : pyval;
  sd_max_speed : pyval;
  sd_total_ascent : pyval;
  sd_elevation_loss : pyval
}.

(** An object of the session's unit of work that the next flush writes. *)
Inductive pending_obj : Type :=
| PendDaily (r : daily_row)
| PendActivity (key : Z) (a : Activity.t)
| PendSplit (sp : ActivitySplitSummary.t).

(** The calls [main] makes on the persistence layer, as they are made. *)
Inductive call : Type :=
| CallInitDb
| CallGetSession
| CallMerge (table_name : string)
| CallExecuteDelete (activity_id : pyval)
| CallFlush
| CallAdd (activity_id : pyval)
| CallCommit
| CallClose.

(** [committed] is what the database holds for everyone else, [txn] what
    the open transaction sees, [pending] the merged or added objects that
    no flush has written yet ([autoflush=False]).  [clock] counts the round
    trips to the server. *)
Record session : Type := mksession {
  committed : store;
  txn : store;
  autoinc : Z;
  pending : list pending_obj;
  clock : nat;
  calls : list call
}.

(** [ActivitySplitSummary.activity_id == z] as the server evaluates it on a
    row. *)
Definition split_of (z : Z) (r : ActivitySplitSummary.t) : bool :=
  match ActivitySplitSummary.activity_id r with
  | PInt n => n =? z
  | _ => false
  end.

Definition set_splits (st : store) (l : list ActivitySplitSummary.t) : store :=
  {| tbl_daily_summary := tbl_daily_summary st;
     tbl_daily_sleep := tbl_daily_sleep st;
     tbl_daily_hrv := tbl_daily_hrv st;
     tbl_activities := tbl_activities st;
     tbl_activity_split_summaries := l |}.

Definition with_id (sp : ActivitySplitSummary.t) (n : Z) : ActivitySplitSummary.t :=
  {| ActivitySplitSummary.id := Some n;
     ActivitySplitSummary.activity_id := ActivitySplitSummary.activity_id sp;
     ActivitySplitSummary.split_type := ActivitySplitSummary.split_type sp;
     ActivitySplitSummary.no_of_splits := ActivitySplitSummary.no_of_splits sp;
     ActivitySplitSummary.duration_seconds := ActivitySplitSummary.duration_seconds sp;
     ActivitySplitSummary.distance_meters := ActivitySplitSummary.distance_meters sp;
     ActivitySplitSummary.average_speed := ActivitySplitSummary.average_speed sp;
     ActivitySplitSummary.max_speed := ActivitySplitSummary.max_speed sp;
     ActivitySplitSummary.total_ascent := ActivitySplitSummary.total_ascent sp;
     ActivitySplitSummary.elevation_loss := ActivitySplitSummary.elevation_loss sp |}.

(** What writing one pending object does to the transaction: a merged
    object replaces the whole row with its primary key (or creates it), an
    added split is inserted under the next surrogate id. *)
Definition write_obj (acc : store * Z) (o : pending_obj) : store * Z :=
  let '(st, next) := acc in
  match o with
  | PendDaily (RowSummary r) =>
      ({| tbl_daily_summary := <[DailySummary.calendar_date r := r]> (tbl_daily_summary st);
          tbl_daily_sleep := tbl_daily_sleep st;
          tbl_daily_hrv := tbl_daily_hrv st;
          tbl_activities := tbl_activities st;
          tbl_activity_split_summaries := tbl_activity_split_summaries st |}, next)
  | PendDaily (RowSleep r) =>
      ({| tbl_daily_summary := tbl_daily_summary st;
          tbl_daily_sleep := <[DailySleep.calendar_date r := r]> (tbl_daily_sleep st);
          tbl_daily_hrv := tbl_daily_hrv st;
          tbl_activities := tbl_activities st;
          tbl_activity_split_summaries := tbl_activity_split_summaries st |}, next)
  | PendDaily (RowHrv r) =>
      ({| tbl_daily_summary := tbl_daily_summary st;
          tbl_daily_sleep := tbl_daily_sleep st;
          tbl_daily_hrv := <[DailyHrv.calendar_date r := r]> (tbl_daily_hrv st);
          tbl_activities := tbl_activities st;
          tbl_activity_split_summaries := tbl_activity_split_summaries st |}, next)
  | PendActivity key a =>
      ({| tbl_daily_summary := tbl_daily_summary st;
          tbl_daily_sleep := tbl_daily_sleep st;
          tbl_daily_hrv := tbl_daily_hrv st;
          tbl_activities := <[key := a]> (tbl_activities st);
          tbl_activity_split_summaries := tbl_activity_split_summaries st |}, next)
  | PendSplit sp =>
      (set_splits st (tbl_activity_split_summaries st ++ [with_id sp next]), next + 1)
  end.

(** The session monad: a call changes the session and returns or raises. *)
Definition SM (A : Type) : Type := session -> result A * session.

Definition sret {A} (a : A) : SM A := fun s => (Ok a, s).

Definition sbind {A B} (m : SM A) (k : A -> SM B) : SM B :=
  fun s =>
    match m s with
    | (Ok a, s') => k a s'
    | (Raise e, s') => (Raise e, s')
    end.

Definition sraise {A} (e : pyexc) : SM A := fun s => (Raise e, s).

Declare Scope sm_scope.
Delimit Scope sm_scope with sm.
Notation "x <- m ;; k" := (sbind m (fun x => k))
  (at level 100, m at next level, right associativity) : sm_scope.
Notation "m ;;; k" := (sbind m (fun _ => k))
  (at level 100, right associativity) : sm_scope.

(** [for x in l: f(x)] *)
Fixpoint for_each {A} (f : A -> SM unit) (l : list A) : SM unit :=
  match l with
  | [] => sret tt
  | x :: l' => (f x ;;; for_each f l')%sm
  end.

Definition record_call (c : call) : SM unit :=
  fun s => (Ok tt, {| committed := committed s; txn := txn s; autoinc := autoinc s;
                      pending := pending s; clock := clock s;
                      calls := calls s ++ [c] |}).

Definition enqueue (o : pending_obj) : SM unit :=
  fun s => (Ok tt, {| committed := committed s; txn := txn s; autoinc := autoinc s;
                      pending := pending s ++ [o]; clock := clock s;
                      calls := calls s |}).

(** The rows of [activity_split_summaries] with [activity_id = z] leave
    the transaction's view. *)
Definition delete_split_rows (z : Z) : SM unit :=
  fun s => (Ok tt,
            {| committed := committed s;
               txn := set_splits (txn s)
                        (List.filter (fun r => negb (split_of z r))
                           (tbl_activity_split_summaries (txn s)));
               autoinc := autoinc s; pending := pending s; clock := clock s;
               calls := calls s |}).

(** The pending objects are written in the order they entered the
    session. *)
Definition write_pending : SM unit :=
  fun s =>
    let w := fold_left write_obj (pending s) (txn s, autoinc s) in
    (Ok tt,
     {| committed := committed s; txn := fst w; autoinc := snd w;
        pending := []; clock := clock s; calls := calls s |}).

(** After COMMIT the transaction's rows are the database's rows. *)
Definition publish : SM unit :=
  fun s => (Ok tt,
            {| committed := txn s; txn := txn s; autoinc := autoinc s;
               pending := pending s; clock := clock s; calls := calls s |}).

Section Session.

(** [faults n] tells whether the [n]-th round trip to the server fails
    (connectivity loss, constraint violation, deadlock, ...). *)
Variable faults : nat -> bool.

Local Open Scope sm_scope.

(** One round trip: it raises when the fault schedule says so. *)
Definition round_trip : SM unit :=
  fun s =>
    let s' := {| committed := committed s; txn := txn s; autoinc := autoinc s;
                 pending := pending s; clock := S (clock s);
                 calls := calls s |} in
    if faults (clock s) then (Raise DBError, s') else (Ok tt, s').

(** [session.merge(obj)] for a daily row: the row with the primary key is
    read, the object's state is copied over it and written by the next
    flush. *)
Definition session_merge_daily (table_name : string) (obj : daily_row) : SM unit :=
  record_call (CallMerge table_name) ;;;
  round_trip ;;;
  enqueue (PendDaily obj).

(** [session.merge(act)].  The primary key column is a [BigInteger]: the
    identity of the object is its int key, and another value is refused. *)
Definition session_merge_activity (act : Activity.t) : SM unit :=
  record_call (CallMerge "activities") ;;;
  match Activity.activity_id act with
  | PInt key => round_trip ;;; enqueue (PendActivity key act)
  | _ => sraise DBError
  end.

(** [session.execute(delete(ActivitySplitSummary).where(
      ActivitySplitSummary.activity_id == activity_id))]: the statement
    runs at once, on the rows the transaction sees; pending objects are
    not rows yet. *)
Definition session_execute_delete (activity_id : pyval) : SM unit :=
  record_call (CallExecuteDelete activity_id) ;;;
  match activity_id with
  | PInt z => round_trip ;;; delete_split_rows z
  | _ => sraise DBError
  end.

(** The flush itself: one round trip that writes the pending objects. *)
Definition flush_pending : SM unit :=
  round_trip ;;; write_pending.

(** [session.flush()] *)
Definition session_flush : SM unit :=
  record_call CallFlush ;;; flush_pending.

(** [session.add(obj)]: no statement is sent. *)
Definition session_add (sp : ActivitySplitSummary.t) : SM unit :=
  record_call (CallAdd (ActivitySplitSummary.activity_id sp)) ;;;
  enqueue (PendSplit sp).

(** [session.commit()]: flush what is pending, then COMMIT. *)
Definition session_commit : SM unit :=
  record_call CallCommit ;;;
  flush_pending ;;;
  round_trip ;;;
  publish.

(** [session.close()]: an open transaction is rolled back and the pending
    objects are dropped.  It does not fail. *)
Definition session_close (s : session) : session :=
  {| committed := committed s; txn := committed s; autoinc := autoinc s;
     pending := []; clock := clock s; calls := calls s ++ [CallClose] |}.

(** [get_session()] of db.py on the database [db] *)
Definition get_session (db : database) : session :=
  {| committed := db_rows db; txn := db_rows db; autoinc := db_autoinc db;
     pending := []; clock := 0; calls := [CallGetSession] |}.

(** ** sync_to_db.py: the persist phase *)

(** The dict snapshot of one split (lines 122-134). *)
Definition snapshot (sp : ActivitySplitSummary.t) : split_dict :=
  {| sd_split_type := ActivitySplitSummary.split_type sp;
     sd_no_of_splits := ActivitySplitSummary.no_of_splits sp;
     sd_duration_seconds := ActivitySplitSummary.duration_seconds sp;
     sd_distance_meters := ActivitySplitSummary.distance_meters sp;
     sd_average_speed := ActivitySplitSummary.average_speed sp;
     sd_max_speed := ActivitySplitSummary.max_speed sp;
     sd_total_ascent := ActivitySplitSummary.total_ascent sp;
     sd_elevation_loss := ActivitySplitSummary.elevation_loss sp |}.

(** [ActivitySplitSummary(activity_id=activity_id, **d)] *)
Definition fresh_split (activity_id : pyval) (d : split_dict) : ActivitySplitSummary.t :=
  {| ActivitySplitSummary.id := None;
     ActivitySplitSummary.activity_id := activity_id;
     ActivitySplitSummary.split_type := sd_split_type d;
     ActivitySplitSummary.no_of_splits := sd_no_of_splits d;
     ActivitySplitSummary.duration_seconds := sd_duration_seconds d;
     ActivitySplitSummary.distance_meters := sd_distance_meters d;
     ActivitySplitSummary.average_speed := sd_average_speed d;
     ActivitySplitSummary.max_speed := sd_max_speed d;
     ActivitySplitSummary.total_ascent := sd_total_ascent d;
     ActivitySplitSummary.elevation_loss := sd_elevation_loss d |}.

(** The body of [for act in activities] (lines 119-149). *)
Definition persist_activity (act : Activity.t) : SM unit :=
  let activity_id := Activity.activity_id act in
  let split_dicts := map snapshot (Activity.split_summaries act) in
  let act := Activity.with_split_summaries act [] in
  session_execute_delete activity_id ;;;
  session_merge_activity act ;;;
  session_flush ;;;
  for_each (fun d => session_add (fresh_split activity_id d)) split_dicts.

(** The [try] block (lines 115-152). *)
Definition persist_body (rows : list (string * daily_row))
  (activities : list Activity.t) : SM unit :=
  for_each (fun kv => session_merge_daily (fst kv) (snd kv)) rows ;;;
  for_each persist_activity activities ;;;
  session_commit.

(** Lines 113-154: open the session, run the block, and close the session
    whether the block returned or raised.  The result is what the block
    returned, the database afterwards and the calls made. *)
Definition persist (db : database) (rows : list (string * daily_row))
  (activities : list Activity.t) : result unit * database * list call :=
  let '(r, s) := persist_body rows activities (get_session db) in
  let s' := session_close s in
  (r, {| db_rows := committed s'; db_autoinc := autoinc s' |}, calls s').

End Session.

(** ** sync_to_db.py: the orchestrator *)

(** The five calls [main] makes on the Garmin client.  Each returns the
    decoded JSON payload or raises. *)
Record garmin_api : Type := mkapi {
  get_stats_and_body : string -> result pyval;
  get_hydration_data : string -> result pyval;
  get_sleep_data : string -> result pyval;
  get_hrv_data : string -> result pyval;
  get_activities_by_date : string -> string -> result pyval
}.

(** [_fetch(label, api_call)]: the payload, or [None] when the call
    raised. *)
Definition _fetch (api_call : result pyval) : pyval :=
  match api_call with
  | Ok data => data
  | Raise _ => PNone
  end.

(** How a run of [main] ends: [sys.exit(1)], the early return after
    "Nothing to save.", the normal end with the tables it names, or an
    exception that leaves [main]. *)
Inductive outcome : Type :=
| Exit1
| NothingToSave
| Done (tables_updated : list string)
| Uncaught (e : pyexc).

Section Main.

Variable L : pylib.
Variable faults : nat -> bool.

Local Open Scope py_scope.

(** Lines 80-103: [rows] and [activities] from the fetched payloads. *)
Definition parse_phase (target_date : string)
  (stats_body hydration sleep_data hrv_data activities_data : pyval)
  : result (list (string * daily_row) * list Activity.t) :=
  let rows : list (string * daily_row) := [] in
  rows <- (if truthy stats_body
           then r <- parse_daily_summary L stats_body hydration ;;
                Ok (rows ++ [("daily_summary", RowSummary r)])%list
           else Ok rows) ;;
  rows <- (if truthy sleep_data
           then parsed_sleep <- parse_daily_sleep L sleep_data ;;
                match parsed_sleep with
                | Some r => Ok (rows ++ [("daily_sleep", RowSleep r)])%list
                | None => Ok rows
                end
           else Ok rows) ;;
  rows <- (if truthy hrv_data
           then parsed_hrv <- parse_daily_hrv L hrv_data ;;
                match parsed_hrv with
                | Some r => Ok (rows ++ [("daily_hrv", RowHrv r)])%list
                | None => Ok rows
                end
           else Ok rows) ;;
  activities <- (if truthy activities_data && is_list activities_data
                 then match activities_data with
                      | PList l => parse_activities L l target_date
                      | _ => Ok []
                      end
                 else Ok []) ;;
  Ok (rows, activities).

(** [not rows and not activities] *)
Definition nothing_parsed (rows : list (string * daily_row))
  (activities : list Activity.t) : bool :=
  match rows, activities with
  | [], [] => true
  | _, _ => false
  end.

(** Lines 80-161: parse what was fetched and persist it.  [init_db()]
    creates missing tables and touches no row. *)
Definition parse_and_persist (target_date : string)
  (stats_body hydration sleep_data hrv_data activities_data : pyval)
  (db : database) : outcome * database * list call :=
  match parse_phase target_date stats_body hydration sleep_data hrv_data
          activities_data with
  | Raise e => (Uncaught e, db, [])
  | Ok (rows, activities) =>
      if nothing_parsed rows activities then (NothingToSave, db, [])
      else
        let '(r, db', cs) := persist faults db rows activities in
        match r with
        | Raise e => (Uncaught e, db', CallInitDb :: cs)
        | Ok _ =>
            (Done (map fst rows ++
                   match activities with [] => [] | _ => ["activities"] end)%list,
             db', CallInitDb :: cs)
        end
  end.

(** Lines 71-161, for a validated [target_date] and a logged-in client:
    the five sources are fetched one after the other, each on its own. *)
Definition sync (target_date : string) (api : garmin_api) (db : database)
  : outcome * database * list call :=
  let stats_body := _fetch (get_stats_and_body api target_date) in
  let hydration := _fetch (get_hydration_data api target_date) in
  let sleep_data := _fetch (get_sleep_data api target_date) in
  let hrv_data := _fetch (get_hrv_data api target_date) in
  let activities_data := _fetch (get_activities_by_date api target_date target_date) in
  parse_and_persist target_date stats_body hydration sleep_data hrv_data
    activities_data db.

(** [main()].  [argv] is [sys.argv], [yesterday] the ISO form of
    [date.today() - timedelta(days=1)], [init_api] what [init_api()]
    returns. *)
Definition main (argv : list string) (yesterday : string)
  (init_api : option garmin_api) (db : database)
  : outcome * database * list call :=
  let target :=
    match argv with
    | _ :: target_date :: _ =>
        match lib_date_fromisoformat L target_date with
        | Some _ => Some target_date
        | None => None
        end
    | _ => Some yesterday
    end in
  match target with
  | None => (Exit1, db, [])
  | Some target_date =>
      match init_api with
      | None => (Exit1, db, [])
      | Some api => sync target_date api db
      end
  end.

End Main.

(** ** A sample environment *)

(** An instance of the library functions, enough to run the model: one
    date is recognised, the fixed pattern accepts one string, and
    [fromtimestamp] covers the first day of the epoch on a UTC machine. *)
Definition sample_lib : pylib :=
  {| lib_date_fromisoformat := fun s =>
       if String.eqb s "2024-03-01" then Some (mkdate 2024 3 1) else None;
     lib_strptime := fun s fmt =>
       if String.eqb s "2024-03-01 07:30:00" && String.eqb fmt "%Y-%m-%d %H:%M:%S"
       then Some (mkdatetime (mkdate 2024 3 1) 7 30 0 0) else None;
     lib_int_of_str := fun s => if String.eqb s "1000" then Some 1000 else None;
     lib_fromtimestamp_ms := fun n =>
       if (0 <=? n) && (n <? 86400000)
       then Ok (mkdatetime (mkdate 1970 1 1) (n / 3600000) (n / 60000 mod 60)
                  (n / 1000 mod 60) (n mod 1000 * 1000))
       else Raise OverflowError |}.

Definition no_faults : nat -> bool := fun _ => false.

Definition empty_store : store :=
  {| tbl_daily_summary := ∅; tbl_daily_sleep := ∅; tbl_daily_hrv := ∅;
     tbl_activities := ∅; tbl_activity_split_summaries := [] |}.

Definition empty_db : database := {| db_rows := empty_store; db_autoinc := 1 |}.

(** An activity of 2024-03-01 with the given identifier and splits, and a
    split that carries only its number of splits. *)
Definition sample_split (n : Z) : ActivitySplitSummary.t :=
  {| ActivitySplitSummary.id := None;
     ActivitySplitSummary.activity_id := PNone;
     ActivitySplitSummary.split_type := PStr "RWD_RUN";
     ActivitySplitSummary.no_of_splits := PInt n;
     ActivitySplitSummary.duration_seconds := PNone;
     ActivitySplitSummary.distance_meters := PNone;
     ActivitySplitSummary.average_speed := PNone;
     ActivitySplitSummary.max_speed := PNone;
     ActivitySplitSummary.total_ascent := PNone;
     ActivitySplitSummary.elevation_loss := PNone |}.

Definition sample_activity (activity_id : pyval)
  (splits : list ActivitySplitSummary.t) : Activity.t :=
  {| Activity.activity_id := activity_id;
     Activity.calendar_date := mkdate 2024 3 1;
     Activity.activity_name := PNone;
     Activity.activity_type_key := PNone;
     Activity.activity_type_id := PNone;
     Activity.start_time_local := None;
     Activity.start_time_gmt := None;
     Activity.distance_meters := PNone;
     Activity.duration_seconds := PNone;
     Activity.elapsed_duration_seconds := PNone;
     Activity.moving_duration_seconds := PNone;
     Activity.elevation_gain := PNone;
     Activity.elevation_loss := PNone;
     Activity.average_speed := PNone;
     Activity.max_speed := PNone;
     Activity.start_latitude := PNone;
     Activity.start_longitude := PNone;
     Activity.calories := PNone;
     Activity.bmr_calories := PNone;
     Activity.average_hr := PNone;
     Activity.max_hr := PNone;
     Activity.average_cadence := PNone;
     Activity.max_cadence := PNone;
     Activity.steps := PNone;
     Activity.avg_power := PNone;
     Activity.max_power := PNone;
     Activity.norm_power := PNone;
     Activity.aerobic_training_effect := PNone;
     Activity.anaerobic_training_effect := PNone;
     Activity.vo2_max := PNone;
     Activity.avg_vertical_oscillation := PNone;
     Activity.avg_ground_contact_time := PNone;
     Activity.avg_stride_length := PNone;
     Activity.avg_vertical_ratio := PNone;
     Activity.min_temperature := PNone;
     Activity.max_temperature := PNone;
     Activity.training_effect_label := PNone;
     Activity.activity_training_load := PNone;
     Activity.fastest_split_1000 := PNone;
     Activity.fastest_split_1609 := PNone;
     Activity.fastest_split_5000 := PNone;
     Activity.fastest_split_10000 := PNone;
     Activity.hr_time_in_zone_1 := PNone;
     Activity.hr_time_in_zone_2 := PNone;
     Activity.hr_time_in_zone_3 := PNone;
     Activity.hr_time_in_zone_4 := PNone;
     Activity.hr_time_in_zone_5 := PNone;
     Activity.difference_body_battery := PNone;
     Activity.split_summaries := splits |}.

(** A database where activity 7 has three split rows. *)
Definition db_three_splits : database :=
  snd (fst (persist no_faults empty_db []
              [sample_activity (PInt 7)
                 [sample_split 1; sample_split 2; sample_split 3]])).

(** One activity with one split, synced into the empty database, and
    synced again. *)
Definition resync_batch : list Activity.t :=
  [sample_activity (PInt 7) [sample_split 9]].

Definition db_synced_once : database :=
  snd (fst (persist no_faults empty_db [] resync_batch)).

Definition db_synced_twice : database :=
  snd (fst (persist no_faults db_synced_once [] resync_batch)).

(** ** Definitions used to state the properties *)

(** The rational a float stands for; infinities and NaN stand for none. *)
Definition float_value (f : spec_float) : option Q :=
  match f with
  | S754_zero _ => Some (inject_Z 0)
  | S754_finite s m e =>
      let sm := if s then Z.neg m else Z.pos m in
      Some (if 0 <=? e then inject_Z (sm * 2 ^ e)
            else Qmake sm (2 ^ Z.to_pos (- e)))
  | S754_infinity _ | S754_nan => None
  end.

(** The specification's sentinels: an int or a float whose value is -1 or
    -2. *)
Definition is_sentinel_number (v : pyval) : bool :=
  match v with
  | PInt n => (n =? -1) || (n =? -2)
  | PFloat f =>
      match float_value f with
      | Some q => Qeq_bool q (inject_Z (-1)) || Qeq_bool q (inject_Z (-2))
      | None => false
      end
  | _ => false
  end.

(** What the library documents for [datetime.fromtimestamp] on a float:
    [OverflowError] when the timestamp is out of the platform's range,
    [OSError] when [localtime] fails, [ValueError] for a year out of
    range. *)
Definition fromtimestamp_raises (L : pylib) : Prop :=
  forall n e, lib_fromtimestamp_ms L n = Raise e ->
    e = OSError \/ e = OverflowError \/ e = ValueError.

(** The datetime an epoch value stands for: none when the value is [None],
    when [int()] rejects it or when the timestamp is out of range. *)
Definition epoch_value (L : pylib) (v : pyval) : option datetime :=
  match v with
  | PNone => None
  | _ =>
      match py_int L v with
      | Ok n =>
          match lib_fromtimestamp_ms L n with
          | Ok d => Some d
          | Raise _ => None
          end
      | Raise _ => None
      end
  end.

(** [None], a bool, a number or a string: what is neither list nor
    mapping. *)
Definition is_scalar (v : pyval) : bool := negb (is_list v) && negb (is_dict v).

(** A nested object the parsers can read: falsy (then [or {}] replaces
    it) or a mapping. *)
Definition shape_ok (v : pyval) : bool := negb (truthy v) || is_dict v.

(** The items of [v or {}] for such an object. *)
Definition items (v : pyval) : list (string * pyval) :=
  match v with
  | PDict d => d
  | _ => []
  end.

(** The number of round trips the [try] block makes before it returns or
    raises. *)
Definition round_trips (faults : nat -> bool) (db : database)
  (rows : list (string * daily_row)) (activities : list Activity.t) : nat :=
  clock (snd (persist_body faults rows activities (get_session db))).

(** A client whose five calls all fail. *)
Definition offline_api : garmin_api :=
  {| get_stats_and_body := fun _ => Raise OSError;
     get_hydration_data := fun _ => Raise OSError;
     get_sleep_data := fun _ => Raise OSError;
     get_hrv_data := fun _ => Raise OSError;
     get_activities_by_date := fun _ _ => Raise OSError |}.

(** [m] runs under the fault schedule, [m0] is the same computation
    without faults.  [m] never touches the committed rows; while it
    returns, no fault was met and it did what [m0] does. *)
Definition tracks (faults : nat -> bool) {A} (m m0 : SM A) : Prop :=
  forall s,
    committed (snd (m s)) = committed s
    /\ (clock s <= clock (snd (m s)))%nat
    /\ match fst (m s) with
       | Ok _ =>
           m0 s = m s
           /\ forall n, (clock s <= n < clock (snd (m s)))%nat -> faults n = false
       | Raise _ => True
       end.

(** The [try] block up to and including the COMMIT round trip. *)
Definition until_commit (f : nat -> bool) (rows : list (string * daily_row))
  (activities : list Activity.t) : SM unit :=
  (for_each (fun kv => session_merge_daily f (fst kv) (snd kv)) rows ;;;
   for_each (persist_activity f) activities ;;;
   record_call CallCommit ;;;
   flush_pending f ;;;
   round_trip f)%sm.


(** The columns of a split row apart from its surrogate [id]. *)
Definition row_values (sp : ActivitySplitSummary.t) : pyval * split_dict :=
  (ActivitySplitSummary.activity_id sp, snapshot sp).

(** The row belongs to the activity with identifier [z]. *)
Definition has_key (z : Z) (v : pyval * split_dict) : bool :=
  match fst v with
  | PInt n => n =? z
  | _ => false
  end.

(** The splits among the pending objects. *)
Definition pending_splits (P : list pending_obj) : list ActivitySplitSummary.t :=
  flat_map (fun o => match o with PendSplit sp => [sp] | _ => [] end) P.

(** The calls of one turn of the activity loop: delete the children,
    upsert the parent, flush, add the fresh children. *)
Definition activity_calls (act : Activity.t) : list call :=
  CallExecuteDelete (Activity.activity_id act)
  :: CallMerge "activities"
  :: CallFlush
  :: map (fun _ => CallAdd (Activity.activity_id act))
       (Activity.split_summaries act).

(** The calls of a persist phase that returns. *)
Definition expected_calls (rows : list (string * daily_row))
  (activities : list Activity.t) : list call :=
  CallGetSession
  :: map (fun kv => CallMerge (fst kv)) rows
  ++ flat_map activity_calls activities
  ++ [CallCommit; CallClose].

(** The objects [main] adds for the splits of [act]. *)
Definition fresh_splits (act : Activity.t) : list pending_obj :=
  map (fun sp => PendSplit (fresh_split (Activity.activity_id act) (snapshot sp)))
    (Activity.split_summaries act).

(** The int identifier of an activity the store accepts. *)
Definition int_id (act : Activity.t) : Prop :=
  exists z, Activity.activity_id act = PInt z.

Definition act_key (act : Activity.t) : Z :=
  match Activity.activity_id act with
  | PInt z => z
  | _ => 0
  end.

(** The keyed tables of a store, and what writing a pending object does
    to them. *)
Definition tabs (st : store)
  : gmap date DailySummary.t * gmap date DailySleep.t
    * gmap date DailyHrv.t * gmap Z Activity.t :=
  (tbl_daily_summary st, tbl_daily_sleep st, tbl_daily_hrv st, tbl_activities st).

Definition write_tabs
  (t : gmap date DailySummary.t * gmap date DailySleep.t
       * gmap date DailyHrv.t * gmap Z Activity.t) (o : pending_obj) :=
  let '(t1, t2, t3, t4) := t in
  match o with
  | PendDaily (RowSummary r) => (<[DailySummary.calendar_date r := r]> t1, t2, t3, t4)
  | PendDaily (RowSleep r) => (t1, <[DailySleep.calendar_date r := r]> t2, t3, t4)
  | PendDaily (RowHrv r) => (t1, t2, <[DailyHrv.calendar_date r := r]> t3, t4)
  | PendActivity key a => (t1, t2, t3, <[key := a]> t4)
  | PendSplit _ => t
  end.

(** The objects a persist phase merges, in the order it merges them. *)
Definition merged_objects (rows : list (string * daily_row))
  (activities : list Activity.t) : list pending_obj :=
  map (fun kv => PendDaily (snd kv)) rows
  ++ map (fun a => PendActivity (act_key a) (Activity.with_split_summaries a []))
       activities.

(** One turn of the activity loop on the split rows, as values: the rows
    the transaction sees and the rows still pending. *)
Definition vstep (acc : list (pyval * split_dict) * list (pyval * split_dict))
  (act : Activity.t) : list (pyval * split_dict) * list (pyval * split_dict) :=
  (List.filter (fun v => negb (has_key (act_key act) v)) (fst acc) ++ snd acc,
   map (fun sp => (Activity.activity_id act, snapshot sp))
     (Activity.split_summaries act)).

(** The split rows, as values, after the loop over [activities] and the
    final flush. *)
Definition split_values_after (activities : list Activity.t)
  (before : list (pyval * split_dict)) : list (pyval * split_dict) :=
  let acc := fold_left vstep activities (before, []) in
  fst acc ++ snd acc.

(** The session after one turn of the activity loop that met no fault. *)
Definition after_activity (s : session) (act : Activity.t) : session :=
  let z := act_key act in
  let w := fold_left write_obj
             (pending s ++ [PendActivity z (Activity.with_split_summaries act [])])
             (set_splits (txn s)
                (List.filter (fun r => negb (split_of z r))
                   (tbl_activity_split_summaries (txn s))),
              autoinc s) in
  {| committed := committed s; txn := fst w; autoinc := snd w;
     pending := fresh_splits act;
     clock := S (S (S (clock s)));
     calls := calls s ++ activity_calls act |}.

(** The session after the merges of the daily rows, without faults. *)
Definition after_merges (s : session) (rows : list (string * daily_row)) : session :=
  {| committed := committed s; txn := txn s; autoinc := autoinc s;
     pending := pending s ++ map (fun kv => PendDaily (snd kv)) rows;
     clock := (clock s + length rows)%nat;
     calls := calls s ++ map (fun kv => CallMerge (fst kv)) rows |}.

(** The values left by [activities] out of [l]: those whose activity is
    none of them. *)
Definition strip (activities : list Activity.t)
  (l : list (pyval * split_dict)) : list (pyval * split_dict) :=
  List.filter
    (fun v => forallb (fun a => negb (has_key (act_key a) v)) activities) l.

(** The value belongs to one of [activities]. *)
Definition covered (activities : list Activity.t)
  (v : pyval * split_dict) : Prop :=
  existsb (fun a => has_key (act_key a) v) activities = true.

(** ** Definitions for the further properties *)

(** The fields of a [DailySummary] that the parser passes through [_sentinel]. *)
Definition summary_measurements (r : DailySummary.t) : list pyval :=
  [DailySummary.total_steps r;
   DailySummary.total_distance_meters r;
   DailySummary.daily_step_goal r;
   DailySummary.total_kilocalories r;
   DailySummary.active_kilocalories r;
   DailySummary.bmr_kilocalories r;
   DailySummary.highly_active_seconds r;
   DailySummary.active_seconds r;
   DailySummary.sedentary_seconds r;
   DailySummary.sleeping_seconds r;
   DailySummary.moderate_intensity_minutes r;
   DailySummary.vigorous_intensity_minutes r;
   DailySummary.floors_ascended r;
   DailySummary.floors_descended r;
   DailySummary.min_heart_rate r;
   DailySummary.max_heart_rate r;
   DailySummary.resting_heart_rate r;
   DailySummary.last_7d_avg_resting_hr r;
   DailySummary.average_stress_level r;
   DailySummary.max_stress_level r;
   DailySummary.stress_duration r;
   DailySummary.rest_stress_duration r;
   DailySummary.low_stress_duration r;
   DailySummary.medium_stress_duration r;
   DailySummary.high_stress_duration r;
   DailySummary.body_battery_charged r;
   DailySummary.body_battery_drained r;
   DailySummary.body_battery_highest r;
   DailySummary.body_battery_lowest r;
   DailySummary.body_battery_most_recent r;
   DailySummary.body_battery_at_wake r;
   DailySummary.body_battery_during_sleep r;
   DailySummary.average_spo2 r;
   DailySummary.lowest_spo2 r;
   DailySummary.avg_waking_respiration r;
   DailySummary.highest_respiration r;
   DailySummary.lowest_respiration r;
   DailySummary.weight r;
   DailySummary.bmi r;
   DailySummary.body_fat r;
   DailySummary.body_water r;
   DailySummary.bone_mass r;
   DailySummary.muscle_mass r;
   DailySummary.visceral_fat r;
   DailySummary.metabolic_age r;
   DailySummary.hydration_value_ml r;
   DailySummary.hydration_goal_ml r].

(** The fields of a [DailySleep] that the parser passes through [_sentinel]. *)
Definition sleep_measurements (r : DailySleep.t) : list pyval :=
  [DailySleep.sleep_time_seconds r;
   DailySleep.nap_time_seconds r;
   DailySleep.deep_sleep_seconds r;
   DailySleep.light_sleep_seconds r;
   DailySleep.rem_sleep_seconds r;
   DailySleep.awake_sleep_seconds r;
   DailySleep.awake_count r;
   DailySleep.avg_sleep_stress r;
   DailySleep.avg_heart_rate r;
   DailySleep.average_respiration r;
   DailySleep.lowest_respiration r;
   DailySleep.highest_respiration r;
   DailySleep.sleep_score_overall r;
   DailySleep.rem_percentage r;
   DailySleep.light_percentage r;
   DailySleep.deep_percentage r;
   DailySleep.sleep_need_baseline_minutes r;
   DailySleep.sleep_need_actual_minutes r;
   DailySleep.body_battery_change r;
   DailySleep.resting_heart_rate r;
   DailySleep.avg_overnight_hrv r].

(** The fields of a [DailyHrv] that the parser passes through [_sentinel]. *)
Definition hrv_measurements (r : DailyHrv.t) : list pyval :=
  [DailyHrv.weekly_avg r;
   DailyHrv.last_night_avg r;
   DailyHrv.last_night_5min_high r;
   DailyHrv.baseline_low_upper r;
   DailyHrv.baseline_balanced_low r;
   DailyHrv.baseline_balanced_upper r].

(** The fields of a [Activity] that the parser passes through [_sentinel]. *)
Definition activity_measurements (r : Activity.t) : list pyval :=
  [Activity.distance_meters r;
   Activity.duration_seconds r;
   Activity.elapsed_duration_seconds r;
   Activity.moving_duration_seconds r;
   Activity.elevation_gain r;
   Activity.elevation_loss r;
   Activity.average_speed r;
   Activity.max_speed r;
   Activity.start_latitude r;
   Activity.start_longitude r;
   Activity.calories r;
   Activity.bmr_calories r;
   Activity.average_hr r;
   Activity.max_hr r;
   Activity.average_cadence r;
   Activity.max_cadence r;
   Activity.steps r;
   Activity.avg_power r;
   Activity.max_power r;
   Activity.norm_power r;
   Activity.aerobic_training_effect r;
   Activity.anaerobic_training_effect r;
   Activity.vo2_max r;
   Activity.avg_vertical_oscillation r;
   Activity.avg_ground_contact_time r;
   Activity.avg_stride_length r;
   Activity.avg_vertical_ratio r;
   Activity.min_temperature r;
   Activity.max_temperature r;
   Activity.activity_training_load r;
   Activity.fastest_split_1000 r;
   Activity.fastest_split_1609 r;
   Activity.fastest_split_5000 r;
   Activity.fastest_split_10000 r;
   Activity.hr_time_in_zone_1 r;
   Activity.hr_time_in_zone_2 r;
   Activity.hr_time_in_zone_3 r;
   Activity.hr_time_in_zone_4 r;
   Activity.hr_time_in_zone_5 r;
   Activity.difference_body_battery r].

(** The fields of a [ActivitySplitSummary] that the parser passes through [_sentinel]. *)
Definition split_measurements (r : ActivitySplitSummary.t) : list pyval :=
  [ActivitySplitSummary.no_of_splits r;
   ActivitySplitSummary.duration_seconds r;
   ActivitySplitSummary.distance_meters r;
   ActivitySplitSummary.average_speed r;
   ActivitySplitSummary.max_speed r;
   ActivitySplitSummary.total_ascent r;
   ActivitySplitSummary.elevation_loss r].

(** A raw activity entry that [parse_activities] accepts: a mapping with
    an [activityId], whose type is a mapping or falsy, whose two start
    times are strings or falsy, and whose [splitSummaries] is falsy or a
    list of mappings. *)
Definition is_str (v : pyval) : bool :=
  match v with PStr _ => true | _ => false end.

Definition splits_ok (v : pyval) : bool :=
  negb (truthy v)
  || match v with
     | PList l => forallb is_dict l
     | _ => false
     end.

Definition entry_ok (e : pyval) : bool :=
  match e with
  | PDict d =>
      dict_has d "activityId"
      && shape_ok (dict_get d "activityType")
      && (negb (truthy (dict_get d "startTimeLocal"))
          || is_str (dict_get d "startTimeLocal"))
      && (negb (truthy (dict_get d "startTimeGMT"))
          || is_str (dict_get d "startTimeGMT"))
      && splits_ok (dict_get d "splitSummaries")
  | _ => false
  end.

(** The [rows] dict as [main] builds it from what the three daily parsers
    returned: one item per record, under the name of its table. *)
Definition daily_rows (summary : option DailySummary.t)
  (sleep : option DailySleep.t) (hrv : option DailyHrv.t)
  : list (string * daily_row) :=
  match summary with Some r => [("daily_summary", RowSummary r)] | None => [] end
  ++ match sleep with Some r => [("daily_sleep", RowSleep r)] | None => [] end
  ++ match hrv with Some r => [("daily_hrv", RowHrv r)] | None => [] end.

(** Two pending objects are written to the same row: same table, same
    primary key. *)
Definition same_slot (o1 o2 : pending_obj) : bool :=
  match o1, o2 with
  | PendDaily (RowSummary r1), PendDaily (RowSummary r2) =>
      bool_decide (DailySummary.calendar_date r1 = DailySummary.calendar_date r2)
  | PendDaily (RowSleep r1), PendDaily (RowSleep r2) =>
      bool_decide (DailySleep.calendar_date r1 = DailySleep.calendar_date r2)
  | PendDaily (RowHrv r1), PendDaily (RowHrv r2) =>
      bool_decide (DailyHrv.calendar_date r1 = DailyHrv.calendar_date r2)
  | PendActivity k1 _, PendActivity k2 _ => bool_decide (k1 = k2)
  | _, _ => false
  end.

(** The object is the row found under its primary key. *)
Definition stored_in
  (t : gmap date DailySummary.t * gmap date DailySleep.t
       * gmap date DailyHrv.t * gmap Z Activity.t) (o : pending_obj) : Prop :=
  match o with
  | PendDaily (RowSummary r) => t.1.1.1 !! DailySummary.calendar_date r = Some r
  | PendDaily (RowSleep r) => t.1.1.2 !! DailySleep.calendar_date r = Some r
  | PendDaily (RowHrv r) => t.1.2 !! DailyHrv.calendar_date r = Some r
  | PendActivity k a => t.2 !! k = Some a
  | PendSplit _ => True
  end.

(** The calendar date of a daily row. *)
Definition row_date (r : daily_row) : date :=
  match r with
  | RowSummary r => DailySummary.calendar_date r
  | RowSleep r => DailySleep.calendar_date r
  | RowHrv r => DailyHrv.calendar_date r
  end.

(** A session call made inside the [try] block: neither the opening nor
    the closing of the session. *)
Definition inner_call (c : call) : Prop :=
  c <> CallGetSession /\ c <> CallClose.

(** The computation only appends calls, all of them inner ones. *)
Definition grows {A} (m : SM A) : Prop :=
  forall s, exists l,
    calls (snd (m s)) = calls s ++ l /\ Forall inner_call l.

(** [m] goes as [m0] does, or raises having made some first part of the
    calls of [m0]. *)
Definition lags {A} (m m0 : SM A) : Prop :=
  forall s,
    m s = m0 s
    \/ ((exists e, fst (m s) = Raise e)
        /\ exists l, calls (snd (m0 s)) = calls (snd (m s)) ++ l).

(** ** db.py: the engine and the session factory of the process *)

Module Db.

(** The two module globals.  An engine is named by the number of the
    [create_engine] call that made it; [_SessionLocal] holds the engine
    its [sessionmaker] was bound to.  [engines_created] counts the calls
    of [create_engine]. *)
Record globals : Type := mkglobals {
  _engine : option nat;
  _SessionLocal : option nat;
  engines_created : nat
}.

(** The state after the module is imported (lines 17-18). *)
Definition initial : globals :=
  {| _engine := None; _SessionLocal := None; engines_created := 0 |}.

(** [get_engine()]: the engine, made on the first call. *)
Definition get_engine (g : globals) : nat * globals :=
  match _engine g with
  | Some e => (e, g)
  | None =>
      let e := engines_created g in
      (e, {| _engine := Some e; _SessionLocal := _SessionLocal g;
             engines_created := S (engines_created g) |})
  end.

(** [get_session()]: a new session of the factory, made on the first
    call; the result is the engine the session is bound to. *)
Definition get_session (g : globals) : nat * globals :=
  match _SessionLocal g with
  | Some e => (e, g)
  | None =>
      let '(e, g') := get_engine g in
      (e, {| _engine := _engine g'; _SessionLocal := Some e;
             engines_created := engines_created g' |})
  end.

(** [init_db()]: [create_all] on the engine; the result is that engine. *)
Definition init_db (g : globals) : nat * globals := get_engine g.

Inductive op : Type := GetEngine | GetSession | InitDb.

Definition run_op (o : op) : globals -> nat * globals :=
  match o with
  | GetEngine => get_engine
  | GetSession => get_session
  | InitDb => init_db
  end.

(** The calls [ops] one after the other: the engine each of them used,
    and the globals afterwards. *)
Fixpoint run (ops : list op) (g : globals) : list nat * globals :=
  match ops with
  | [] => ([], g)
  | o :: ops' =>
      let '(e, g') := run_op o g in
      let '(es, g'') := run ops' g' in
      (e :: es, g'')
  end.

(** The globals any sequence of calls can reach. *)
Definition reachable (g : globals) : Prop :=
  match _engine g with
  | None => _SessionLocal g = None /\ engines_created g = 0%nat
  | Some e =>
      e = 0%nat /\ engines_created g = 1%nat
      /\ (_SessionLocal g = None \/ _SessionLocal g = Some 0%nat)
  end.

End Db.

(** * Properties *)

(** ** The sentinel normaliser *)

Lemma float_eq_int_value (f : spec_float) (k : Z) :
  float_eq_int f k =
  match float_value f with
  | Some q => Qeq_bool q (inject_Z k)
  | None => false
  end.
Proof.
  destruct f as [s | s | | s m e]; simpl; try reflexivity.
  - unfold Qeq_bool; simpl. rewrite Z.mul_1_r. apply Z.eqb_sym.
  - destruct (0 <=? e) eqn:He; unfold Qeq_bool; simpl.
    + rewrite !Z.mul_1_r. reflexivity.
    + apply Z.leb_gt in He.
      rewrite Z.mul_1_r, Pos2Z.inj_pow, Z2Pos.id by lia. reflexivity.
Qed.

(** C3. [_sentinel] is a function of its argument alone (the keyword
    [allow_zero] changes nothing): a number equal to -1 or -2, int or
    float, becomes [None]; every other value is returned as it is.  So 0
    and 0.0 stay, and the string "-1" stays. *)
Theorem sentinel_normalizer_spec (allow_zero : bool) (v : pyval) :
  _sentinel_kw allow_zero v = (if is_sentinel_number v then PNone else v)
  /\ _sentinel_kw allow_zero v = _sentinel v
  /\ _sentinel (PInt 0) = PInt 0
  /\ _sentinel (PFloat (S754_zero false)) = PFloat (S754_zero false)
  /\ _sentinel (PStr "-1") = PStr "-1".
Proof.
  repeat split; try reflexivity.
  destruct v as [ | b | n | f | s | l | d ]; try reflexivity.
  - destruct b; reflexivity.
  - unfold _sentinel_kw, is_sentinel_number; simpl.
    rewrite !float_eq_int_value.
    destruct (float_value f); reflexivity.
Qed.

(** ** Timestamps *)

Lemma epoch_ms_scalar (L : pylib) (v : pyval) :
  fromtimestamp_raises L -> is_scalar v = true ->
  _epoch_ms_to_datetime L v = Ok (epoch_value L v).
Proof.
  intros Hlib Hv.
  destruct v as [ | b | n | f | s | l | d ]; try discriminate Hv;
    try reflexivity; unfold _epoch_ms_to_datetime, epoch_value; simpl.
  - destruct (lib_fromtimestamp_ms L (Z.b2z b)) as [dt | e] eqn:E; [reflexivity |].
    destruct (Hlib _ _ E) as [-> | [-> | ->]]; reflexivity.
  - destruct (lib_fromtimestamp_ms L n) as [dt | e] eqn:E; [reflexivity |].
    destruct (Hlib _ _ E) as [-> | [-> | ->]]; reflexivity.
  - destruct (float_trunc f) as [n | e] eqn:Ef; simpl.
    + destruct (lib_fromtimestamp_ms L n) as [dt | e] eqn:E; [reflexivity |].
      destruct (Hlib _ _ E) as [-> | [-> | ->]]; reflexivity.
    + destruct f; simpl in Ef; inversion Ef; reflexivity.
  - destruct (lib_int_of_str L s) as [n |]; simpl; [| reflexivity].
    destruct (lib_fromtimestamp_ms L n) as [dt | e] eqn:E; [reflexivity |].
    destruct (Hlib _ _ E) as [-> | [-> | ->]]; reflexivity.
Qed.

Lemma sample_lib_fromtimestamp : fromtimestamp_raises sample_lib.
Proof.
  intros n e. simpl.
  destruct ((0 <=? n) && (n <? 86400000))%bool; intros H; inversion H; auto.
Qed.




(** ** Mandatory sub-objects and dates *)

(** C8. A sleep payload whose [dailySleepDTO] is missing, null or empty,
    or whose DTO has no [calendarDate], gives no record and no error; the
    HRV parser does the same with [hrvSummary]. *)
Theorem missing_summary_or_date_yields_no_record (L : pylib)
  (payload : list (string * pyval)) :
  (truthy (dict_get payload "dailySleepDTO") = false ->
     parse_daily_sleep L (PDict payload) = Ok None)
  /\ (forall dto, dict_get payload "dailySleepDTO" = PDict dto ->
        truthy (dict_get dto "calendarDate") = false ->
        parse_daily_sleep L (PDict payload) = Ok None)
  /\ (truthy (dict_get payload "hrvSummary") = false ->
        parse_daily_hrv L (PDict payload) = Ok None)
  /\ (forall summary, dict_get payload "hrvSummary" = PDict summary ->
        truthy (dict_get summary "calendarDate") = false ->
        parse_daily_hrv L (PDict payload) = Ok None).
Proof.
  split; [| split; [| split]].
  - intros H. unfold parse_daily_sleep; simpl.
    unfold py_or. rewrite H. reflexivity.
  - intros dto Hd Hc. unfold parse_daily_sleep; simpl.
    rewrite Hd. unfold py_or at 1 2.
    destruct dto as [| kv dto]; [reflexivity |].
    cbn [truthy negb py_get rbind]. rewrite Hc. reflexivity.
  - intros H. unfold parse_daily_hrv; simpl.
    unfold py_or. rewrite H. reflexivity.
  - intros sm Hd Hc. unfold parse_daily_hrv; simpl.
    rewrite Hd. unfold py_or at 1 2.
    destruct sm as [| kv sm]; [reflexivity |].
    cbn [truthy negb py_get rbind]. rewrite Hc. reflexivity.
Qed.

Lemma missing_summary_or_date_yields_no_record_witness :
  parse_daily_sleep sample_lib (PDict [("restingHeartRate", PInt 52)]) = Ok None
  /\ parse_daily_sleep sample_lib
       (PDict [("dailySleepDTO", PDict [("sleepTimeSeconds", PInt 27000)])]) = Ok None
  /\ parse_daily_hrv sample_lib (PDict [("hrvSummary", PDict [])]) = Ok None
  /\ parse_daily_hrv sample_lib
       (PDict [("hrvSummary", PDict [("calendarDate", PNone); ("weeklyAvg", PInt 41)])])
     = Ok None.
Proof.
  split; [| split; [| split]].
  - apply (missing_summary_or_date_yields_no_record sample_lib
             [("restingHeartRate", PInt 52)]). reflexivity.
  - apply (missing_summary_or_date_yields_no_record sample_lib
             [("dailySleepDTO", PDict [("sleepTimeSeconds", PInt 27000)])])
      with (dto := [("sleepTimeSeconds", PInt 27000)]); reflexivity.
  - apply (missing_summary_or_date_yields_no_record sample_lib
             [("hrvSummary", PDict [])]). reflexivity.
  - apply (missing_summary_or_date_yields_no_record sample_lib
             [("hrvSummary", PDict [("calendarDate", PNone); ("weeklyAvg", PInt 41)])])
      with (summary := [("calendarDate", PNone); ("weeklyAvg", PInt 41)]);
      reflexivity.
Defined.

(** ** Nested sub-objects *)

Lemma py_or_shape (v : pyval) :
  shape_ok v = true -> py_or v (PDict []) = PDict (items v).
Proof.
  unfold shape_ok, py_or. intros H.
  destruct (truthy v) eqn:Ht; simpl in H.
  - destruct v; try discriminate H. reflexivity.
  - destruct v as [ | | | | | | d ]; try reflexivity.
    destruct d; [reflexivity | discriminate Ht].
Qed.

Lemma items_falsy (v : pyval) : truthy v = false -> items v = [].
Proof.
  destruct v as [ | | | | | | d ]; try reflexivity.
  destruct d; [reflexivity | discriminate].
Qed.

Lemma baseline_field_absent (b : pyval) (key : string) :
  truthy b = false \/ is_dict b = false ->
  baseline_field (py_or b (PDict [])) key = Ok PNone.
Proof.
  intros H. unfold baseline_field, py_or.
  destruct (truthy b) eqn:Ht.
  - destruct H as [H | H]; [discriminate |]. rewrite H. reflexivity.
  - reflexivity.
Qed.

Lemma dict_with_key_truthy (d : list (string * pyval)) (k s : string) :
  dict_get d k = PStr s -> truthy (PDict d) = true.
Proof. destruct d; [discriminate | reflexivity]. Qed.

(** C7, as the code has it.  In a sleep payload whose sub-objects are
    mappings or falsy, every field derived from a falsy one (null,
    missing, empty) is [None] and the parser returns the record.  In an
    HRV payload the same holds for a baseline that is falsy or not a
    mapping at all. *)
Theorem absent_subobjects_resolve_to_absent (L : pylib)
  (Hlib : fromtimestamp_raises L) :
  (forall payload dto s day,
     dict_get payload "dailySleepDTO" = PDict dto ->
     dict_get dto "calendarDate" = PStr s -> s <> "" ->
     lib_date_fromisoformat L s = Some day ->
     is_scalar (dict_get dto "sleepStartTimestampGMT") = true ->
     is_scalar (dict_get dto "sleepEndTimestampGMT") = true ->
     let scores := dict_get dto "sleepScores" in
     let overall := dict_get (items scores) "overall" in
     let rem_pct := dict_get (items scores) "remPercentage" in
     let light_pct := dict_get (items scores) "lightPercentage" in
     let deep_pct := dict_get (items scores) "deepPercentage" in
     let sleep_need := dict_get dto "sleepNeed" in
     shape_ok scores = true -> shape_ok overall = true ->
     shape_ok rem_pct = true -> shape_ok light_pct = true ->
     shape_ok deep_pct = true -> shape_ok sleep_need = true ->
     exists r,
       parse_daily_sleep L (PDict payload) = Ok (Some r)
       /\ (truthy scores = false ->
             DailySleep.sleep_score_overall r = PNone
             /\ DailySleep.sleep_score_qualifier r = PNone
             /\ DailySleep.rem_percentage r = PNone
             /\ DailySleep.light_percentage r = PNone
             /\ DailySleep.deep_percentage r = PNone)
       /\ (truthy overall = false ->
             DailySleep.sleep_score_overall r = PNone
             /\ DailySleep.sleep_score_qualifier r = PNone)
       /\ (truthy rem_pct = false -> DailySleep.rem_percentage r = PNone)
       /\ (truthy light_pct = false -> DailySleep.light_percentage r = PNone)
       /\ (truthy deep_pct = false -> DailySleep.deep_percentage r = PNone)
       /\ (truthy sleep_need = false ->
             DailySleep.sleep_need_baseline_minutes r = PNone
             /\ DailySleep.sleep_need_actual_minutes r = PNone))
  /\ (forall payload summary s day,
        dict_get payload "hrvSummary" = PDict summary ->
        dict_get summary "calendarDate" = PStr s -> s <> "" ->
        lib_date_fromisoformat L s = Some day ->
        let baseline := dict_get summary "baseline" in
        truthy baseline = false \/ is_dict baseline = false ->
        exists r,
          parse_daily_hrv L (PDict payload) = Ok (Some r)
          /\ DailyHrv.baseline_low_upper r = PNone
          /\ DailyHrv.baseline_balanced_low r = PNone
          /\ DailyHrv.baseline_balanced_upper r = PNone).
Proof.
  split.
  - intros payload dto s day Hdto Hdate Hs Hiso Hstart Hend
      scores overall rem_pct light_pct deep_pct sleep_need
      Hsc Hov Hrem Hlight Hdeep Hneed.
    assert (Hts : truthy (PStr s) = true).
    { simpl. destruct (String.eqb_spec s ""); [contradiction | reflexivity]. }
    assert (Hor : py_or (PDict dto) (PDict []) = PDict dto).
    { unfold py_or. rewrite (dict_with_key_truthy _ _ _ Hdate). reflexivity. }
    unfold parse_daily_sleep.
    cbn [py_get rbind]. rewrite Hdto, Hor.
    rewrite (dict_with_key_truthy _ _ _ Hdate).
    cbn [negb py_get rbind]. rewrite Hdate, Hts.
    cbn [negb py_fromisoformat rbind]. rewrite Hiso.
    cbn [py_get rbind].
    fold scores. rewrite (py_or_shape scores Hsc).
    cbn [py_get rbind].
    fold overall rem_pct light_pct deep_pct sleep_need.
    rewrite (py_or_shape overall Hov), (py_or_shape rem_pct Hrem),
      (py_or_shape light_pct Hlight), (py_or_shape deep_pct Hdeep),
      (py_or_shape sleep_need Hneed).
    rewrite (epoch_ms_scalar L _ Hlib Hstart), (epoch_ms_scalar L _ Hlib Hend).
    cbn [py_get rbind].
    eexists; split; [reflexivity |].
    cbn [DailySleep.sleep_score_overall DailySleep.sleep_score_qualifier
         DailySleep.rem_percentage DailySleep.light_percentage
         DailySleep.deep_percentage DailySleep.sleep_need_baseline_minutes
         DailySleep.sleep_need_actual_minutes].
    repeat split.
    all: intros.
    all: match goal with
         | H : truthy ?x = false |- _ =>
             first [ rewrite (items_falsy x H); reflexivity
                   | unfold overall, rem_pct, light_pct, deep_pct;
                     rewrite (items_falsy x H); reflexivity ]
         end.
  - intros payload sm s day Hsm Hdate Hs Hiso baseline Hb.
    assert (Hts : truthy (PStr s) = true).
    { simpl. destruct (String.eqb_spec s ""); [contradiction | reflexivity]. }
    assert (Hor : py_or (PDict sm) (PDict []) = PDict sm).
    { unfold py_or. rewrite (dict_with_key_truthy _ _ _ Hdate). reflexivity. }
    unfold parse_daily_hrv.
    cbn [py_get rbind]. rewrite Hsm, Hor.
    rewrite (dict_with_key_truthy _ _ _ Hdate).
    cbn [negb py_get rbind]. rewrite Hdate, Hts.
    cbn [negb py_fromisoformat rbind]. rewrite Hiso.
    cbn [py_get rbind].
    fold baseline.
    rewrite !(baseline_field_absent baseline _ Hb).
    cbn [rbind].
    eexists; split; [reflexivity |]. repeat split.
Qed.

Lemma absent_subobjects_resolve_to_absent_witness :
  (exists r,
     parse_daily_sleep sample_lib
       (PDict [("dailySleepDTO",
                PDict [("calendarDate", PStr "2024-03-01");
                       ("sleepScores", PDict [("overall", PNone)]);
                       ("sleepNeed", PNone)])]) = Ok (Some r)
     /\ DailySleep.sleep_score_overall r = PNone
     /\ DailySleep.sleep_need_actual_minutes r = PNone)
  /\ (exists r,
        parse_daily_hrv sample_lib
          (PDict [("hrvSummary",
                   PDict [("calendarDate", PStr "2024-03-01");
                          ("baseline", PStr "n/a")])]) = Ok (Some r)
        /\ DailyHrv.baseline_low_upper r = PNone).
Proof.
  destruct (absent_subobjects_resolve_to_absent sample_lib
              sample_lib_fromtimestamp) as [Hsleep Hhrv].
  split.
  - destruct (Hsleep
        [("dailySleepDTO",
          PDict [("calendarDate", PStr "2024-03-01");
                 ("sleepScores", PDict [("overall", PNone)]);
                 ("sleepNeed", PNone)])]
        [("calendarDate", PStr "2024-03-01");
         ("sleepScores", PDict [("overall", PNone)]);
         ("sleepNeed", PNone)]
        "2024-03-01" (mkdate 2024 3 1))
      as (r & Hr & _ & Hov & _ & _ & _ & Hneed);
      try reflexivity; try discriminate.
    exists r. split; [exact Hr |]. split.
    + apply Hov. reflexivity.
    + apply Hneed. reflexivity.
  - destruct (Hhrv
        [("hrvSummary",
          PDict [("calendarDate", PStr "2024-03-01"); ("baseline", PStr "n/a")])]
        [("calendarDate", PStr "2024-03-01"); ("baseline", PStr "n/a")]
        "2024-03-01" (mkdate 2024 3 1))
      as (r & Hr & Hlow & _); try reflexivity; try discriminate.
    + right. reflexivity.
    + exists r. split; assumption.
Defined.

(** C7 as stated fails for the sleep parser: a scoring sub-object that is
    present but not a mapping makes it raise, where the HRV parser guards
    its baseline with [isinstance]. *)
Lemma sleep_parser_raises_on_non_mapping_scores :
  parse_daily_sleep sample_lib
    (PDict [("dailySleepDTO",
             PDict [("calendarDate", PStr "2024-03-01");
                    ("sleepScores", PStr "n/a")])]) = Raise AttributeError
  /\ parse_daily_sleep sample_lib
       (PDict [("dailySleepDTO",
                PDict [("calendarDate", PStr "2024-03-01");
                       ("sleepNeed", PList [PInt 480])])]) = Raise AttributeError.
Proof. split; reflexivity. Qed.

(** ** The activity parser *)

Lemma mapM_app {A B} (f : A -> result B) (l1 l2 : list A) :
  mapM f (l1 ++ l2) =
  (xs <- mapM f l1 ;; ys <- mapM f l2 ;; Ok (xs ++ ys)%list)%py.
Proof.
  induction l1 as [| x l1 IH]; simpl.
  - destruct (mapM f l2); reflexivity.
  - destruct (f x) as [y | e]; simpl; [| reflexivity].
    rewrite IH. destruct (mapM f l1) as [xs | e]; simpl; [| reflexivity].
    destruct (mapM f l2); reflexivity.
Qed.

Lemma parse_activity_without_id (L : pylib) (target_date : string)
  (d : list (string * pyval)) :
  dict_has d "activityId" = false ->
  parse_activity L target_date (PDict d) = Raise (KeyError "activityId").
Proof.
  intros H. unfold parse_activity.
  cbn [py_get rbind py_getitem]. rewrite H. reflexivity.
Qed.

(** C4, as the code has it.  An entry without the [activityId] key makes
    [parse_activities] raise: no list is returned, whatever the other
    entries are, and when the entries before it parse, the exception is
    the [KeyError] of that entry. *)
Theorem missing_activity_id_aborts_the_list (L : pylib)
  (target_date : string) (before after : list pyval)
  (d : list (string * pyval)) :
  dict_has d "activityId" = false ->
  (exists e,
     parse_activities L (before ++ PDict d :: after) target_date = Raise e)
  /\ (forall parsed,
        parse_activities L before target_date = Ok parsed ->
        parse_activities L (before ++ PDict d :: after) target_date
        = Raise (KeyError "activityId")).
Proof.
  intros H. unfold parse_activities. rewrite mapM_app.
  cbn [mapM]. rewrite (parse_activity_without_id L target_date d H).
  split.
  - destruct (mapM (parse_activity L target_date) before) as [xs | e];
      simpl; eauto.
  - intros parsed Hp. rewrite Hp. reflexivity.
Qed.

Lemma missing_activity_id_aborts_the_list_witness :
  parse_activities sample_lib
    ([PDict [("activityId", PInt 7); ("activityName", PStr "Morning run")]]
     ++ PDict [("activityName", PStr "Evening walk")]
     :: [PDict [("activityId", PInt 9)]]) "2024-03-01"
  = Raise (KeyError "activityId").
Proof.
  eapply (missing_activity_id_aborts_the_list sample_lib "2024-03-01"
            [PDict [("activityId", PInt 7); ("activityName", PStr "Morning run")]]
            [PDict [("activityId", PInt 9)]]
            [("activityName", PStr "Evening walk")]).
  - reflexivity.
  - reflexivity.
Defined.

(** C4 as stated fails: the first and the last entry below parse on their
    own, yet with the entry without identifier between them the parser
    returns nothing. *)
Lemma entry_without_id_is_not_skipped :
  (exists a, parse_activities sample_lib
               [PDict [("activityId", PInt 7)]] "2024-03-01" = Ok [a])
  /\ (exists a, parse_activities sample_lib
                  [PDict [("activityId", PInt 9)]] "2024-03-01" = Ok [a])
  /\ parse_activities sample_lib
       [PDict [("activityId", PInt 7)];
        PDict [("activityName", PStr "Evening walk")];
        PDict [("activityId", PInt 9)]] "2024-03-01"
     = Raise (KeyError "activityId").
Proof.
  split; [| split].
  - eexists. reflexivity.
  - eexists. reflexivity.
  - reflexivity.
Qed.

(** ** The orchestrator *)

(** C9. When the parse phase yields no daily record and no activity, the
    run ends with "Nothing to save.": the database is the one it started
    with and no call reaches the persistence layer, neither [init_db] nor
    [get_session] nor any session method. *)
Theorem nothing_parsed_means_no_transaction (L : pylib)
  (faults : nat -> bool) (target_date : string) (api : garmin_api)
  (db : database) :
  parse_phase L target_date
    (_fetch (get_stats_and_body api target_date))
    (_fetch (get_hydration_data api target_date))
    (_fetch (get_sleep_data api target_date))
    (_fetch (get_hrv_data api target_date))
    (_fetch (get_activities_by_date api target_date target_date))
  = Ok ([], []) ->
  sync L faults target_date api db = (NothingToSave, db, [])
  /\ main L faults ["sync_to_db.py"] target_date (Some api) db
     = (NothingToSave, db, []).
Proof.
  intros H. unfold main, sync, parse_and_persist. rewrite H. split; reflexivity.
Qed.

Lemma nothing_parsed_means_no_transaction_witness :
  sync sample_lib no_faults "2024-03-01" offline_api empty_db
  = (NothingToSave, empty_db, []).
Proof.
  apply (nothing_parsed_means_no_transaction sample_lib no_faults
           "2024-03-01" offline_api empty_db).
  reflexivity.
Defined.

Lemma parse_daily_summary_hydration_falsy (L : pylib) (s v : pyval) :
  truthy v = false ->
  parse_daily_summary L s v = parse_daily_summary L s PNone.
Proof.
  intros H. unfold parse_daily_summary, py_or. rewrite H. reflexivity.
Qed.



(** ** The transaction *)

Lemma sbind_assoc {A B C} (m : SM A) (k : A -> SM B) (k' : B -> SM C) s :
  sbind (sbind m k) k' s = sbind m (fun a => sbind (k a) k') s.
Proof. unfold sbind. destruct (m s) as [[a | e] s1]; reflexivity. Qed.

Lemma sbind_ext {A B} (m : SM A) (k k' : A -> SM B) s :
  (forall a s1, k a s1 = k' a s1) -> sbind m k s = sbind m k' s.
Proof.
  intros H. unfold sbind. destruct (m s) as [[a | e] s1]; [apply H | reflexivity].
Qed.

Section Faults.

Variable faults : nat -> bool.

Lemma tracks_sret {A} (a : A) : tracks faults (sret a) (sret a).
Proof. intros s; simpl. repeat split; lia. Qed.

Lemma tracks_sraise {A} (e : pyexc) : tracks faults (@sraise A e) (sraise e).
Proof. intros s; simpl. repeat split; lia. Qed.

Lemma tracks_record_call c : tracks faults (record_call c) (record_call c).
Proof. intros s; simpl. repeat split; lia. Qed.

Lemma tracks_enqueue o : tracks faults (enqueue o) (enqueue o).
Proof. intros s; simpl. repeat split; lia. Qed.

Lemma tracks_delete_split_rows z :
  tracks faults (delete_split_rows z) (delete_split_rows z).
Proof. intros s; simpl. repeat split; lia. Qed.

Lemma tracks_write_pending : tracks faults write_pending write_pending.
Proof. intros s; simpl. repeat split; lia. Qed.

Lemma tracks_round_trip : tracks faults (round_trip faults) (round_trip no_faults).
Proof.
  intros s. unfold round_trip, no_faults.
  destruct (faults (clock s)) eqn:E; simpl; repeat split; try lia.
  intros n Hn. assert (n = clock s) as -> by lia. exact E.
Qed.

Lemma tracks_bind {A B} (m m0 : SM A) (k k0 : A -> SM B) :
  tracks faults m m0 -> (forall a, tracks faults (k a) (k0 a)) ->
  tracks faults (sbind m k) (sbind m0 k0).
Proof.
  intros Hm Hk s. unfold sbind.
  destruct (Hm s) as (Hc & Hl & Hok).
  destruct (m s) as [[a | e] s1] eqn:E; simpl in *.
  - destruct Hok as [H0 Hf]. rewrite H0.
    destruct (Hk a s1) as (Hc' & Hl' & Hok').
    destruct (k a s1) as [[b | e] s2] eqn:E'; simpl in *.
    + destruct Hok' as [H0' Hf']. rewrite H0'.
      repeat split; try congruence; try lia.
      intros n Hn. destruct (Nat.lt_ge_cases n (clock s1));
        [apply Hf | apply Hf']; lia.
    + repeat split; try congruence; lia.
  - repeat split; assumption.
Qed.

Lemma tracks_for_each {A} (f f0 : A -> SM unit) (l : list A) :
  (forall x, tracks faults (f x) (f0 x)) -> tracks faults (for_each f l) (for_each f0 l).
Proof.
  intros H. induction l as [| x l IH]; simpl.
  - apply tracks_sret.
  - apply tracks_bind; [apply H | intros _; exact IH].
Qed.

Create HintDb tracks.
#[local] Hint Resolve tracks_sret tracks_sraise tracks_record_call
  tracks_enqueue tracks_delete_split_rows tracks_write_pending
  tracks_round_trip : tracks.

Ltac tracks_step :=
  repeat first
    [ solve [ auto with tracks ]
    | apply tracks_for_each; intros ?; cbv beta
    | apply tracks_bind; [| intros ? ] ].

Lemma tracks_merge_daily name obj :
  tracks faults (session_merge_daily faults name obj)
         (session_merge_daily no_faults name obj).
Proof. unfold session_merge_daily. tracks_step. Qed.

Lemma tracks_merge_activity act :
  tracks faults (session_merge_activity faults act)
         (session_merge_activity no_faults act).
Proof.
  unfold session_merge_activity.
  destruct (Activity.activity_id act); tracks_step.
Qed.

Lemma tracks_execute_delete v :
  tracks faults (session_execute_delete faults v)
         (session_execute_delete no_faults v).
Proof. unfold session_execute_delete. destruct v; tracks_step. Qed.

Lemma tracks_flush_pending :
  tracks faults (flush_pending faults) (flush_pending no_faults).
Proof. unfold flush_pending. tracks_step. Qed.

Lemma tracks_add sp : tracks faults (session_add sp) (session_add sp).
Proof. unfold session_add. tracks_step. Qed.

#[local] Hint Resolve tracks_merge_daily tracks_merge_activity
  tracks_execute_delete tracks_flush_pending tracks_add : tracks.

Lemma tracks_persist_activity act :
  tracks faults (persist_activity faults act) (persist_activity no_faults act).
Proof. unfold persist_activity, session_flush. cbv zeta. tracks_step. Qed.

#[local] Hint Resolve tracks_persist_activity : tracks.

Lemma persist_body_until_commit (f : nat -> bool) rows activities s :
  persist_body f rows activities s
  = sbind (until_commit f rows activities) (fun _ => publish) s.
Proof.
  unfold persist_body, until_commit, session_commit.
  rewrite !sbind_assoc.
  apply sbind_ext; intros _ s1. rewrite !sbind_assoc.
  apply sbind_ext; intros _ s2. rewrite !sbind_assoc.
  apply sbind_ext; intros _ s3. rewrite !sbind_assoc.
  apply sbind_ext; intros _ s4. reflexivity.
Qed.

Lemma tracks_until_commit rows activities :
  tracks faults (until_commit faults rows activities)
         (until_commit no_faults rows activities).
Proof. unfold until_commit. tracks_step. Qed.

End Faults.

(** C2. The persist phase is one transaction.  When any of its operations
    raises, the rows of the database are those it started with.  When it
    returns, it has done exactly what the run without faults does, and no
    round trip of that run had failed on the way: a failure is never
    retried nor skipped. *)
Theorem persist_all_or_nothing (faults : nat -> bool) (db : database)
  (rows : list (string * daily_row)) (activities : list Activity.t) :
  match persist faults db rows activities with
  | (Raise _, db', _) => db_rows db' = db_rows db
  | (Ok _, db', cs) =>
      persist no_faults db rows activities = (Ok tt, db', cs)
      /\ forall n, (n < round_trips no_faults db rows activities)%nat ->
                   faults n = false
  end.
Proof.
  unfold persist, round_trips.
  rewrite !persist_body_until_commit. unfold sbind.
  destruct (tracks_until_commit faults rows activities (get_session db))
    as (Hc & Hl & Hok).
  destruct (until_commit faults rows activities (get_session db))
    as [[[] | e] s1]; simpl in *.
  - destruct Hok as [H0 Hf]. rewrite H0. simpl.
    split; [reflexivity |]. intros n Hn. apply Hf. lia.
  - exact Hc.
Qed.

(** A flush that fails after the DELETE of the same transaction ran: the
    three rows of activity 7 are still there. *)
Example persist_fault_rolls_back :
  let batch := [sample_activity (PInt 7) [sample_split 9]] in
  let run := persist (fun n => Nat.eqb n 2) db_three_splits [] batch in
  fst (fst run) = Raise DBError
  /\ db_rows (snd (fst run)) = db_rows db_three_splits
  /\ snd run = [CallGetSession; CallExecuteDelete (PInt 7);
                CallMerge "activities"; CallFlush; CallClose].
Proof. vm_compute. repeat split. Qed.

(** ** A persist phase that meets no fault *)

Lemma for_each_add_run (aid : pyval) (ds : list split_dict) (s : session) :
  for_each (fun d => session_add (fresh_split aid d)) ds s
  = (Ok tt,
     {| committed := committed s; txn := txn s; autoinc := autoinc s;
        pending := pending s ++ map (fun d => PendSplit (fresh_split aid d)) ds;
        clock := clock s;
        calls := calls s ++ map (fun _ => CallAdd aid) ds |}).
Proof.
  revert s. induction ds as [| d ds IH]; intros s.
  - simpl. rewrite !app_nil_r. destruct s; reflexivity.
  - cbn [for_each]. unfold sbind at 1.
    unfold session_add at 1, sbind, record_call, enqueue.
    rewrite IH. cbn. rewrite <- !app_assoc. reflexivity.
Qed.

Lemma execute_delete_run (z : Z) (s : session) :
  session_execute_delete no_faults (PInt z) s
  = (Ok tt,
     {| committed := committed s;
        txn := set_splits (txn s)
                 (List.filter (fun r => negb (split_of z r))
                    (tbl_activity_split_summaries (txn s)));
        autoinc := autoinc s; pending := pending s; clock := S (clock s);
        calls := calls s ++ [CallExecuteDelete (PInt z)] |}).
Proof. reflexivity. Qed.

Lemma merge_activity_run (act : Activity.t) (z : Z) (s : session) :
  Activity.activity_id act = PInt z ->
  session_merge_activity no_faults act s
  = (Ok tt,
     {| committed := committed s; txn := txn s; autoinc := autoinc s;
        pending := pending s ++ [PendActivity z act]; clock := S (clock s);
        calls := calls s ++ [CallMerge "activities"] |}).
Proof. intros H. unfold session_merge_activity. rewrite H. reflexivity. Qed.

Lemma flush_run (s : session) :
  session_flush no_faults s
  = (Ok tt,
     {| committed := committed s;
        txn := fst (fold_left write_obj (pending s) (txn s, autoinc s));
        autoinc := snd (fold_left write_obj (pending s) (txn s, autoinc s));
        pending := []; clock := S (clock s);
        calls := calls s ++ [CallFlush] |}).
Proof. reflexivity. Qed.

Lemma persist_activity_run (act : Activity.t) (s : session) :
  int_id act ->
  persist_activity no_faults act s = (Ok tt, after_activity s act).
Proof.
  intros [z Hz].
  unfold persist_activity, after_activity, fresh_splits, activity_calls, act_key.
  cbv zeta. rewrite Hz.
  unfold sbind at 1. rewrite execute_delete_run.
  unfold sbind at 1.
  rewrite (merge_activity_run (Activity.with_split_summaries act []) z);
    [| exact Hz].
  unfold sbind at 1. rewrite flush_run.
  rewrite for_each_add_run.
  cbn [committed txn autoinc pending clock calls app].
  rewrite !map_map, <- !app_assoc. reflexivity.
Qed.

Lemma persist_activity_bad_id (f : nat -> bool) (act : Activity.t)
  (s : session) :
  ~ int_id act -> fst (persist_activity f act s) = Raise DBError.
Proof.
  intros H. unfold persist_activity. cbv zeta.
  unfold sbind at 1. unfold session_execute_delete, sbind, record_call.
  destruct (Activity.activity_id act) as [ | | n | | | | ] eqn:E;
    try reflexivity.
  exfalso. apply H. exists n. exact E.
Qed.

Lemma int_id_dec (act : Activity.t) : int_id act \/ ~ int_id act.
Proof.
  unfold int_id. destruct (Activity.activity_id act);
    try (right; intros [z Hz]; discriminate).
  left. eexists. reflexivity.
Qed.

Lemma activities_loop_run (activities : list Activity.t) (s : session) :
  Forall int_id activities ->
  for_each (persist_activity no_faults) activities s
  = (Ok tt, fold_left after_activity activities s).
Proof.
  intros H. revert s. induction H as [| act l Hact _ IH]; intros s.
  - reflexivity.
  - cbn [for_each fold_left]. unfold sbind.
    rewrite (persist_activity_run act s Hact). apply IH.
Qed.

Lemma activities_loop_ok (f : nat -> bool) (activities : list Activity.t)
  (s s' : session) :
  for_each (persist_activity f) activities s = (Ok tt, s') ->
  Forall int_id activities.
Proof.
  revert s. induction activities as [| act l IH]; intros s H.
  - constructor.
  - cbn [for_each] in H. unfold sbind in H.
    destruct (persist_activity f act s) as [[[] | e] s1] eqn:E;
      [| discriminate].
    constructor; [| exact (IH s1 H)].
    destruct (int_id_dec act) as [Hi | Hn]; [exact Hi |].
    pose proof (persist_activity_bad_id f act s Hn) as Hb.
    rewrite E in Hb. discriminate.
Qed.

Lemma merges_run (rows : list (string * daily_row)) (s : session) :
  for_each (fun kv => session_merge_daily no_faults (fst kv) (snd kv)) rows s
  = (Ok tt, after_merges s rows).
Proof.
  revert s. induction rows as [| kv rows IH]; intros s.
  - unfold after_merges. simpl. rewrite !app_nil_r, Nat.add_0_r.
    destruct s; reflexivity.
  - cbn [for_each]. unfold sbind at 1.
    unfold session_merge_daily at 1, sbind, record_call, round_trip, enqueue,
      no_faults.
    rewrite IH. unfold after_merges. cbn.
    rewrite <- !app_assoc, Nat.add_succ_r. reflexivity.
Qed.

Lemma commit_run (s : session) :
  session_commit no_faults s
  = (Ok tt,
     {| committed := fst (fold_left write_obj (pending s) (txn s, autoinc s));
        txn := fst (fold_left write_obj (pending s) (txn s, autoinc s));
        autoinc := snd (fold_left write_obj (pending s) (txn s, autoinc s));
        pending := []; clock := S (S (clock s));
        calls := calls s ++ [CallCommit] |}).
Proof. reflexivity. Qed.

Lemma row_values_with_id (sp : ActivitySplitSummary.t) (n : Z) :
  row_values (with_id sp n) = row_values sp.
Proof. reflexivity. Qed.

Lemma row_values_fresh (aid : pyval) (d : split_dict) :
  row_values (fresh_split aid d) = (aid, d).
Proof. destruct d; reflexivity. Qed.

Lemma split_of_has_key (z : Z) (sp : ActivitySplitSummary.t) :
  split_of z sp = has_key z (row_values sp).
Proof. reflexivity. Qed.

Lemma filter_row_values (p : pyval * split_dict -> bool)
  (l : list ActivitySplitSummary.t) :
  map row_values (List.filter (fun r => p (row_values r)) l)
  = List.filter p (map row_values l).
Proof.
  induction l as [| r l IH]; simpl; [reflexivity |].
  destruct (p (row_values r)); simpl; rewrite IH; reflexivity.
Qed.

Lemma fold_write_values (P : list pending_obj) (st : store) (n : Z) :
  map row_values
    (tbl_activity_split_summaries (fst (fold_left write_obj P (st, n))))
  = map row_values (tbl_activity_split_summaries st)
    ++ map row_values (pending_splits P).
Proof.
  revert st n. induction P as [| o P IH]; intros st n.
  - simpl. rewrite app_nil_r. reflexivity.
  - cbn [fold_left].
    destruct o as [[r | r | r] | key a | sp]; cbn [write_obj];
      rewrite IH; cbn [tbl_activity_split_summaries set_splits pending_splits
                       flat_map app]; try reflexivity.
    rewrite map_app, <- app_assoc. reflexivity.
Qed.

Lemma fold_write_tabs (P : list pending_obj) (st : store) (n : Z) :
  tabs (fst (fold_left write_obj P (st, n))) = fold_left write_tabs P (tabs st).
Proof.
  revert st n. induction P as [| o P IH]; intros st n; [reflexivity |].
  cbn [fold_left].
  destruct o as [[r | r | r] | key a | sp]; cbn [write_obj]; rewrite IH;
    reflexivity.
Qed.

Lemma write_tabs_fresh_splits (act : Activity.t) t :
  fold_left write_tabs (fresh_splits act) t = t.
Proof.
  unfold fresh_splits.
  induction (Activity.split_summaries act) as [| sp l IH]; [reflexivity |].
  cbn [map fold_left]. destruct t as [[[t1 t2] t3] t4]. exact IH.
Qed.

Lemma pending_splits_fresh (act : Activity.t) :
  map row_values (pending_splits (fresh_splits act))
  = map (fun sp => (Activity.activity_id act, snapshot sp))
      (Activity.split_summaries act).
Proof.
  unfold fresh_splits.
  induction (Activity.split_summaries act) as [| sp l IH]; [reflexivity |].
  cbn [map pending_splits flat_map app]. rewrite row_values_fresh.
  f_equal. exact IH.
Qed.

(** The keyed tables as the next flush would leave them. *)
Lemma after_activity_tabs (s : session) (act : Activity.t) :
  fold_left write_tabs (pending (after_activity s act))
    (tabs (txn (after_activity s act)))
  = write_tabs (fold_left write_tabs (pending s) (tabs (txn s)))
      (PendActivity (act_key act) (Activity.with_split_summaries act [])).
Proof.
  unfold after_activity. cbn [pending txn].
  rewrite write_tabs_fresh_splits, fold_write_tabs, fold_left_app.
  reflexivity.
Qed.

Lemma after_activity_values (s : session) (act : Activity.t) :
  int_id act ->
  (map row_values (tbl_activity_split_summaries (txn (after_activity s act))),
   map row_values (pending_splits (pending (after_activity s act))))
  = vstep (map row_values (tbl_activity_split_summaries (txn s)),
           map row_values (pending_splits (pending s))) act.
Proof.
  intros _. unfold after_activity, vstep. cbn [pending txn fst snd].
  rewrite pending_splits_fresh, fold_write_values.
  cbn [set_splits tbl_activity_split_summaries].
  unfold pending_splits at 1. rewrite flat_map_app. cbn [flat_map].
  rewrite !app_nil_r. fold (pending_splits (pending s)).
  rewrite <- (filter_row_values (fun v => negb (has_key (act_key act) v))).
  reflexivity.
Qed.

Lemma loop_committed (activities : list Activity.t) (s : session) :
  committed (fold_left after_activity activities s) = committed s.
Proof.
  revert s. induction activities as [| a l IH]; intros s; [reflexivity |].
  cbn [fold_left]. rewrite IH. reflexivity.
Qed.

Lemma loop_calls (activities : list Activity.t) (s : session) :
  calls (fold_left after_activity activities s)
  = calls s ++ flat_map activity_calls activities.
Proof.
  revert s. induction activities as [| a l IH]; intros s.
  - simpl. rewrite app_nil_r. reflexivity.
  - cbn [fold_left flat_map]. rewrite IH. cbn [after_activity calls].
    rewrite <- app_assoc. reflexivity.
Qed.

Lemma loop_tabs (activities : list Activity.t) (s : session) :
  fold_left write_tabs (pending (fold_left after_activity activities s))
    (tabs (txn (fold_left after_activity activities s)))
  = fold_left write_tabs
      (map (fun a => PendActivity (act_key a) (Activity.with_split_summaries a []))
         activities)
      (fold_left write_tabs (pending s) (tabs (txn s))).
Proof.
  revert s. induction activities as [| a l IH]; intros s; [reflexivity |].
  cbn [fold_left map]. rewrite IH, after_activity_tabs. reflexivity.
Qed.

Lemma loop_values (activities : list Activity.t) (s : session) :
  Forall int_id activities ->
  (map row_values
     (tbl_activity_split_summaries (txn (fold_left after_activity activities s))),
   map row_values
     (pending_splits (pending (fold_left after_activity activities s))))
  = fold_left vstep activities
      (map row_values (tbl_activity_split_summaries (txn s)),
       map row_values (pending_splits (pending s))).
Proof.
  intros H. revert s. induction H as [| a l Ha _ IH]; intros s; [reflexivity |].
  cbn [fold_left]. rewrite IH, (after_activity_values s a Ha). reflexivity.
Qed.

Lemma persist_ok_no_faults (faults : nat -> bool) (db : database)
  (rows : list (string * daily_row)) (activities : list Activity.t)
  (db' : database) (cs : list call) :
  persist faults db rows activities = (Ok tt, db', cs) ->
  persist no_faults db rows activities = (Ok tt, db', cs).
Proof.
  unfold persist. rewrite !persist_body_until_commit. unfold sbind.
  destruct (tracks_until_commit faults rows activities (get_session db))
    as (_ & _ & Hok).
  destruct (until_commit faults rows activities (get_session db))
    as [[[] | e] s1]; simpl in *.
  - destruct Hok as [H0 _]. rewrite H0. simpl. intros H; exact H.
  - discriminate.
Qed.

Lemma persist_ok_int_ids (faults : nat -> bool) (db : database)
  (rows : list (string * daily_row)) (activities : list Activity.t)
  (db' : database) (cs : list call) :
  persist faults db rows activities = (Ok tt, db', cs) ->
  Forall int_id activities.
Proof.
  intros H. apply persist_ok_no_faults in H. revert H.
  unfold persist, persist_body. unfold sbind at 1. rewrite merges_run.
  unfold sbind at 1.
  destruct (for_each (persist_activity no_faults) activities
              (after_merges (get_session db) rows)) as [[[] | e] s2] eqn:E.
  - intros _. exact (activities_loop_ok _ _ _ _ E).
  - discriminate.
Qed.

Lemma persist_no_faults_run (db : database)
  (rows : list (string * daily_row)) (activities : list Activity.t) :
  Forall int_id activities ->
  let s2 := fold_left after_activity activities
              (after_merges (get_session db) rows) in
  let w := fold_left write_obj (pending s2) (txn s2, autoinc s2) in
  persist no_faults db rows activities
  = (Ok tt, {| db_rows := fst w; db_autoinc := snd w |},
     (calls s2 ++ [CallCommit]) ++ [CallClose]).
Proof.
  intros Hint s2 w. unfold persist, persist_body.
  unfold sbind at 1. rewrite merges_run.
  unfold sbind at 1. rewrite (activities_loop_run _ _ Hint).
  fold s2. rewrite commit_run. reflexivity.
Qed.

Lemma pending_splits_dailies (rows : list (string * daily_row)) :
  pending_splits (map (fun kv => PendDaily (snd kv)) rows) = [].
Proof. induction rows as [| kv rows IH]; [reflexivity | exact IH]. Qed.

(** What a persist phase that returned has left in the database. *)
Lemma persist_ok_inv (faults : nat -> bool) (db : database)
  (rows : list (string * daily_row)) (activities : list Activity.t)
  (db' : database) (cs : list call) :
  persist faults db rows activities = (Ok tt, db', cs) ->
  Forall int_id activities
  /\ tabs (db_rows db')
     = fold_left write_tabs (merged_objects rows activities) (tabs (db_rows db))
  /\ map row_values (tbl_activity_split_summaries (db_rows db'))
     = split_values_after activities
         (map row_values (tbl_activity_split_summaries (db_rows db)))
  /\ cs = expected_calls rows activities.
Proof.
  intros H. pose proof (persist_ok_int_ids _ _ _ _ _ _ H) as Hint.
  apply persist_ok_no_faults in H.
  rewrite (persist_no_faults_run db rows activities Hint) in H.
  inversion H as [[Hdb Hcs]]; clear H.
  split; [exact Hint |]. split; [| split].
  - cbn [db_rows]. rewrite fold_write_tabs, loop_tabs.
    unfold merged_objects. rewrite fold_left_app. reflexivity.
  - cbn [db_rows]. rewrite fold_write_values.
    unfold split_values_after.
    pose proof (loop_values activities (after_merges (get_session db) rows) Hint)
      as Hv.
    assert (Hp : pending_splits
                   (pending (after_merges (get_session db) rows)) = []).
    { cbn [after_merges get_session pending app].
      apply pending_splits_dailies. }
    rewrite Hp in Hv. cbn [after_merges get_session txn map] in Hv.
    rewrite <- Hv. reflexivity.
  - rewrite loop_calls. unfold expected_calls.
    cbn [after_merges get_session calls app].
    rewrite <- !app_assoc. reflexivity.
Qed.

(** ** Split rows as values *)

Lemma filter_filter_andb {A} (p q : A -> bool) (l : list A) :
  List.filter p (List.filter q l) = List.filter (fun x => q x && p x) l.
Proof.
  induction l as [| x l IH]; simpl; [reflexivity |].
  destruct (q x); simpl; [destruct (p x) |]; rewrite IH; reflexivity.
Qed.

Lemma filter_all {A} (p : A -> bool) (l : list A) :
  Forall (fun x => p x = true) l -> List.filter p l = l.
Proof.
  induction 1 as [| x l Hx _ IH]; simpl; [reflexivity |].
  rewrite Hx, IH. reflexivity.
Qed.

Lemma filter_none {A} (p : A -> bool) (l : list A) :
  Forall (fun x => p x = false) l -> List.filter p l = [].
Proof.
  induction 1 as [| x l Hx _ IH]; simpl; [reflexivity |].
  rewrite Hx, IH. reflexivity.
Qed.

Lemma filter_pointwise {A} (p q : A -> bool) (l : list A) :
  (forall x, p x = q x) -> List.filter p l = List.filter q l.
Proof.
  intros H. induction l as [| x l IH]; simpl; [reflexivity |].
  rewrite H, IH. reflexivity.
Qed.

Lemma has_key_two (z k : Z) (v : pyval * split_dict) :
  k <> z -> has_key z v = true -> has_key k v = false.
Proof.
  unfold has_key. destruct (fst v); try discriminate.
  intros Hne Hz. apply Z.eqb_eq in Hz. subst. apply Z.eqb_neq.
  congruence.
Qed.

Lemma keep_drop_other (z k : Z) (l : list (pyval * split_dict)) :
  k <> z ->
  List.filter (has_key z) (List.filter (fun v => negb (has_key k v)) l)
  = List.filter (has_key z) l.
Proof.
  intros Hne. rewrite filter_filter_andb. apply filter_pointwise.
  intros v. destruct (has_key z v) eqn:Hz.
  - rewrite (has_key_two z k v Hne Hz). reflexivity.
  - apply andb_false_r.
Qed.

Lemma keep_drop_same (z : Z) (l : list (pyval * split_dict)) :
  List.filter (has_key z) (List.filter (fun v => negb (has_key z v)) l) = [].
Proof.
  rewrite filter_filter_andb. apply filter_none.
  apply List.Forall_forall. intros v _. destruct (has_key z v); reflexivity.
Qed.

Lemma keep_own_splits (act : Activity.t) (z : Z) :
  Activity.activity_id act = PInt z ->
  List.filter (has_key z)
    (map (fun sp => (Activity.activity_id act, snapshot sp))
       (Activity.split_summaries act))
  = map (fun sp => (PInt z, snapshot sp)) (Activity.split_summaries act).
Proof.
  intros H. rewrite H. apply filter_all.
  apply List.Forall_forall. intros v Hv. apply List.in_map_iff in Hv.
  destruct Hv as (sp & <- & _). unfold has_key. simpl. apply Z.eqb_refl.
Qed.

Lemma keep_other_splits (act : Activity.t) (z : Z) :
  Activity.activity_id act <> PInt z ->
  List.filter (has_key z)
    (map (fun sp => (Activity.activity_id act, snapshot sp))
       (Activity.split_summaries act)) = [].
Proof.
  intros H. apply filter_none.
  apply List.Forall_forall. intros v Hv. apply List.in_map_iff in Hv.
  destruct Hv as (sp & <- & _). unfold has_key. simpl.
  destruct (Activity.activity_id act) as [ | | n | | | | ]; try reflexivity.
  apply Z.eqb_neq. congruence.
Qed.

Lemma act_key_other (act : Activity.t) (z : Z) :
  int_id act -> Activity.activity_id act <> PInt z -> act_key act <> z.
Proof.
  intros [k Hk] Hne. unfold act_key. rewrite Hk. congruence.
Qed.

(** Turns of the loop for other activities leave the rows of [z] alone,
    whether written or pending. *)
Lemma vstep_others_keep (z : Z) (l : list Activity.t)
  (W P : list (pyval * split_dict)) :
  Forall int_id l ->
  Forall (fun a => Activity.activity_id a <> PInt z) l ->
  List.filter (has_key z)
    (fst (fold_left vstep l (W, P)) ++ snd (fold_left vstep l (W, P)))
  = List.filter (has_key z) (W ++ P).
Proof.
  intros Hint. revert W P.
  induction Hint as [| a l Ha _ IH]; intros W P Hne; [reflexivity |].
  inversion Hne as [| ? ? Hane Hlne]; subst.
  cbn [fold_left]. unfold vstep at 2 4. cbn [fst snd].
  rewrite (IH _ _ Hlne), !List.filter_app.
  rewrite (keep_drop_other z (act_key a) W (act_key_other a z Ha Hane)).
  rewrite (keep_other_splits a z Hane), app_nil_r. reflexivity.
Qed.

Lemma vstep_others_pending (z : Z) (l : list Activity.t)
  (W P : list (pyval * split_dict)) :
  Forall (fun a => Activity.activity_id a <> PInt z) l ->
  List.filter (has_key z) P = [] ->
  List.filter (has_key z) (snd (fold_left vstep l (W, P))) = [].
Proof.
  intros Hne. revert W P.
  induction Hne as [| a l Hane _ IH]; intros W P HP; [exact HP |].
  cbn [fold_left]. unfold vstep at 2. cbn [fst snd].
  apply IH. apply keep_other_splits. exact Hane.
Qed.

(** The rows of an activity that the batch holds once are its splits. *)
Lemma split_values_of_activity (z : Z) (before after : list Activity.t)
  (act : Activity.t) (W : list (pyval * split_dict)) :
  Activity.activity_id act = PInt z ->
  Forall int_id (before ++ act :: after) ->
  Forall (fun a => Activity.activity_id a <> PInt z) before ->
  Forall (fun a => Activity.activity_id a <> PInt z) after ->
  List.filter (has_key z) (split_values_after (before ++ act :: after) W)
  = map (fun sp => (PInt z, snapshot sp)) (Activity.split_summaries act).
Proof.
  intros Hz Hint Hb Ha.
  apply List.Forall_app in Hint. destruct Hint as [_ Hint].
  inversion Hint as [| ? ? _ Hinta]; subst.
  unfold split_values_after. cbv zeta. rewrite fold_left_app.
  cbn [fold_left].
  destruct (fold_left vstep before (W, [])) as [W1 P1] eqn:E.
  destruct (vstep (W1, P1) act) as [W2 P2] eqn:EX.
  rewrite (vstep_others_keep z after W2 P2 Hinta Ha).
  unfold vstep in EX. cbn [fst snd] in EX.
  inversion EX; subst W2 P2; clear EX.
  rewrite !List.filter_app.
  assert (Hk : act_key act = z) by (unfold act_key; rewrite Hz; reflexivity).
  rewrite Hk, keep_drop_same, (keep_own_splits act z Hz).
  pose proof (vstep_others_pending z before W [] Hb eq_refl) as HP.
  rewrite E in HP. cbn [snd] in HP. rewrite HP. reflexivity.
Qed.

Lemma strip_nil (l : list (pyval * split_dict)) : strip [] l = l.
Proof.
  unfold strip. apply filter_all. apply List.Forall_forall. reflexivity.
Qed.

Lemma strip_cons (a : Activity.t) (activities : list Activity.t)
  (l : list (pyval * split_dict)) :
  strip activities (List.filter (fun v => negb (has_key (act_key a) v)) l)
  = strip (a :: activities) l.
Proof. unfold strip. rewrite filter_filter_andb. reflexivity. Qed.

Lemma strip_app (activities : list Activity.t)
  (l1 l2 : list (pyval * split_dict)) :
  strip activities (l1 ++ l2) = strip activities l1 ++ strip activities l2.
Proof. unfold strip. apply List.filter_app. Qed.

Lemma strip_strip (activities : list Activity.t)
  (l : list (pyval * split_dict)) :
  strip activities (strip activities l) = strip activities l.
Proof.
  unfold strip. rewrite filter_filter_andb. apply filter_pointwise.
  intros v. apply andb_diag.
Qed.

Lemma strip_covered (activities : list Activity.t)
  (l : list (pyval * split_dict)) :
  Forall (covered activities) l -> strip activities l = [].
Proof.
  intros H. unfold strip. apply filter_none.
  eapply List.Forall_impl; [| exact H]. clear H l. intros v. unfold covered.
  induction activities as [| a acts IH]; simpl; [discriminate |].
  destruct (has_key (act_key a) v); simpl; [reflexivity | exact IH].
Qed.

(** Rows that were there before the loop only lose those of the batch;
    what the loop adds does not depend on them. *)
Lemma vstep_frame (activities : list Activity.t)
  (A B P : list (pyval * split_dict)) :
  fold_left vstep activities (A ++ B, P)
  = (strip activities A ++ fst (fold_left vstep activities (B, P)),
     snd (fold_left vstep activities (B, P))).
Proof.
  revert A B P. induction activities as [| a l IH]; intros A B P.
  - simpl. rewrite strip_nil. reflexivity.
  - cbn [fold_left]. unfold vstep at 2 4 6. cbn [fst snd].
    rewrite List.filter_app, <- app_assoc, IH, strip_cons. reflexivity.
Qed.

Lemma covered_own_splits (all : list Activity.t) (a : Activity.t) :
  int_id a -> In a all ->
  Forall (covered all)
    (map (fun sp => (Activity.activity_id a, snapshot sp))
       (Activity.split_summaries a)).
Proof.
  intros [k Hk] Hin. apply List.Forall_forall. intros v Hv.
  apply List.in_map_iff in Hv. destruct Hv as (sp & <- & _).
  unfold covered. apply List.existsb_exists. exists a. split; [exact Hin |].
  unfold has_key, act_key. simpl. rewrite Hk. apply Z.eqb_refl.
Qed.

Lemma vstep_covered (all l : list Activity.t)
  (B P : list (pyval * split_dict)) :
  Forall int_id l -> incl l all ->
  Forall (covered all) (B ++ P) ->
  Forall (covered all)
    (fst (fold_left vstep l (B, P)) ++ snd (fold_left vstep l (B, P))).
Proof.
  intros Hint. revert B P.
  induction Hint as [| a l Ha _ IH]; intros B P Hincl Hc; [exact Hc |].
  cbn [fold_left]. unfold vstep at 2 4. cbn [fst snd].
  apply IH.
  - intros x Hx. apply Hincl. right. exact Hx.
  - apply List.Forall_app in Hc. destruct Hc as [HB HP].
    repeat (apply List.Forall_app; split).
    + apply List.Forall_forall. intros v Hv. apply List.filter_In in Hv.
      destruct Hv as [Hv _]. rewrite List.Forall_forall in HB. apply HB, Hv.
    + exact HP.
    + apply covered_own_splits; [exact Ha |]. apply Hincl. left. reflexivity.
Qed.

Lemma split_values_after_frame (activities : list Activity.t)
  (A : list (pyval * split_dict)) :
  split_values_after activities A
  = strip activities A ++ split_values_after activities [].
Proof.
  unfold split_values_after. cbv zeta.
  rewrite <- (app_nil_r A) at 1 2. rewrite vstep_frame. cbn [fst snd].
  rewrite app_assoc. reflexivity.
Qed.

Lemma split_values_after_idem (activities : list Activity.t)
  (A : list (pyval * split_dict)) :
  Forall int_id activities ->
  split_values_after activities (split_values_after activities A)
  = split_values_after activities A.
Proof.
  intros Hint.
  rewrite (split_values_after_frame activities A).
  rewrite (split_values_after_frame activities (_ ++ _)).
  rewrite strip_app, strip_strip.
  rewrite (strip_covered activities (split_values_after activities [])).
  - rewrite app_nil_r. reflexivity.
  - unfold split_values_after. cbv zeta. apply vstep_covered.
    + exact Hint.
    + intros x Hx; exact Hx.
    + constructor.
Qed.

(** ** Keyed tables: last write wins *)

Lemma write_tabs_idem t x : write_tabs (write_tabs t x) x = write_tabs t x.
Proof.
  destruct t as [[[t1 t2] t3] t4].
  destruct x as [[r | r | r] | k a | sp]; cbn [write_tabs];
    try rewrite insert_insert_eq; reflexivity.
Qed.

Lemma write_tabs_absorb_or_commute t x y :
  write_tabs (write_tabs t x) y = write_tabs t y
  \/ write_tabs (write_tabs t x) y = write_tabs (write_tabs t y) x.
Proof.
  destruct t as [[[t1 t2] t3] t4].
  destruct x as [[r | r | r] | k a | sp], y as [[r' | r' | r'] | k' a' | sp'];
    cbn [write_tabs]; try (right; reflexivity).
  all: match goal with
       | |- context [<[?ky := _]> (<[?kx := _]> _)] =>
           destruct (decide (kx = ky)) as [e | Hne];
           [ left; rewrite e, insert_insert_eq; reflexivity
           | right; rewrite insert_insert_ne by congruence; reflexivity ]
       end.
Qed.

Lemma fold_write_absorb (l : list pending_obj) t x :
  write_tabs (fold_left write_tabs l (write_tabs t x)) x
  = write_tabs (fold_left write_tabs l t) x.
Proof.
  revert t. induction l as [| y l IH]; intros t.
  - apply write_tabs_idem.
  - cbn [fold_left].
    destruct (write_tabs_absorb_or_commute t x y) as [H | H]; rewrite H.
    + reflexivity.
    + apply IH.
Qed.

Lemma fold_write_idem (l : list pending_obj) t :
  fold_left write_tabs l (fold_left write_tabs l t) = fold_left write_tabs l t.
Proof.
  induction l as [| x l IH] using rev_ind; [reflexivity |].
  rewrite !fold_left_app. cbn [fold_left].
  rewrite fold_write_absorb, IH. reflexivity.
Qed.

(** ** Replacement of the split rows *)

Lemma persist_activity_ok (faults : nat -> bool) (act : Activity.t)
  (s s' : session) :
  persist_activity faults act s = (Ok tt, s') ->
  int_id act /\ s' = after_activity s act.
Proof.
  intros H.
  assert (Hint : int_id act).
  { destruct (int_id_dec act) as [Hi | Hn]; [exact Hi |].
    pose proof (persist_activity_bad_id faults act s Hn) as Hb.
    rewrite H in Hb. discriminate. }
  split; [exact Hint |].
  destruct (tracks_persist_activity faults act s) as (_ & _ & Hok).
  rewrite H in Hok. cbn [fst] in Hok. destruct Hok as [H0 _].
  rewrite (persist_activity_run act s Hint) in H0. congruence.
Qed.

Lemma rows_of_activity (z : Z) (l : list ActivitySplitSummary.t) :
  map row_values (List.filter (split_of z) l)
  = List.filter (has_key z) (map row_values l).
Proof. exact (filter_row_values (has_key z) l). Qed.

Lemma keep_strip (z : Z) (act : Activity.t) (batch : list Activity.t)
  (l : list (pyval * split_dict)) :
  In act batch -> act_key act = z ->
  List.filter (has_key z) (strip batch l) = [].
Proof.
  intros Hin Hk. unfold strip. rewrite filter_filter_andb.
  apply filter_none. apply List.Forall_forall. intros v _.
  destruct (has_key z v) eqn:Hv; [| apply andb_false_r].
  rewrite andb_true_r.
  destruct (forallb _ batch) eqn:Hf; [| reflexivity].
  rewrite List.forallb_forall in Hf. specialize (Hf act Hin).
  rewrite Hk, Hv in Hf. discriminate.
Qed.



(** ** Idempotence *)




(** * Further properties *)

(** ** The normaliser on its own results *)

Lemma sentinel_cases (v : pyval) : _sentinel v = PNone \/ _sentinel v = v.
Proof.
  unfold _sentinel, _sentinel_kw. destruct v; auto;
    match goal with |- context [if ?c then _ else _] => destruct c end; auto.
Qed.

Lemma sentinel_by_value (v : pyval) :
  _sentinel v = if is_sentinel_number v then PNone else v.
Proof.
  destruct v as [ | b | n | f | s | l | d ]; try reflexivity.
  - destruct b; reflexivity.
  - unfold _sentinel, _sentinel_kw, is_sentinel_number; simpl.
    rewrite !float_eq_int_value. destruct (float_value f); reflexivity.
Qed.

Lemma sentinel_is_clean (v : pyval) : is_sentinel_number (_sentinel v) = false.
Proof.
  rewrite sentinel_by_value.
  destruct (is_sentinel_number v) eqn:E; [reflexivity | exact E].
Qed.

(** X1. What [_sentinel] returns is never a sentinel number, and applying
    it again changes nothing. *)
Theorem sentinel_result_is_clean (v : pyval) :
  is_sentinel_number (_sentinel v) = false
  /\ _sentinel (_sentinel v) = _sentinel v.
Proof.
  split; [apply sentinel_is_clean |].
  destruct (sentinel_cases v) as [H | H]; rewrite H; [reflexivity | exact H].
Qed.

(** ** The daily summary parser *)

Lemma dict_get_has (d : list (string * pyval)) (k : string) :
  dict_has d k = false -> dict_get d k = PNone.
Proof.
  induction d as [| [k' v] d IH]; simpl; [reflexivity |].
  destruct (String.eqb k' k); simpl; [discriminate | exact IH].
Qed.

Lemma dict_get_str_has (d : list (string * pyval)) (k s : string) :
  dict_get d k = PStr s -> dict_has d k = true.
Proof.
  intros H. destruct (dict_has d k) eqn:E; [reflexivity |].
  rewrite (dict_get_has d k E) in H. discriminate.
Qed.

Lemma dict_get_in (d : list (string * pyval)) (k : string) :
  dict_get d k = PNone \/ In (dict_get d k) (map snd d).
Proof.
  induction d as [| [k' v] d IH]; simpl; [left; reflexivity |].
  destruct (String.eqb k' k); [right; left; reflexivity |].
  destruct IH as [H | H]; [left; exact H | right; right; exact H].
Qed.

Lemma sentinel_get_in (d : list (string * pyval)) (k : string) :
  _sentinel (dict_get d k) = PNone
  \/ In (_sentinel (dict_get d k)) (map snd d).
Proof.
  destruct (sentinel_cases (dict_get d k)) as [H | H]; rewrite H;
    [left; reflexivity | apply dict_get_in].
Qed.

Lemma from_stats (s hs : list (string * pyval)) (k : string) :
  _sentinel (dict_get s k) = PNone
  \/ In (_sentinel (dict_get s k)) (map snd s)
  \/ In (_sentinel (dict_get s k)) (map snd hs).
Proof. destruct (sentinel_get_in s k); auto. Qed.

Lemma from_hydration (s hs : list (string * pyval)) (k : string) :
  _sentinel (dict_get hs k) = PNone
  \/ In (_sentinel (dict_get hs k)) (map snd s)
  \/ In (_sentinel (dict_get hs k)) (map snd hs).
Proof. destruct (sentinel_get_in hs k); auto. Qed.

(** X2. On a stats mapping whose [calendarDate] is an ISO date, with a
    hydration payload that is a mapping or falsy, [parse_daily_summary]
    returns a record for that date.  None of its 47 measurements is a
    sentinel number, each is absent or a value found in one of the two
    payloads, and the hydration fields come from the hydration payload
    alone (absent when there is none). *)
Theorem parse_daily_summary_returns (L : pylib)
  (s : list (string * pyval)) (h : pyval) (str : string) (day : date) :
  dict_get s "calendarDate" = PStr str ->
  lib_date_fromisoformat L str = Some day ->
  shape_ok h = true ->
  exists r,
    parse_daily_summary L (PDict s) h = Ok r
    /\ DailySummary.calendar_date r = day
    /\ Forall (fun v => is_sentinel_number v = false) (summary_measurements r)
    /\ Forall (fun v => v = PNone \/ In v (map snd s)
                        \/ In v (map snd (items h)))
         (summary_measurements r)
    /\ DailySummary.hydration_value_ml r
       = _sentinel (dict_get (items h) "valueInML")
    /\ DailySummary.hydration_goal_ml r
       = _sentinel (dict_get (items h) "goalInML").
Proof.
  intros Hget Hiso Hh.
  unfold parse_daily_summary. cbn [py_getitem].
  rewrite (dict_get_str_has _ _ _ Hget), Hget.
  cbn [rbind py_fromisoformat]. rewrite Hiso, (py_or_shape h Hh).
  cbn [py_get rbind].
  eexists. split; [reflexivity |]. split; [reflexivity |].
  unfold summary_measurements.
  split; [| split; [| split; reflexivity]].
  - repeat (constructor; [apply sentinel_is_clean |]). constructor.
  - repeat (constructor; [first [apply from_stats | apply from_hydration] |]).
    constructor.
Qed.

Lemma parse_daily_summary_returns_witness :
  exists r,
    parse_daily_summary sample_lib
      (PDict [("calendarDate", PStr "2024-03-01"); ("totalSteps", PInt (-1));
              ("restingHeartRate", PInt 52)]) PNone = Ok r
    /\ DailySummary.calendar_date r = mkdate 2024 3 1
    /\ DailySummary.hydration_value_ml r = PNone.
Proof.
  destruct (parse_daily_summary_returns sample_lib
              [("calendarDate", PStr "2024-03-01"); ("totalSteps", PInt (-1));
               ("restingHeartRate", PInt 52)]
              PNone "2024-03-01" (mkdate 2024 3 1))
    as (r & Hr & Hd & _ & _ & Hv & _); try reflexivity.
  exists r. split; [exact Hr |]. split; [exact Hd | exact Hv].
Defined.

(** X3. How [parse_daily_summary] fails, whatever the hydration payload
    is: [TypeError] on a stats payload that is no mapping, [KeyError] on
    a mapping without [calendarDate], [TypeError] on a date that is no
    string, [ValueError] on a string that is no ISO date.  With a good
    date, a truthy hydration payload that is no mapping raises
    [AttributeError]. *)
Theorem parse_daily_summary_errors (L : pylib) (h : pyval) :
  (forall v, is_dict v = false -> parse_daily_summary L v h = Raise TypeError)
  /\ (forall s, dict_has s "calendarDate" = false ->
        parse_daily_summary L (PDict s) h = Raise (KeyError "calendarDate"))
  /\ (forall s, dict_has s "calendarDate" = true ->
        (forall str, dict_get s "calendarDate" <> PStr str) ->
        parse_daily_summary L (PDict s) h = Raise TypeError)
  /\ (forall s str, dict_get s "calendarDate" = PStr str ->
        lib_date_fromisoformat L str = None ->
        parse_daily_summary L (PDict s) h = Raise ValueError)
  /\ (forall s str day, dict_get s "calendarDate" = PStr str ->
        lib_date_fromisoformat L str = Some day ->
        shape_ok h = false ->
        parse_daily_summary L (PDict s) h = Raise AttributeError).
Proof.
  repeat match goal with |- _ /\ _ => split end.
  - intros v Hv. destruct v; try discriminate Hv; reflexivity.
  - intros s Hs. unfold parse_daily_summary. cbn [py_getitem].
    rewrite Hs. reflexivity.
  - intros s Hs Hn. unfold parse_daily_summary. cbn [py_getitem].
    rewrite Hs. cbn [rbind].
    destruct (dict_get s "calendarDate") as [ | | | | str | | ];
      try reflexivity.
    exfalso. exact (Hn str eq_refl).
  - intros s str Hget Hiso. unfold parse_daily_summary. cbn [py_getitem].
    rewrite (dict_get_str_has _ _ _ Hget), Hget.
    cbn [rbind py_fromisoformat]. rewrite Hiso. reflexivity.
  - intros s str day Hget Hiso Hh. unfold parse_daily_summary.
    cbn [py_getitem].
    rewrite (dict_get_str_has _ _ _ Hget), Hget.
    cbn [rbind py_fromisoformat]. rewrite Hiso.
    cbn [py_get rbind].
    unfold shape_ok in Hh. apply orb_false_elim in Hh. destruct Hh as [Ht Hd].
    apply negb_false_iff in Ht. unfold py_or. rewrite Ht.
    destruct h; try discriminate Hd; reflexivity.
Qed.

Lemma parse_daily_summary_errors_witness :
  parse_daily_summary sample_lib (PDict [("totalSteps", PInt 9000)]) PNone
  = Raise (KeyError "calendarDate")
  /\ parse_daily_summary sample_lib
       (PDict [("calendarDate", PStr "01/03/2024")]) PNone = Raise ValueError
  /\ parse_daily_summary sample_lib
       (PDict [("calendarDate", PStr "2024-03-01")]) (PList [PInt 1])
     = Raise AttributeError.
Proof.
  split; [| split].
  - destruct (parse_daily_summary_errors sample_lib PNone) as (_ & H & _).
    apply (H [("totalSteps", PInt 9000)]). reflexivity.
  - destruct (parse_daily_summary_errors sample_lib PNone) as (_ & _ & _ & H & _).
    apply (H [("calendarDate", PStr "01/03/2024")] "01/03/2024"); reflexivity.
  - destruct (parse_daily_summary_errors sample_lib (PList [PInt 1]))
      as (_ & _ & _ & _ & H).
    apply (H [("calendarDate", PStr "2024-03-01")] "2024-03-01" (mkdate 2024 3 1));
      reflexivity.
Defined.

(** ** No sentinel is stored *)

Lemma rbind_ok {A B} (m : result A) (k : A -> result B) (b : B) :
  rbind m k = Ok b -> exists a, m = Ok a /\ k a = Ok b.
Proof. destruct m as [a | e]; simpl; [eauto | discriminate]. Qed.

Lemma mapM_ok {A B} (f : A -> result B) (l : list A) (rs : list B) :
  mapM f l = Ok rs -> Forall2 (fun x r => f x = Ok r) l rs.
Proof.
  revert rs. induction l as [| x l IH]; intros rs H; simpl in H.
  - inversion H. constructor.
  - apply rbind_ok in H. destruct H as (y & Hy & H).
    apply rbind_ok in H. destruct H as (ys & Hys & H).
    inversion H; subst. constructor; [exact Hy | exact (IH _ Hys)].
Qed.

Lemma baseline_field_value (b : pyval) (key : string) :
  baseline_field (py_or b (PDict [])) key
  = Ok (_sentinel (dict_get (items b) key)).
Proof.
  unfold baseline_field, py_or.
  destruct (truthy b) eqn:Ht; [| rewrite (items_falsy b Ht); reflexivity].
  destruct b; reflexivity.
Qed.

Ltac clean_fields :=
  repeat (constructor; [apply sentinel_is_clean |]); constructor.

Lemma summary_is_clean (L : pylib) (s h : pyval) (r : DailySummary.t) :
  parse_daily_summary L s h = Ok r ->
  Forall (fun v => is_sentinel_number v = false) (summary_measurements r).
Proof.
  unfold parse_daily_summary. intros H.
  destruct s as [ | | | | | | d ]; try discriminate H.
  apply rbind_ok in H. destruct H as (cd & _ & H).
  apply rbind_ok in H. destruct H as (day & _ & H).
  cbn [py_get rbind] in H.
  destruct (py_or h (PDict [])) as [ | | | | | | hd ]; try discriminate H.
  cbn [py_get rbind] in H. inversion H; subst r.
  unfold summary_measurements. clean_fields.
Qed.

Lemma split_is_clean (sp : pyval) (r : ActivitySplitSummary.t) :
  parse_split sp = Ok r ->
  Forall (fun v => is_sentinel_number v = false) (split_measurements r).
Proof.
  unfold parse_split. intros H.
  destruct sp as [ | | | | | | d ]; try discriminate H.
  cbn [py_get rbind] in H. inversion H; subst r.
  unfold split_measurements. clean_fields.
Qed.

Lemma hrv_is_clean (L : pylib) (p : pyval) (r : DailyHrv.t) :
  parse_daily_hrv L p = Ok (Some r) ->
  Forall (fun v => is_sentinel_number v = false) (hrv_measurements r).
Proof.
  unfold parse_daily_hrv. intros H.
  destruct p as [ | | | | | | d ]; try discriminate H.
  cbn [py_get rbind] in H.
  destruct (py_or (dict_get d "hrvSummary") (PDict []))
    as [ | | | | | | sm ] eqn:Es;
    try (destruct (negb (truthy _)); discriminate H).
  destruct (negb (truthy (PDict sm))); [discriminate H |].
  cbn [py_get rbind] in H.
  destruct (negb (truthy (dict_get sm "calendarDate"))); [discriminate H |].
  apply rbind_ok in H. destruct H as (day & _ & H).
  rewrite !baseline_field_value in H. cbn [rbind] in H.
  inversion H; subst r.
  unfold hrv_measurements. clean_fields.
Qed.

Tactic Notation "need_mapping" hyp(H) constr(x) ident(n) :=
  destruct x as [ | | | | | | n ]; try discriminate H; cbn [py_get rbind] in H.

Lemma sleep_is_clean (L : pylib) (p : pyval) (r : DailySleep.t) :
  parse_daily_sleep L p = Ok (Some r) ->
  Forall (fun v => is_sentinel_number v = false) (sleep_measurements r).
Proof.
  unfold parse_daily_sleep. intros H.
  destruct p as [ | | | | | | d ]; try discriminate H.
  cbn [py_get rbind] in H.
  destruct (py_or (dict_get d "dailySleepDTO") (PDict []))
    as [ | | | | | | dto ];
    try (destruct (negb (truthy _)); discriminate H).
  destruct (negb (truthy (PDict dto))); [discriminate H |].
  cbn [py_get rbind] in H.
  destruct (negb (truthy (dict_get dto "calendarDate"))); [discriminate H |].
  apply rbind_ok in H. destruct H as (day & _ & H).
  need_mapping H (py_or (dict_get dto "sleepScores") (PDict [])) sc.
  apply rbind_ok in H. destruct H as (t1 & _ & H).
  apply rbind_ok in H. destruct H as (t2 & _ & H).
  need_mapping H (py_or (dict_get sc "overall") (PDict [])) ov.
  need_mapping H (py_or (dict_get sc "remPercentage") (PDict [])) rp.
  need_mapping H (py_or (dict_get sc "lightPercentage") (PDict [])) lp.
  need_mapping H (py_or (dict_get sc "deepPercentage") (PDict [])) dp.
  need_mapping H (py_or (dict_get dto "sleepNeed") (PDict [])) sn.
  inversion H; subst r.
  unfold sleep_measurements. clean_fields.
Qed.

(** ** The activity parser, entry by entry *)

(** What a parsed entry tells about the entry it came from. *)
Lemma parse_activity_ok (L : pylib) (target_date : string) (a : pyval)
  (act : Activity.t) :
  parse_activity L target_date a = Ok act ->
  exists d sps,
    a = PDict d
    /\ dict_has d "activityId" = true
    /\ Activity.activity_id act = dict_get d "activityId"
    /\ lib_date_fromisoformat L target_date = Some (Activity.calendar_date act)
    /\ Activity.activity_name act = dict_get d "activityName"
    /\ py_iter (py_or (dict_get d "splitSummaries") (PList [])) = Ok sps
    /\ mapM parse_split sps = Ok (Activity.split_summaries act)
    /\ Forall (fun v => is_sentinel_number v = false)
         (activity_measurements act).
Proof.
  unfold parse_activity. intros H.
  destruct a as [ | | | | | | d ]; try discriminate H.
  cbn [py_get rbind] in H.
  apply rbind_ok in H. destruct H as (vid & Hid & H).
  apply rbind_ok in H. destruct H as (day & Hday & H).
  need_mapping H (py_or (dict_get d "activityType") (PDict [])) ty.
  apply rbind_ok in H. destruct H as (t1 & _ & H).
  apply rbind_ok in H. destruct H as (t2 & _ & H).
  apply rbind_ok in H. destruct H as (sps & Hsps & H).
  apply rbind_ok in H. destruct H as (splits & Hsplits & H).
  inversion H; subst act; clear H.
  exists d, sps.
  unfold py_getitem in Hid.
  destruct (dict_has d "activityId") eqn:Ehas; [| discriminate Hid].
  inversion Hid; subst vid.
  unfold py_fromisoformat in Hday.
  destruct (lib_date_fromisoformat L target_date) as [day' |] eqn:Eday;
    [| discriminate Hday].
  inversion Hday; subst day'.
  repeat split; try reflexivity; try assumption.
  unfold activity_measurements. clean_fields.
Qed.

(** X4. No parser stores a sentinel: whenever a parser returns a record,
    none of the fields it passes through [_sentinel] holds a number equal
    to -1 or -2; this holds for the daily summary, the sleep and the HRV
    record, for every activity and for every split of every activity. *)
Theorem parsers_store_no_sentinel (L : pylib) :
  (forall s h r, parse_daily_summary L s h = Ok r ->
     Forall (fun v => is_sentinel_number v = false) (summary_measurements r))
  /\ (forall p r, parse_daily_sleep L p = Ok (Some r) ->
        Forall (fun v => is_sentinel_number v = false) (sleep_measurements r))
  /\ (forall p r, parse_daily_hrv L p = Ok (Some r) ->
        Forall (fun v => is_sentinel_number v = false) (hrv_measurements r))
  /\ (forall entries target_date acts,
        parse_activities L entries target_date = Ok acts ->
        Forall (fun a =>
                  Forall (fun v => is_sentinel_number v = false)
                    (activity_measurements a)
                  /\ Forall (fun sp =>
                               Forall (fun v => is_sentinel_number v = false)
                                 (split_measurements sp))
                       (Activity.split_summaries a)) acts).
Proof.
  split; [exact (summary_is_clean L) |].
  split; [exact (sleep_is_clean L) |].
  split; [exact (hrv_is_clean L) |].
  intros entries target_date acts H. unfold parse_activities in H.
  apply mapM_ok in H.
  induction H as [| e a entries acts He _ IH]; constructor; [| exact IH].
  destruct (parse_activity_ok _ _ _ _ He)
    as (d & sps & _ & _ & _ & _ & _ & _ & Hsp & Hclean).
  split; [exact Hclean |].
  apply mapM_ok in Hsp.
  induction Hsp as [| x sp xs sps' Hx _ IHs]; constructor; [| exact IHs].
  exact (split_is_clean _ _ Hx).
Qed.

Lemma parsers_store_no_sentinel_witness :
  exists r,
    parse_daily_hrv sample_lib
      (PDict [("hrvSummary",
               PDict [("calendarDate", PStr "2024-03-01");
                      ("weeklyAvg", PInt (-1)); ("lastNightAvg", PInt 38)])])
    = Ok (Some r)
    /\ Forall (fun v => is_sentinel_number v = false) (hrv_measurements r).
Proof.
  destruct (parsers_store_no_sentinel sample_lib) as (_ & _ & Hhrv & _).
  assert (H : exists r,
             parse_daily_hrv sample_lib
               (PDict [("hrvSummary",
                        PDict [("calendarDate", PStr "2024-03-01");
                               ("weeklyAvg", PInt (-1));
                               ("lastNightAvg", PInt 38)])])
             = Ok (Some r)) by (eexists; reflexivity).
  destruct H as (r & Hr). exists r. split; [exact Hr | exact (Hhrv _ r Hr)].
Defined.

Lemma py_iter_splits (d : list (string * pyval)) (sps : list pyval) :
  py_iter (py_or (dict_get d "splitSummaries") (PList [])) = Ok sps ->
  (forall l, dict_get d "splitSummaries" = PList l -> sps = l)
  /\ (truthy (dict_get d "splitSummaries") = false -> sps = []).
Proof.
  unfold py_or. intros H. split.
  - intros l Hl. rewrite Hl in H. destruct l; simpl in H; congruence.
  - intros Hf. rewrite Hf in H. simpl in H. congruence.
Qed.

Lemma mapM_length {A B} (f : A -> result B) (l : list A) (rs : list B) :
  mapM f l = Ok rs -> length rs = length l.
Proof.
  intros H. apply mapM_ok in H. induction H; simpl; congruence.
Qed.

(** X5. When [parse_activities] returns, it returns one record per entry,
    in the order of the entries.  Each record carries the [activityId]
    and the [activityName] of its entry, is dated with the target date
    and not with anything in the entry, and has one split per element of
    the entry's [splitSummaries] list, none when that key is missing or
    null. *)
Theorem parse_activities_one_record_per_entry (L : pylib)
  (entries : list pyval) (target_date : string) (acts : list Activity.t) :
  parse_activities L entries target_date = Ok acts ->
  length acts = length entries
  /\ Forall2
       (fun e a =>
          exists d,
            e = PDict d
            /\ dict_has d "activityId" = true
            /\ Activity.activity_id a = dict_get d "activityId"
            /\ Activity.activity_name a = dict_get d "activityName"
            /\ lib_date_fromisoformat L target_date
               = Some (Activity.calendar_date a)
            /\ (forall l, dict_get d "splitSummaries" = PList l ->
                  length (Activity.split_summaries a) = length l)
            /\ (truthy (dict_get d "splitSummaries") = false ->
                  Activity.split_summaries a = []))
       entries acts.
Proof.
  intros H. split; [exact (mapM_length _ _ _ H) |].
  unfold parse_activities in H. apply mapM_ok in H.
  induction H as [| e a entries acts He _ IH]; constructor; [| exact IH].
  destruct (parse_activity_ok _ _ _ _ He)
    as (d & sps & -> & Hhas & Hid & Hday & Hname & Hit & Hsp & _).
  exists d. repeat split; try assumption.
  - intros l Hl. destruct (py_iter_splits d sps Hit) as [Hlist _].
    rewrite (mapM_length _ _ _ Hsp), (Hlist l Hl). reflexivity.
  - intros Hf. destruct (py_iter_splits d sps Hit) as [_ Hnone].
    rewrite (Hnone Hf) in Hsp. simpl in Hsp. congruence.
Qed.

Lemma parse_activities_one_record_per_entry_witness :
  exists acts,
    parse_activities sample_lib
      [PDict [("activityId", PInt 7); ("activityName", PStr "Morning run");
              ("splitSummaries", PList [PDict [("splitType", PStr "RWD_RUN")]])];
       PDict [("activityId", PInt 9)]] "2024-03-01" = Ok acts
    /\ length acts = 2%nat.
Proof.
  assert (H : exists acts,
             parse_activities sample_lib
               [PDict [("activityId", PInt 7);
                       ("activityName", PStr "Morning run");
                       ("splitSummaries",
                        PList [PDict [("splitType", PStr "RWD_RUN")]])];
                PDict [("activityId", PInt 9)]] "2024-03-01" = Ok acts)
    by (eexists; reflexivity).
  destruct H as (acts & Hacts). exists acts. split; [exact Hacts |].
  exact (proj1 (parse_activities_one_record_per_entry sample_lib _ _ _ Hacts)).
Defined.

Lemma parse_dt_ok (L : pylib) (v : pyval) :
  (negb (truthy v) || is_str v)%bool = true ->
  exists r, _parse_dt L v = Ok r.
Proof.
  intros H. unfold _parse_dt.
  destruct (truthy v) eqn:Ht; simpl in *; [| eauto].
  destruct v; try discriminate H. unfold py_strptime.
  destruct (lib_strptime L s _); eauto.
Qed.

Lemma parse_splits_ok (l : list pyval) :
  forallb is_dict l = true -> exists rs, mapM parse_split l = Ok rs.
Proof.
  induction l as [| x l IH]; simpl; [eauto |].
  intros H. apply andb_prop in H. destruct H as [Hx Hl].
  destruct x as [ | | | | | | d ]; try discriminate Hx.
  destruct (IH Hl) as (rs & Hrs).
  unfold parse_split at 1. cbn [py_get rbind]. rewrite Hrs. simpl. eauto.
Qed.

Lemma iter_splits_ok (v : pyval) :
  splits_ok v = true ->
  exists sps,
    py_iter (py_or v (PList [])) = Ok sps /\ forallb is_dict sps = true.
Proof.
  unfold splits_ok, py_or. intros H.
  destruct (truthy v) eqn:Ht; simpl in H.
  - destruct v; try discriminate H. simpl. eauto.
  - exists []. split; reflexivity.
Qed.

Lemma parse_activity_returns (L : pylib) (target_date : string)
  (day : date) (e : pyval) :
  lib_date_fromisoformat L target_date = Some day ->
  entry_ok e = true ->
  exists a, parse_activity L target_date e = Ok a.
Proof.
  intros Hday He. destruct e as [ | | | | | | d ]; try discriminate He.
  unfold entry_ok in He.
  repeat (apply andb_prop in He; destruct He as [He ?]).
  destruct (parse_dt_ok L (dict_get d "startTimeLocal")) as (t1 & Ht1);
    [assumption |].
  destruct (parse_dt_ok L (dict_get d "startTimeGMT")) as (t2 & Ht2);
    [assumption |].
  destruct (iter_splits_ok (dict_get d "splitSummaries")) as (sps & Hit & Hd);
    [assumption |].
  destruct (parse_splits_ok sps Hd) as (rs & Hrs).
  unfold parse_activity. cbn [py_get rbind py_getitem].
  rewrite He. cbn [rbind py_fromisoformat]. rewrite Hday.
  rewrite (py_or_shape (dict_get d "activityType")) by assumption.
  cbn [py_get rbind]. rewrite Ht1, Ht2. cbn [py_get rbind].
  rewrite Hit. cbn [rbind]. rewrite Hrs. cbn [rbind]. eauto.
Qed.

(** X6. [parse_activities] returns a list whenever the target date is an
    ISO date and every entry is a mapping with an [activityId], an
    [activityType] that is a mapping or falsy, start times that are
    strings or falsy, and a [splitSummaries] that is falsy or a list of
    mappings.  A start time that does not match the pattern, a missing
    name or measurement do not make it raise. *)
Theorem parse_activities_returns (L : pylib) (entries : list pyval)
  (target_date : string) (day : date) :
  lib_date_fromisoformat L target_date = Some day ->
  forallb entry_ok entries = true ->
  exists acts, parse_activities L entries target_date = Ok acts.
Proof.
  intros Hday. unfold parse_activities.
  induction entries as [| e entries IH]; simpl; [eauto |].
  intros H. apply andb_prop in H. destruct H as [He Hl].
  destruct (parse_activity_returns L target_date day e Hday He) as (a & Ha).
  destruct (IH Hl) as (acts & Hacts).
  rewrite Ha, Hacts. simpl. eauto.
Qed.

Lemma parse_activities_returns_witness :
  exists acts,
    parse_activities sample_lib
      [PDict [("activityId", PInt 7); ("startTimeLocal", PStr "yesterday");
              ("activityType", PNone);
              ("splitSummaries", PList [PDict [("noOfSplits", PInt 3)]])]]
      "2024-03-01" = Ok acts.
Proof.
  apply (parse_activities_returns sample_lib _ "2024-03-01" (mkdate 2024 3 1));
    reflexivity.
Defined.

(** X7. [parse_activities] stops at the first entry that raises and
    raises what that entry raised, whatever comes after it.  An entry
    that is no mapping raises [AttributeError], and so does a mapping
    whose [activityType] is truthy but no mapping; a start time that is
    truthy but no string raises [TypeError]. *)
Theorem parse_activities_first_error (L : pylib) (target_date : string)
  (before after : list pyval) (e : pyval) (parsed : list Activity.t)
  (exc : pyexc) :
  parse_activities L before target_date = Ok parsed ->
  parse_activities L [e] target_date = Raise exc ->
  parse_activities L (before ++ e :: after) target_date = Raise exc
  /\ (forall v, is_dict v = false ->
        parse_activities L [v] target_date = Raise AttributeError)
  /\ (forall d, dict_has d "activityId" = true ->
        lib_date_fromisoformat L target_date <> None ->
        shape_ok (dict_get d "activityType") = false ->
        parse_activities L [PDict d] target_date = Raise AttributeError)
  /\ (forall d v, dict_has d "activityId" = true ->
        lib_date_fromisoformat L target_date <> None ->
        shape_ok (dict_get d "activityType") = true ->
        dict_get d "startTimeLocal" = v ->
        truthy v = true -> is_str v = false ->
        parse_activities L [PDict d] target_date = Raise TypeError).
Proof.
  intros Hb He. unfold parse_activities in *.
  repeat match goal with |- _ /\ _ => split end.
  - rewrite mapM_app, Hb. cbn [rbind mapM] in *.
    destruct (parse_activity L target_date e) as [a | x]; [discriminate He |].
    simpl in He. inversion He. reflexivity.
  - intros v Hv. destruct v; try discriminate Hv; reflexivity.
  - intros d Hid Hday Hty. cbn [mapM]. unfold parse_activity.
    cbn [py_get rbind py_getitem]. rewrite Hid. cbn [rbind py_fromisoformat].
    destruct (lib_date_fromisoformat L target_date); [| contradiction].
    cbn [rbind]. unfold shape_ok in Hty. apply orb_false_elim in Hty.
    destruct Hty as [Ht Hd]. apply negb_false_iff in Ht.
    unfold py_or. rewrite Ht.
    destruct (dict_get d "activityType"); try discriminate Hd; reflexivity.
  - intros d v Hid Hday Hty Hv Ht Hs. cbn [mapM]. unfold parse_activity.
    cbn [py_get rbind py_getitem]. rewrite Hid. cbn [rbind py_fromisoformat].
    destruct (lib_date_fromisoformat L target_date); [| contradiction].
    cbn [rbind]. rewrite (py_or_shape _ Hty). cbn [py_get rbind].
    rewrite Hv. unfold _parse_dt at 1. rewrite Ht. cbn [negb].
    destruct v; try discriminate Hs; try discriminate Ht; reflexivity.
Qed.

Lemma parse_activities_first_error_witness :
  parse_activities sample_lib
    ([PDict [("activityId", PInt 7)]]
     ++ PDict [("activityId", PInt 8); ("startTimeLocal", PInt 1709278200)]
     :: [PDict [("activityId", PInt 9)]]) "2024-03-01"
  = Raise TypeError.
Proof.
  assert (H : exists parsed,
             parse_activities sample_lib [PDict [("activityId", PInt 7)]]
               "2024-03-01" = Ok parsed) by (eexists; reflexivity).
  destruct H as (parsed & Hp).
  apply (parse_activities_first_error sample_lib "2024-03-01"
           [PDict [("activityId", PInt 7)]] [PDict [("activityId", PInt 9)]]
           (PDict [("activityId", PInt 8); ("startTimeLocal", PInt 1709278200)])
           parsed TypeError Hp).
  reflexivity.
Defined.

(** X8. A calendar date that is present but unusable is an error, not a
    missing record: in the sleep and in the HRV parser a non-empty string
    that is no ISO date raises [ValueError] and a truthy value that is no
    string raises [TypeError]. *)
Theorem unusable_date_raises (L : pylib) (payload sub : list (string * pyval))
  (v : pyval) :
  dict_get sub "calendarDate" = v ->
  truthy v = true ->
  (dict_get payload "dailySleepDTO" = PDict sub ->
     (forall str, v = PStr str -> lib_date_fromisoformat L str = None ->
        parse_daily_sleep L (PDict payload) = Raise ValueError)
     /\ (is_str v = false ->
           parse_daily_sleep L (PDict payload) = Raise TypeError))
  /\ (dict_get payload "hrvSummary" = PDict sub ->
        (forall str, v = PStr str -> lib_date_fromisoformat L str = None ->
           parse_daily_hrv L (PDict payload) = Raise ValueError)
        /\ (is_str v = false ->
              parse_daily_hrv L (PDict payload) = Raise TypeError)).
Proof.
  intros Hv Ht.
  assert (Hsub : truthy (PDict sub) = true).
  { destruct sub; [| reflexivity]. simpl in Hv. subst v. discriminate Ht. }
  assert (Hor : py_or (PDict sub) (PDict []) = PDict sub).
  { unfold py_or. rewrite Hsub. reflexivity. }
  split; intros Hp; split.
  - intros str -> Hiso. unfold parse_daily_sleep.
    cbn [py_get rbind]. rewrite Hp, Hor, Hsub.
    cbn [negb py_get rbind]. rewrite Hv, Ht.
    cbn [negb py_fromisoformat]. rewrite Hiso. reflexivity.
  - intros Hs. unfold parse_daily_sleep.
    cbn [py_get rbind]. rewrite Hp, Hor, Hsub.
    cbn [negb py_get rbind]. rewrite Hv, Ht. cbn [negb].
    destruct v; try discriminate Hs; reflexivity.
  - intros str -> Hiso. unfold parse_daily_hrv.
    cbn [py_get rbind]. rewrite Hp, Hor, Hsub.
    cbn [negb py_get rbind]. rewrite Hv, Ht.
    cbn [negb py_fromisoformat]. rewrite Hiso. reflexivity.
  - intros Hs. unfold parse_daily_hrv.
    cbn [py_get rbind]. rewrite Hp, Hor, Hsub.
    cbn [negb py_get rbind]. rewrite Hv, Ht. cbn [negb].
    destruct v; try discriminate Hs; reflexivity.
Qed.

Lemma unusable_date_raises_witness :
  parse_daily_sleep sample_lib
    (PDict [("dailySleepDTO", PDict [("calendarDate", PStr "1 March 2024")])])
  = Raise ValueError
  /\ parse_daily_hrv sample_lib
       (PDict [("hrvSummary", PDict [("calendarDate", PInt 20240301)])])
     = Raise TypeError.
Proof.
  split.
  - pose proof (unusable_date_raises sample_lib
                  [("dailySleepDTO",
                    PDict [("calendarDate", PStr "1 March 2024")])]
                  [("calendarDate", PStr "1 March 2024")] (PStr "1 March 2024")
                  eq_refl eq_refl) as [Hs _].
    destruct (Hs eq_refl) as [Hv _].
    exact (Hv "1 March 2024" eq_refl eq_refl).
  - pose proof (unusable_date_raises sample_lib
                  [("hrvSummary", PDict [("calendarDate", PInt 20240301)])]
                  [("calendarDate", PInt 20240301)] (PInt 20240301)
                  eq_refl eq_refl) as [_ Hh].
    destruct (Hh eq_refl) as [_ Ht].
    exact (Ht eq_refl).
Defined.

(** X9. On a payload whose [hrvSummary] is a mapping with an ISO date
    [parse_daily_hrv] always returns a record for that date: the three
    averages are the normalised values of their keys, [status] is passed
    through as it is, and the three baseline fields are the normalised
    values of the baseline's keys, with a baseline that is no mapping
    read as an empty one. *)
Theorem parse_daily_hrv_returns (L : pylib)
  (payload summary : list (string * pyval)) (str : string) (day : date) :
  dict_get payload "hrvSummary" = PDict summary ->
  dict_get summary "calendarDate" = PStr str -> str <> "" ->
  lib_date_fromisoformat L str = Some day ->
  exists r,
    parse_daily_hrv L (PDict payload) = Ok (Some r)
    /\ DailyHrv.calendar_date r = day
    /\ DailyHrv.weekly_avg r = _sentinel (dict_get summary "weeklyAvg")
    /\ DailyHrv.last_night_avg r = _sentinel (dict_get summary "lastNightAvg")
    /\ DailyHrv.last_night_5min_high r
       = _sentinel (dict_get summary "lastNight5MinHigh")
    /\ DailyHrv.status r = dict_get summary "status"
    /\ DailyHrv.baseline_low_upper r
       = _sentinel (dict_get (items (dict_get summary "baseline")) "lowUpper")
    /\ DailyHrv.baseline_balanced_low r
       = _sentinel (dict_get (items (dict_get summary "baseline")) "balancedLow")
    /\ DailyHrv.baseline_balanced_upper r
       = _sentinel
           (dict_get (items (dict_get summary "baseline")) "balancedUpper").
Proof.
  intros Hsm Hdate Hs Hiso.
  assert (Hts : truthy (PStr str) = true).
  { simpl. destruct (String.eqb_spec str ""); [contradiction | reflexivity]. }
  assert (Hor : py_or (PDict summary) (PDict []) = PDict summary).
  { unfold py_or. rewrite (dict_with_key_truthy _ _ _ Hdate). reflexivity. }
  unfold parse_daily_hrv.
  cbn [py_get rbind]. rewrite Hsm, Hor.
  rewrite (dict_with_key_truthy _ _ _ Hdate).
  cbn [negb py_get rbind]. rewrite Hdate, Hts.
  cbn [negb py_fromisoformat rbind]. rewrite Hiso.
  cbn [py_get rbind]. rewrite !baseline_field_value. cbn [rbind].
  eexists. repeat split.
Qed.

Lemma parse_daily_hrv_returns_witness :
  exists r,
    parse_daily_hrv sample_lib
      (PDict [("hrvSummary",
               PDict [("calendarDate", PStr "2024-03-01");
                      ("baseline", PDict [("lowUpper", PInt (-2));
                                          ("balancedLow", PInt 31)])])])
    = Ok (Some r)
    /\ DailyHrv.baseline_low_upper r = PNone
    /\ DailyHrv.baseline_balanced_low r = PInt 31.
Proof.
  destruct (parse_daily_hrv_returns sample_lib
              [("hrvSummary",
                PDict [("calendarDate", PStr "2024-03-01");
                       ("baseline", PDict [("lowUpper", PInt (-2));
                                           ("balancedLow", PInt 31)])])]
              [("calendarDate", PStr "2024-03-01");
               ("baseline", PDict [("lowUpper", PInt (-2));
                                   ("balancedLow", PInt 31)])]
              "2024-03-01" (mkdate 2024 3 1))
    as (r & Hr & _ & _ & _ & _ & _ & Hlow & Hbal & _);
    try reflexivity; try discriminate.
  exists r. split; [exact Hr |]. split; [exact Hlow | exact Hbal].
Defined.

(** ** What the parse phase hands over *)

(** X10. When the parse phase returns, [rows] holds at most one item per
    daily table, in the order summary, sleep, HRV, each under the name of
    its table and holding what the parser of that table returned; a
    source yields no item exactly when its payload is falsy or, for sleep
    and HRV, when its parser returned no record.  The activities are the
    parsed entries of a non-empty list payload, and none otherwise. *)
Theorem parse_phase_rows (L : pylib) (target_date : string)
  (sb h sl hr ac : pyval) (rows : list (string * daily_row))
  (activities : list Activity.t) :
  parse_phase L target_date sb h sl hr ac = Ok (rows, activities) ->
  exists o1 o2 o3,
    rows = daily_rows o1 o2 o3
    /\ match o1 with
       | Some r => truthy sb = true /\ parse_daily_summary L sb h = Ok r
       | None => truthy sb = false
       end
    /\ match o2 with
       | Some r => truthy sl = true /\ parse_daily_sleep L sl = Ok (Some r)
       | None => truthy sl = false \/ parse_daily_sleep L sl = Ok None
       end
    /\ match o3 with
       | Some r => truthy hr = true /\ parse_daily_hrv L hr = Ok (Some r)
       | None => truthy hr = false \/ parse_daily_hrv L hr = Ok None
       end
    /\ ((activities = [] /\ (truthy ac = false \/ is_list ac = false))
        \/ exists l, ac = PList l /\ l <> []
                     /\ parse_activities L l target_date = Ok activities).
Proof.
  unfold parse_phase. intros H.
  apply rbind_ok in H. destruct H as (rows1 & H1 & H).
  apply rbind_ok in H. destruct H as (rows2 & H2 & H).
  apply rbind_ok in H. destruct H as (rows3 & H3 & H).
  apply rbind_ok in H. destruct H as (acts & H4 & H).
  inversion H; subst rows3 acts; clear H.
  assert (E1 : exists o1, rows1 = daily_rows o1 None None
                 /\ match o1 with
                    | Some r => truthy sb = true
                                /\ parse_daily_summary L sb h = Ok r
                    | None => truthy sb = false
                    end).
  { destruct (truthy sb).
    - apply rbind_ok in H1. destruct H1 as (r & Hr & H1).
      inversion H1. exists (Some r). auto.
    - inversion H1. exists None. auto. }
  destruct E1 as (o1 & -> & Ho1).
  assert (E2 : exists o2, rows2 = daily_rows o1 o2 None
                 /\ match o2 with
                    | Some r => truthy sl = true
                                /\ parse_daily_sleep L sl = Ok (Some r)
                    | None => truthy sl = false
                              \/ parse_daily_sleep L sl = Ok None
                    end).
  { destruct (truthy sl).
    - apply rbind_ok in H2. destruct H2 as ([r |] & Hr & H2); inversion H2.
      + exists (Some r). unfold daily_rows. destruct o1; auto.
      + exists None. auto.
    - inversion H2. exists None. auto. }
  destruct E2 as (o2 & -> & Ho2).
  assert (E3 : exists o3, rows = daily_rows o1 o2 o3
                 /\ match o3 with
                    | Some r => truthy hr = true
                                /\ parse_daily_hrv L hr = Ok (Some r)
                    | None => truthy hr = false
                              \/ parse_daily_hrv L hr = Ok None
                    end).
  { destruct (truthy hr).
    - apply rbind_ok in H3. destruct H3 as ([r |] & Hr & H3); inversion H3.
      + exists (Some r). unfold daily_rows. destruct o1, o2; auto.
      + exists None. auto.
    - inversion H3. exists None. auto. }
  destruct E3 as (o3 & -> & Ho3).
  exists o1, o2, o3. repeat split; try assumption.
  destruct (truthy ac) eqn:Ht; simpl in H4.
  - destruct ac as [ | | | | | l | ]; simpl in H4;
      try (inversion H4; left; split; [reflexivity | right; reflexivity]).
    right. exists l. repeat split; [| exact H4].
    intros ->. discriminate Ht.
  - inversion H4. left. auto.
Qed.

Lemma parse_phase_rows_witness :
  exists o1 o2 o3 activities,
    parse_phase sample_lib "2024-03-01"
      (PDict [("calendarDate", PStr "2024-03-01")]) PNone
      (PDict [("dailySleepDTO", PNone)])
      (PDict [("hrvSummary", PDict [("calendarDate", PStr "2024-03-01")])])
      (PList [])
    = Ok (daily_rows o1 o2 o3, activities)
    /\ o2 = None /\ activities = [].
Proof.
  assert (H : exists rows activities,
             parse_phase sample_lib "2024-03-01"
               (PDict [("calendarDate", PStr "2024-03-01")]) PNone
               (PDict [("dailySleepDTO", PNone)])
               (PDict [("hrvSummary",
                        PDict [("calendarDate", PStr "2024-03-01")])])
               (PList [])
             = Ok (rows, activities)) by (do 2 eexists; reflexivity).
  destruct H as (rows & activities & H).
  destruct (parse_phase_rows _ _ _ _ _ _ _ _ _ H)
    as (o1 & o2 & o3 & -> & _ & Ho2 & _ & Hacts).
  exists o1, o2, o3, activities. split; [exact H |]. split.
  - destruct o2 as [r |]; [| reflexivity].
    destruct Ho2 as [_ Hs]. vm_compute in Hs. discriminate Hs.
  - destruct Hacts as [[Ha _] | (l & Hl & Hne & _)]; [exact Ha |].
    inversion Hl; subst l. contradiction.
Defined.

(** X11. An exception in the parse phase ends the run before anything is
    persisted: the database is the one the run started with and no call
    reaches the persistence layer.  In particular a non-empty stats
    mapping without [calendarDate] ends the run with [KeyError], whatever
    the other four sources returned. *)
Theorem parse_error_persists_nothing (L : pylib) (faults : nat -> bool)
  (target_date : string) (db : database) :
  (forall sb h sl hr ac e,
     parse_phase L target_date sb h sl hr ac = Raise e ->
     parse_and_persist L faults target_date sb h sl hr ac db
     = (Uncaught e, db, []))
  /\ (forall s h sl hr ac,
        s <> [] -> dict_has s "calendarDate" = false ->
        parse_and_persist L faults target_date (PDict s) h sl hr ac db
        = (Uncaught (KeyError "calendarDate"), db, [])).
Proof.
  split.
  - intros sb h sl hr ac e H. unfold parse_and_persist. rewrite H. reflexivity.
  - intros s h sl hr ac Hs Hk. unfold parse_and_persist, parse_phase.
    destruct s as [| kv s]; [contradiction |]. cbn [truthy].
    unfold parse_daily_summary. cbn [py_getitem]. rewrite Hk. reflexivity.
Qed.

Lemma parse_error_persists_nothing_witness :
  parse_and_persist sample_lib no_faults "2024-03-01"
    (PDict [("totalSteps", PInt 9000)]) PNone PNone
    (PDict [("hrvSummary", PDict [("calendarDate", PStr "2024-03-01")])])
    PNone db_three_splits
  = (Uncaught (KeyError "calendarDate"), db_three_splits, []).
Proof.
  destruct (parse_error_persists_nothing sample_lib no_faults "2024-03-01"
              db_three_splits) as [_ H].
  apply (H [("totalSteps", PInt 9000)]); [discriminate | reflexivity].
Defined.

(** ** What a returning persist phase leaves in the tables *)

Lemma write_stores t o : stored_in (write_tabs t o) o.
Proof.
  destruct t as [[[t1 t2] t3] t4].
  destruct o as [[r | r | r] | k a | sp]; cbn; try apply lookup_insert_eq.
  exact I.
Qed.

Lemma write_keeps t o' o :
  same_slot o' o = false -> stored_in t o -> stored_in (write_tabs t o') o.
Proof.
  destruct t as [[[t1 t2] t3] t4].
  destruct o' as [[r' | r' | r'] | k' a' | sp'],
           o as [[r | r | r] | k a | sp]; cbn; intros Hs H; try exact H.
  all: apply bool_decide_eq_false in Hs;
       rewrite lookup_insert_ne by exact Hs; exact H.
Qed.

Lemma fold_keeps (l : list pending_obj) t o :
  Forall (fun o' => same_slot o' o = false) l ->
  stored_in t o -> stored_in (fold_left write_tabs l t) o.
Proof.
  intros Hl. revert t. induction Hl as [| o' l Ho' _ IH]; intros t H.
  - exact H.
  - cbn [fold_left]. apply IH. apply write_keeps; assumption.
Qed.

Lemma fold_stores (pre post : list pending_obj) t o :
  Forall (fun o' => same_slot o' o = false) post ->
  stored_in (fold_left write_tabs (pre ++ o :: post) t) o.
Proof.
  intros H. rewrite fold_left_app. cbn [fold_left].
  apply fold_keeps; [exact H | apply write_stores].
Qed.

Lemma activities_other_slot (l : list Activity.t) (o : pending_obj) :
  Forall (fun a => same_slot
                     (PendActivity (act_key a) (Activity.with_split_summaries a []))
                     o = false) l ->
  Forall (fun o' => same_slot o' o = false)
    (map (fun a => PendActivity (act_key a) (Activity.with_split_summaries a []))
       l).
Proof. induction 1; constructor; assumption. Qed.



(** ** What a returning persist phase leaves alone *)

Lemma write_tabs_other_date t o (d : date) :
  (forall r, o = PendDaily r -> row_date r <> d) ->
  (write_tabs t o).1.1.1 !! d = t.1.1.1 !! d
  /\ (write_tabs t o).1.1.2 !! d = t.1.1.2 !! d
  /\ (write_tabs t o).1.2 !! d = t.1.2 !! d.
Proof.
  destruct t as [[[t1 t2] t3] t4]. intros H.
  destruct o as [[r | r | r] | k a | sp]; cbn; repeat split; try reflexivity.
  all: apply lookup_insert_ne; exact (H _ eq_refl).
Qed.

Lemma write_tabs_other_key t o (z : Z) :
  (forall k a, o = PendActivity k a -> k <> z) ->
  (write_tabs t o).2 !! z = t.2 !! z.
Proof.
  destruct t as [[[t1 t2] t3] t4]. intros H.
  destruct o as [[r | r | r] | k a | sp]; cbn; try reflexivity.
  apply lookup_insert_ne. exact (H _ _ eq_refl).
Qed.

Lemma fold_tabs_other_date (l : list pending_obj) t (d : date) :
  Forall (fun o => forall r, o = PendDaily r -> row_date r <> d) l ->
  (fold_left write_tabs l t).1.1.1 !! d = t.1.1.1 !! d
  /\ (fold_left write_tabs l t).1.1.2 !! d = t.1.1.2 !! d
  /\ (fold_left write_tabs l t).1.2 !! d = t.1.2 !! d.
Proof.
  intros H. revert t. induction H as [| o l Ho _ IH]; intros t; [auto |].
  cbn [fold_left]. destruct (IH (write_tabs t o)) as (H1 & H2 & H3).
  destruct (write_tabs_other_date t o d Ho) as (E1 & E2 & E3).
  rewrite H1, H2, H3. auto.
Qed.

Lemma fold_tabs_other_key (l : list pending_obj) t (z : Z) :
  Forall (fun o => forall k a, o = PendActivity k a -> k <> z) l ->
  (fold_left write_tabs l t).2 !! z = t.2 !! z.
Proof.
  intros H. revert t. induction H as [| o l Ho _ IH]; intros t; [auto |].
  cbn [fold_left]. rewrite IH. apply write_tabs_other_key. exact Ho.
Qed.

Lemma rows_drop_other (z k : Z) (l : list ActivitySplitSummary.t) :
  k <> z ->
  List.filter (split_of z) (List.filter (fun r => negb (split_of k r)) l)
  = List.filter (split_of z) l.
Proof.
  intros Hne. rewrite filter_filter_andb. apply filter_pointwise.
  intros r. rewrite !split_of_has_key.
  destruct (has_key z (row_values r)) eqn:Hz.
  - rewrite (has_key_two z k _ Hne Hz). reflexivity.
  - apply andb_false_r.
Qed.

Lemma fold_write_rows_other (z : Z) (P : list pending_obj) (st : store)
  (n : Z) :
  Forall (fun sp => split_of z sp = false) (pending_splits P) ->
  List.filter (split_of z)
    (tbl_activity_split_summaries (fst (fold_left write_obj P (st, n))))
  = List.filter (split_of z) (tbl_activity_split_summaries st).
Proof.
  revert st n. induction P as [| o P IH]; intros st n H; [reflexivity |].
  cbn [fold_left].
  destruct o as [[r | r | r] | key a | sp]; cbn [write_obj];
    try (rewrite IH by exact H; reflexivity).
  cbn [pending_splits flat_map app] in H. inversion H as [| ? ? Hsp HP]; subst.
  rewrite IH by exact HP.
  cbn [set_splits tbl_activity_split_summaries].
  rewrite List.filter_app. cbn [List.filter].
  change (split_of z (with_id sp n)) with (split_of z sp).
  rewrite Hsp. apply app_nil_r.
Qed.

Lemma fresh_splits_other (z : Z) (act : Activity.t) :
  Activity.activity_id act <> PInt z ->
  Forall (fun sp => split_of z sp = false) (pending_splits (fresh_splits act)).
Proof.
  intros Hne. unfold fresh_splits.
  induction (Activity.split_summaries act) as [| sp l IH]; [constructor |].
  cbn [map pending_splits flat_map app]. constructor; [| exact IH].
  unfold split_of. cbn.
  destruct (Activity.activity_id act) as [ | | k | | | | ]; try reflexivity.
  apply Z.eqb_neq. congruence.
Qed.

Lemma loop_rows_other (z : Z) (activities : list Activity.t) (s : session) :
  Forall int_id activities ->
  Forall (fun a => Activity.activity_id a <> PInt z) activities ->
  Forall (fun sp => split_of z sp = false) (pending_splits (pending s)) ->
  List.filter (split_of z)
    (tbl_activity_split_summaries (txn (fold_left after_activity activities s)))
  = List.filter (split_of z) (tbl_activity_split_summaries (txn s))
  /\ Forall (fun sp => split_of z sp = false)
       (pending_splits (pending (fold_left after_activity activities s))).
Proof.
  intros Hint. revert s.
  induction Hint as [| a l Ha _ IH]; intros s Hne HP; [auto |].
  inversion Hne as [| ? ? Hane Hlne]; subst.
  cbn [fold_left].
  destruct (IH (after_activity s a) Hlne) as [E HP'].
  - cbn [after_activity pending]. apply fresh_splits_other. exact Hane.
  - split; [| exact HP']. rewrite E.
    cbn [after_activity txn]. rewrite fold_write_rows_other.
    + cbn [set_splits tbl_activity_split_summaries].
      apply rows_drop_other. apply act_key_other; assumption.
    + unfold pending_splits. rewrite flat_map_app. cbn [flat_map].
      rewrite !app_nil_r. exact HP.
Qed.



(** ** The session calls of a failing run *)

Lemma grows_bind {A B} (m : SM A) (k : A -> SM B) :
  grows m -> (forall a, grows (k a)) -> grows (sbind m k).
Proof.
  intros Hm Hk s. unfold sbind.
  destruct (Hm s) as (l & El & Fl).
  destruct (m s) as [[a | e] s'] eqn:E; cbn [snd] in *.
  - destruct (Hk a s') as (l' & El' & Fl').
    exists (l ++ l'). rewrite El', El, app_assoc. split; [reflexivity |].
    apply List.Forall_app. auto.
  - exists l. auto.
Qed.

Lemma grows_silent {A} (m : SM A) :
  (forall s, calls (snd (m s)) = calls s) -> grows m.
Proof.
  intros H s. exists []. rewrite H, app_nil_r. split; [reflexivity | constructor].
Qed.

Lemma grows_record (c : call) : inner_call c -> grows (record_call c).
Proof.
  intros H s. exists [c]. split; [reflexivity | constructor; [exact H | constructor]].
Qed.

Lemma grows_for_each {A} (f : A -> SM unit) (l : list A) :
  (forall x, grows (f x)) -> grows (for_each f l).
Proof.
  intros H. induction l as [| x l IH]; cbn [for_each].
  - apply grows_silent. reflexivity.
  - apply grows_bind; auto.
Qed.

Lemma grows_round_trip (f : nat -> bool) : grows (round_trip f).
Proof.
  apply grows_silent. intros s. unfold round_trip.
  destruct (f (clock s)); reflexivity.
Qed.

Lemma inner_merge t : inner_call (CallMerge t).
Proof. split; discriminate. Qed.

Lemma inner_delete v : inner_call (CallExecuteDelete v).
Proof. split; discriminate. Qed.

Lemma inner_add v : inner_call (CallAdd v).
Proof. split; discriminate. Qed.

Lemma inner_flush : inner_call CallFlush.
Proof. split; discriminate. Qed.

Lemma inner_commit : inner_call CallCommit.
Proof. split; discriminate. Qed.

Create HintDb calls.
#[local] Hint Resolve grows_record grows_round_trip inner_merge inner_delete
  inner_add inner_flush inner_commit : calls.

Ltac grows_step :=
  first
    [ solve [auto with calls]
    | apply grows_bind; [| intros ?]
    | apply grows_for_each; intros ?
    | apply grows_silent; intros ?; reflexivity ].

Lemma grows_merge_daily f t o : grows (session_merge_daily f t o).
Proof. unfold session_merge_daily. repeat grows_step. Qed.

Lemma grows_persist_activity f act : grows (persist_activity f act).
Proof.
  unfold persist_activity, session_execute_delete, session_merge_activity,
    session_flush, flush_pending, session_add.
  cbn [Activity.with_split_summaries Activity.activity_id].
  destruct (Activity.activity_id act); repeat grows_step.
Qed.

Lemma grows_commit f : grows (session_commit f).
Proof. unfold session_commit, flush_pending. repeat grows_step. Qed.

Lemma grows_persist_body f rows activities :
  grows (persist_body f rows activities).
Proof.
  unfold persist_body.
  apply grows_bind; [| intros ?; apply grows_bind; [| intros ?]].
  - apply grows_for_each. intros ?. apply grows_merge_daily.
  - apply grows_for_each. intros ?. apply grows_persist_activity.
  - apply grows_commit.
Qed.

Lemma lags_refl {A} (m : SM A) : lags m m.
Proof. intros s. left. reflexivity. Qed.

Lemma lags_bind {A B} (m m0 : SM A) (k k0 : A -> SM B) :
  lags m m0 -> (forall a, lags (k a) (k0 a)) -> (forall a, grows (k0 a)) ->
  lags (sbind m k) (sbind m0 k0).
Proof.
  intros Hm Hk Hg s. unfold sbind.
  destruct (Hm s) as [E | [[e He] [l El]]].
  - rewrite <- E. destruct (m s) as [[a | e] s']; [apply Hk | left; reflexivity].
  - right. destruct (m s) as [[a | e'] s']; cbn [fst snd] in *; [discriminate |].
    split; [eauto |].
    destruct (m0 s) as [[a | e0] s0]; cbn [snd] in *; [| eauto].
    destruct (Hg a s0) as (l' & El' & _).
    exists (l ++ l'). rewrite El', El, app_assoc. reflexivity.
Qed.

Lemma lags_for_each {A} (f f0 : A -> SM unit) (l : list A) :
  (forall x, lags (f x) (f0 x)) -> (forall x, grows (f0 x)) ->
  lags (for_each f l) (for_each f0 l).
Proof.
  intros H Hg. induction l as [| x l IH]; cbn [for_each].
  - apply lags_refl.
  - apply lags_bind; auto. intros _. apply grows_for_each. exact Hg.
Qed.

Lemma lags_round_trip (f : nat -> bool) :
  lags (round_trip f) (round_trip no_faults).
Proof.
  intros s. unfold round_trip, no_faults.
  destruct (f (clock s)); [right | left; reflexivity].
  cbn [fst snd calls]. split; [eauto |]. exists []. symmetry. apply app_nil_r.
Qed.

#[local] Hint Resolve lags_refl lags_round_trip : calls.

Ltac lags_step :=
  first
    [ solve [auto with calls]
    | apply lags_bind; [| intros ? | intros ?; repeat grows_step]
    | apply lags_for_each; [intros ? | intros ?; repeat grows_step] ].

Lemma lags_persist_body f rows activities :
  lags (persist_body f rows activities)
       (persist_body no_faults rows activities).
Proof.
  unfold persist_body.
  apply lags_bind;
    [| intros ?; apply lags_bind; [| intros ? | intros ?; apply grows_commit]
     | intros ?; apply grows_bind;
       [apply grows_for_each; intros ?; apply grows_persist_activity
       | intros ?; apply grows_commit]].
  - apply lags_for_each; [| intros ?; apply grows_merge_daily].
    intros kv. unfold session_merge_daily. repeat lags_step.
  - apply lags_for_each; [| intros ?; apply grows_persist_activity].
    intros act.
    unfold persist_activity, session_execute_delete, session_merge_activity,
      session_flush, flush_pending, session_add.
    cbn [Activity.with_split_summaries Activity.activity_id].
    destruct (Activity.activity_id act); repeat lags_step.
  - unfold session_commit, flush_pending. repeat lags_step.
Qed.

(** X14. Whatever round trips fail, the persist phase opens the session
    once, closes it once as its last call, and in between makes a first
    part of the calls of the run without failures: after the failing call
    nothing more is attempted, and a run that returns made them all. *)
Theorem failure_stops_the_block (faults : nat -> bool) (db : database)
  (rows : list (string * daily_row)) (activities : list Activity.t) :
  exists pre rest,
    snd (persist faults db rows activities)
    = CallGetSession :: pre ++ [CallClose]
    /\ snd (persist no_faults db rows activities)
       = CallGetSession :: pre ++ rest ++ [CallClose]
    /\ Forall inner_call (pre ++ rest)
    /\ (fst (fst (persist faults db rows activities)) = Ok tt -> rest = []).
Proof.
  unfold persist.
  destruct (grows_persist_body no_faults rows activities (get_session db))
    as (l0 & E0 & F0).
  destruct (lags_persist_body faults rows activities (get_session db))
    as [E | [[e He] [l El]]].
  - rewrite E.
    destruct (persist_body no_faults rows activities (get_session db))
      as [r s0]; cbn [fst snd session_close calls] in *.
    exists l0, []. rewrite E0, !app_nil_r. cbn [get_session calls app].
    auto.
  - destruct (grows_persist_body faults rows activities (get_session db))
      as (l1 & E1 & F1).
    destruct (persist_body no_faults rows activities (get_session db))
      as [r0 s0].
    destruct (persist_body faults rows activities (get_session db))
      as [r s1]; cbn [fst snd session_close calls] in *.
    exists l1, l. rewrite E1 in El |- *.
    rewrite El. cbn [get_session calls app]. rewrite <- !app_assoc.
    repeat split.
    + rewrite E0, <- app_assoc in El. apply app_inv_head in El.
      rewrite <- El. exact F0.
    + intros Hr. rewrite He in Hr. discriminate Hr.
Qed.

(** ** How a run of [main] ends *)

Lemma persist_shape (f : nat -> bool) (db : database)
  (rows : list (string * daily_row)) (activities : list Activity.t) :
  exists r db' inner,
    persist f db rows activities
    = (r, db', CallGetSession :: inner ++ [CallClose])
    /\ Forall inner_call inner
    /\ (forall e, r = Raise e -> db_rows db' = db_rows db).
Proof.
  unfold persist.
  destruct (grows_persist_body f rows activities (get_session db))
    as (l & El & Fl).
  pose proof (persist_body_until_commit f rows activities (get_session db))
    as Eb.
  destruct (tracks_until_commit f rows activities (get_session db))
    as (Hc & _ & _).
  unfold sbind in Eb.
  destruct (persist_body f rows activities (get_session db)) as [r s].
  exists r, {| db_rows := committed (session_close s);
               db_autoinc := autoinc (session_close s) |}, l.
  cbn [snd] in El. cbn [session_close calls committed db_rows].
  rewrite El. repeat split; [exact Fl |].
  intros e ->.
  destruct (until_commit f rows activities (get_session db))
    as [[[] | e'] s1]; cbn in *; [discriminate |].
  injection Eb as _ ->. exact Hc.
Qed.

Lemma tables_updated_nonempty (rows : list (string * daily_row))
  (activities : list Activity.t) :
  nothing_parsed rows activities = false ->
  (map fst rows ++ match activities with [] => [] | _ => ["activities"] end)%list
  <> [].
Proof.
  destruct rows as [| kv rows]; [| discriminate].
  destruct activities; [discriminate | intros _; discriminate].
Qed.

Lemma parse_and_persist_ends (L : pylib) (faults : nat -> bool)
  (target_date : string) (sb h sl hr ac : pyval) (db : database) :
  match parse_and_persist L faults target_date sb h sl hr ac db with
  | (Exit1, _, _) => False
  | (NothingToSave, db', cs) => db' = db /\ cs = []
  | (Uncaught _, db', _) => db_rows db' = db_rows db
  | (Done tables, _, cs) =>
      tables <> []
      /\ exists inner,
           cs = CallInitDb :: CallGetSession :: inner ++ [CallClose]
           /\ Forall inner_call inner
  end.
Proof.
  unfold parse_and_persist.
  destruct (parse_phase L target_date sb h sl hr ac) as [[rows acts] | e];
    [| reflexivity].
  destruct (nothing_parsed rows acts) eqn:Hn; [auto |].
  destruct (persist_shape faults db rows acts) as (r & db' & inner & E & F & Hr).
  rewrite E. destruct r as [[] | e].
  - split; [apply tables_updated_nonempty; exact Hn | eauto].
  - eapply Hr. reflexivity.
Qed.


(** ** The sleep parser on a well-shaped payload *)

(** X16. On a payload whose [dailySleepDTO] is a mapping with an ISO
    date, whose score and sleep-need objects are mappings or falsy and
    whose two epoch values are scalars, [parse_daily_sleep] always returns
    a record for that date.  Its start and end times are converted from
    the keys [sleepStartTimestampGMT] and [sleepEndTimestampGMT]; the
    scores are read two levels down, with a falsy object read as an empty
    one; body battery, resting heart rate and overnight HRV are read from
    the payload itself, not from the DTO. *)
Theorem parse_daily_sleep_returns (L : pylib)
  (payload dto : list (string * pyval)) (str : string) (day : date) :
  let scores := items (dict_get dto "sleepScores") in
  let need := items (dict_get dto "sleepNeed") in
  fromtimestamp_raises L ->
  dict_get payload "dailySleepDTO" = PDict dto ->
  dict_get dto "calendarDate" = PStr str -> str <> "" ->
  lib_date_fromisoformat L str = Some day ->
  shape_ok (dict_get dto "sleepScores") = true ->
  shape_ok (dict_get scores "overall") = true ->
  shape_ok (dict_get scores "remPercentage") = true ->
  shape_ok (dict_get scores "lightPercentage") = true ->
  shape_ok (dict_get scores "deepPercentage") = true ->
  shape_ok (dict_get dto "sleepNeed") = true ->
  is_scalar (dict_get dto "sleepStartTimestampGMT") = true ->
  is_scalar (dict_get dto "sleepEndTimestampGMT") = true ->
  exists r,
    parse_daily_sleep L (PDict payload) = Ok (Some r)
    /\ DailySleep.calendar_date r = day
    /\ DailySleep.sleep_start_timestamp_local r
       = epoch_value L (dict_get dto "sleepStartTimestampGMT")
    /\ DailySleep.sleep_end_timestamp_local r
       = epoch_value L (dict_get dto "sleepEndTimestampGMT")
    /\ DailySleep.sleep_time_seconds r
       = _sentinel (dict_get dto "sleepTimeSeconds")
    /\ DailySleep.sleep_score_overall r
       = _sentinel (dict_get (items (dict_get scores "overall")) "value")
    /\ DailySleep.sleep_score_qualifier r
       = dict_get (items (dict_get scores "overall")) "qualifierKey"
    /\ DailySleep.rem_percentage r
       = _sentinel (dict_get (items (dict_get scores "remPercentage")) "value")
    /\ DailySleep.light_percentage r
       = _sentinel (dict_get (items (dict_get scores "lightPercentage")) "value")
    /\ DailySleep.deep_percentage r
       = _sentinel (dict_get (items (dict_get scores "deepPercentage")) "value")
    /\ DailySleep.sleep_need_baseline_minutes r
       = _sentinel (dict_get need "baseline")
    /\ DailySleep.sleep_need_actual_minutes r
       = _sentinel (dict_get need "actual")
    /\ DailySleep.body_battery_change r
       = _sentinel (dict_get payload "bodyBatteryChange")
    /\ DailySleep.resting_heart_rate r
       = _sentinel (dict_get payload "restingHeartRate")
    /\ DailySleep.avg_overnight_hrv r
       = _sentinel (dict_get payload "avgOvernightHrv").
Proof.
  intros scores need Hlib Hdto Hdate Hs Hiso Hsc Hov Hrp Hlp Hdp Hsn Ht1 Ht2.
  subst scores need.
  assert (Hts : truthy (PStr str) = true).
  { simpl. destruct (String.eqb_spec str ""); [contradiction | reflexivity]. }
  assert (Hor : py_or (PDict dto) (PDict []) = PDict dto).
  { unfold py_or. rewrite (dict_with_key_truthy _ _ _ Hdate). reflexivity. }
  unfold parse_daily_sleep.
  cbn [py_get rbind]. rewrite Hdto, Hor.
  rewrite (dict_with_key_truthy _ _ _ Hdate).
  cbn [negb py_get rbind]. rewrite Hdate, Hts.
  cbn [negb py_fromisoformat rbind]. rewrite Hiso.
  cbn [py_get rbind].
  rewrite (py_or_shape _ Hsc). cbn [py_get rbind].
  rewrite (py_or_shape _ Hov), (py_or_shape _ Hrp), (py_or_shape _ Hlp),
    (py_or_shape _ Hdp), (py_or_shape _ Hsn).
  rewrite (epoch_ms_scalar L _ Hlib Ht1), (epoch_ms_scalar L _ Hlib Ht2).
  cbn [py_get rbind].
  eexists. repeat split.
Qed.

Lemma parse_daily_sleep_returns_witness :
  exists r,
    parse_daily_sleep sample_lib
      (PDict [("dailySleepDTO",
               PDict [("calendarDate", PStr "2024-03-01");
                      ("sleepStartTimestampGMT", PInt 3600000);
                      ("sleepStartTimestampLocal", PInt 7200000);
                      ("sleepScores",
                       PDict [("overall",
                               PDict [("value", PInt 81);
                                      ("qualifierKey", PStr "GOOD")]);
                              ("remPercentage", PNone)]);
                      ("restingHeartRate", PInt 40)]);
              ("restingHeartRate", PInt 52)])
    = Ok (Some r)
    /\ DailySleep.sleep_start_timestamp_local r
       = Some (mkdatetime (mkdate 1970 1 1) 1 0 0 0)
    /\ DailySleep.sleep_end_timestamp_local r = None
    /\ DailySleep.sleep_score_overall r = PInt 81
    /\ DailySleep.rem_percentage r = PNone
    /\ DailySleep.resting_heart_rate r = PInt 52.
Proof.
  destruct (parse_daily_sleep_returns sample_lib
              [("dailySleepDTO",
                PDict [("calendarDate", PStr "2024-03-01");
                       ("sleepStartTimestampGMT", PInt 3600000);
                       ("sleepStartTimestampLocal", PInt 7200000);
                       ("sleepScores",
                        PDict [("overall",
                                PDict [("value", PInt 81);
                                       ("qualifierKey", PStr "GOOD")]);
                               ("remPercentage", PNone)]);
                       ("restingHeartRate", PInt 40)]);
               ("restingHeartRate", PInt 52)]
              [("calendarDate", PStr "2024-03-01");
               ("sleepStartTimestampGMT", PInt 3600000);
               ("sleepStartTimestampLocal", PInt 7200000);
               ("sleepScores",
                PDict [("overall",
                        PDict [("value", PInt 81);
                               ("qualifierKey", PStr "GOOD")]);
                       ("remPercentage", PNone)]);
               ("restingHeartRate", PInt 40)]
              "2024-03-01" (mkdate 2024 3 1)
              sample_lib_fromtimestamp eq_refl eq_refl
              ltac:(discriminate) eq_refl eq_refl eq_refl eq_refl eq_refl
              eq_refl eq_refl eq_refl eq_refl)
    as (r & Hr & _ & Hstart & Hend & _ & Hov & _ & Hrem & _ & _ & _ & _ & _
        & Hrhr & _).
  exists r. repeat split; assumption.
Defined.

(** ** One engine per process *)

Lemma run_op_reachable (o : Db.op) (g : Db.globals) :
  Db.reachable g ->
  fst (Db.run_op o g) = 0%nat
  /\ Db.reachable (snd (Db.run_op o g))
  /\ Db._engine (snd (Db.run_op o g)) = Some 0%nat.
Proof.
  unfold Db.reachable. intros H.
  destruct g as [[e |] [b |] n]; cbn in H.
  - destruct H as (-> & -> & [Hb | Hb]); [discriminate |].
    injection Hb as ->. destruct o; cbn; auto 6.
  - destruct H as (-> & -> & _). destruct o; cbn; auto 6.
  - destruct H as [H _]. discriminate H.
  - destruct H as [_ ->]. destruct o; cbn; auto 6.
Qed.

